(** * geesefs: inode attributes, reference counting, remote reconciliation
      and extended attributes ([internal/handles.go])

    A shallow embedding of the inode operations of [internal/handles.go]
    and the properties of them that the specification states.

    Conventions of the embedding.
    - A Go [string] is a [string] (a sequence of bytes); a [[]byte] is a
      [list Byte.byte]; the conversions [[]byte(s)] and [string(b)] are
      [list_byte_of_string] and [string_of_list_byte].
    - Fixed-width integers are [Z] with the wrap-around written out
      ([wrap_int64], [to_uint32]); [os.FileMode] is a 32-bit [Z] handled
      with [Z.land], [Z.lor] and [Z.lxor].
    - A pointer or map that the code tests against [nil] is an [option];
      one that the code dereferences without a test ([inode.fs],
      [inode.s3Metadata], which [NewInode] allocates, the [*string] values
      of a metadata map) is the plain value.
    - A Go map is a [gmap].  Values of the inode's metadata maps are never
      [nil] slices (every store in the file is a conversion from a string or
      a [Dup]), so [m[k] != nil] is [m !! k ≠ None].
    - The mutex, the condition variable and the debug logging ([logFuse])
      have no counterpart: the operations are modelled one call at a time.
    - Functions of the Go standard library and of the FUSE library that the
      file calls but does not define ([strings.ToLower], [strconv.ParseUint],
      [fuse.ConvertFileMode], [fuse.ConvertGolangMode]) are section
      variables, as is the order in which [range] visits a map. *)

From Stdlib Require Import ZArith NArith String Ascii List Lia Bool.
From Stdlib Require Import DecimalString.
From stdpp Require Import base option gmap strings list fin_maps sorting.

Local Open Scope Z_scope.

(** ** Machine integers *)

Definition wrap_int64 (z : Z) : Z := (z + 2 ^ 63) mod 2 ^ 64 - 2 ^ 63.
Definition to_uint32 (z : Z) : Z := z mod 2 ^ 32.
Definition to_uint64 (z : Z) : Z := z mod 2 ^ 64.

(** ** [os.FileMode] *)

Definition ModeDir : Z := Z.shiftl 1 31.
Definition ModeSymlink : Z := Z.shiftl 1 27.
Definition ModeDevice : Z := Z.shiftl 1 26.
Definition ModeNamedPipe : Z := Z.shiftl 1 25.
Definition ModeSocket : Z := Z.shiftl 1 24.
Definition ModeSetuid : Z := Z.shiftl 1 23.
Definition ModeSetgid : Z := Z.shiftl 1 22.
Definition ModeCharDevice : Z := Z.shiftl 1 21.
Definition ModeSticky : Z := Z.shiftl 1 20.
Definition ModeIrregular : Z := Z.shiftl 1 19.
Definition ModeType : Z :=
  Z.lor ModeDir (Z.lor ModeSymlink (Z.lor ModeNamedPipe (Z.lor ModeSocket
    (Z.lor ModeDevice (Z.lor ModeCharDevice ModeIrregular))))).
Definition ModePerm : Z := 511.

(** ** [time.Time]

    An instant is the number of seconds since January 1 of year 1 (an
    [int64]) and the nanoseconds within the second; the zero [Time] is
    [(0, 0)].  Monotonic clock readings are not modelled. *)

Record Time := mkTime { t_sec : Z; t_nsec : Z }.

Definition zeroTime : Time := mkTime 0 0.
Definition IsZero (t : Time) : bool := (t_sec t =? 0) && (t_nsec t =? 0).
Definition Before (t u : Time) : bool :=
  (t_sec t <? t_sec u) || ((t_sec t =? t_sec u) && (t_nsec t <? t_nsec u)).
Definition unixToInternal : Z := 62135596800.
(** [time.Unix(sec, 0)] *)
Definition time_Unix (sec : Z) : Time := mkTime (wrap_int64 (sec + unixToInternal)) 0.

(** ** Errors *)

Inductive Error :=
  | ENOENT | ENODATA | EEXIST | EPERM | ENOSYS | ENOTDIR | EISDIR
  | OtherError (msg : string).

(** The outcome of a call that may run into a Go [panic]. *)
Inductive Result (A : Type) :=
  | Ok (a : A)
  | Panic.
Arguments Ok {A} a.
Arguments Panic {A}.

(** ** Strings *)

Abbreviation bytes := (list Byte.byte).

Definition HasPrefix (s p : string) : bool := String.prefix p s.

Fixpoint string_drop (n : nat) (s : string) : string :=
  match n, s with
  | O, _ => s
  | S n', String _ rest => string_drop n' rest
  | S _, EmptyString => EmptyString
  end.

(** [strings.TrimRight(s, "/")] *)
Fixpoint TrimRightSlash (s : string) : string :=
  match s with
  | EmptyString => EmptyString
  | String c rest =>
      match TrimRightSlash rest with
      | EmptyString => if Ascii.eqb c "/" then EmptyString else String c EmptyString
      | r => String c r
      end
  end.

(** [fmt.Sprintf("%d", n)] for an unsigned [n] *)
Definition fmt_d (n : Z) : string := NilZero.string_of_uint (N.to_uint (Z.to_N n)).

(** *** URL unescaping: [url.PathUnescape] *)

Definition ishex (c : ascii) : bool :=
  let n := N_of_ascii c in
  ((48 <=? n) && (n <=? 57) || (97 <=? n) && (n <=? 102) || (65 <=? n) && (n <=? 70))%N.

Definition unhex (c : ascii) : N :=
  let n := N_of_ascii c in
  (if (48 <=? n) && (n <=? 57) then n - 48
   else if (97 <=? n) && (n <=? 102) then n - 97 + 10
   else if (65 <=? n) && (n <=? 70) then n - 65 + 10
   else 0)%N.

(** [None] stands for the [EscapeError] that a [%] not followed by two
    hexadecimal digits raises; in path mode there is no other error and [+]
    stays as it is. *)
Fixpoint PathUnescape (s : string) : option string :=
  match s with
  | EmptyString => Some EmptyString
  | String c rest =>
      if Ascii.eqb c "%" then
        match rest with
        | String h (String l rest') =>
            if ishex h && ishex l then
              match PathUnescape rest' with
              | Some r => Some (String (ascii_of_N (unhex h * 16 + unhex l)) r)
              | None => None
              end
            else None
        | _ => None
        end
      else
        match PathUnescape rest with
        | Some r => Some (String c r)
        | None => None
        end
  end.

(** ASCII lower-casing, the part of [strings.ToLower] that does not depend on
    the Unicode tables. *)
Definition is_upper (c : ascii) : bool :=
  let n := N_of_ascii c in ((65 <=? n) && (n <=? 90))%N.
Definition lower_ascii (c : ascii) : ascii :=
  if is_upper c then ascii_of_N (N_of_ascii c + 32) else c.
Fixpoint string_map (f : ascii -> ascii) (s : string) : string :=
  match s with
  | EmptyString => EmptyString
  | String c rest => String (f c) (string_map f rest)
  end.
Fixpoint string_forallb (p : ascii -> bool) (s : string) : bool :=
  match s with
  | EmptyString => true
  | String c rest => p c && string_forallb p rest
  end.
Definition is_ascii (c : ascii) : bool := (N_of_ascii c <? 128)%N.
Definition ToLowerASCII (s : string) : string := string_map lower_ascii s.

(** ** Data model *)

Definition ST_CACHED : Z := 0.
Definition ST_CREATED : Z := 1.
Definition ST_MODIFIED : Z := 2.
Definition ST_DELETED : Z := 3.

Record InodeAttributes := mkInodeAttributes {
  Size : Z;
  Mtime : Time;
  Ctime : Time;
  Uid : Z;
  Gid : Z;
  Rdev : Z;
  Mode : Z
}.

Record MPUPart := mkMPUPart {
  part_Num : Z;
  part_Offset : Z;
  part_Size : Z;
  part_ETag : string
}.

Definition BUF_CLEAN : Z := 1.
Definition BUF_DIRTY : Z := 2.
Definition BUF_FLUSHED_FULL : Z := 3.
Definition BUF_FLUSHED_CUT : Z := 4.
Definition BUF_FL_CLEARED : Z := 5.

Record FileBuffer := mkFileBuffer {
  buf_offset : Z;
  buf_length : Z;
  buf_state : Z;
  buf_loading : bool;
  buf_onDisk : bool;
  buf_zero : bool;
  buf_recency : Z;
  buf_dirtyID : Z;
  buf_data : option bytes;
  buf_ptr : option Z
}.

(** The attribute record that FUSE is given ([fuseops.InodeAttributes]). *)
Record FuseAttributes := mkFuseAttributes {
  fa_Size : Z;
  fa_Nlink : Z;
  fa_Mode : Z;
  fa_Rdev : Z;
  fa_Atime : Time;
  fa_Mtime : Time;
  fa_Ctime : Time;
  fa_Crtime : Time;
  fa_Uid : Z;
  fa_Gid : Z
}.

(** The fields of [BlobItemOutput] that the file reads. *)
Record BlobItemOutput := mkBlobItemOutput {
  item_Key : option string;
  item_ETag : option string;
  item_LastModified : option Time;
  item_Size : Z;
  item_StorageClass : option string;
  item_Metadata : option (gmap string string)
}.

(** A [HeadBlobOutput] embeds a [BlobItemOutput]. *)
Record HeadBlobOutput := mkHeadBlobOutput {
  head_item : BlobItemOutput
}.

(** A storage backend, as far as [cloud], [fillXattr] and [getXattrMap]
    look at it: which of the two wrapper types it is (and whether the
    wrapper's [Init] fails), the name its [Capabilities] report, and its
    answer to a [HeadBlob] request (an error is an opaque description). *)
Inductive BackendKind :=
  | PlainBackend
  | InitErrorBackend
  | InitWrapperBackend (initFails : bool).

Record StorageBackend := mkStorageBackend {
  bk_kind : BackendKind;
  bk_Name : string;
  bk_HeadBlob : string -> HeadBlobOutput + string
}.

Record DirInodeData := mkDirInodeData {
  dir_cloud : option StorageBackend;
  dir_mountPrefix : string;
  dir_lastOpenDirIdx : Z
}.

(** Modelled from the spec: the multipart upload record
    ([MultipartBlobCommitInput], declared outside [handles.go]) holds the
    backend's upload token and the ordered parts. *)
Record MultipartBlobCommitInput := mkMPU {
  mpu_UploadId : string;
  mpu_Parts : list MPUPart
}.

(** The inode.  [Parent] and [oldParent] are only read in this file, so an
    inode carries the chain of its ancestors.  The fields that no function
    of the file reads or writes are left out, as are [mu] and [readCond]. *)
#[warnings="-register-all"]
Inductive Inode := mkInode {
  Id : Z;
  Name : string;
  Attributes : InodeAttributes;
  AttrTime : Time;
  Parent : option Inode;
  dir : option DirInodeData;
  ImplicitDir : bool;
  CacheState : Z;
  buffers : list FileBuffer;
  oldParent : option Inode;
  oldName : string;
  mpu : option MultipartBlobCommitInput;
  userMetadataDirty : Z;
  userMetadata : option (gmap string bytes);
  s3Metadata : gmap string bytes;
  knownSize : Z;
  knownETag : string;
  refcnt : Z
}.

Definition set_Attributes (v : InodeAttributes) (i : Inode) : Inode :=
  let 'mkInode a b _ d e f g h j k l m n o p q r s := i in
  mkInode a b v d e f g h j k l m n o p q r s.
Definition set_AttrTime (v : Time) (i : Inode) : Inode :=
  let 'mkInode a b c _ e f g h j k l m n o p q r s := i in
  mkInode a b c v e f g h j k l m n o p q r s.
Definition set_dir (v : option DirInodeData) (i : Inode) : Inode :=
  let 'mkInode a b c d e _ g h j k l m n o p q r s := i in
  mkInode a b c d e v g h j k l m n o p q r s.
Definition set_ImplicitDir (v : bool) (i : Inode) : Inode :=
  let 'mkInode a b c d e f _ h j k l m n o p q r s := i in
  mkInode a b c d e f v h j k l m n o p q r s.
Definition set_CacheState (v : Z) (i : Inode) : Inode :=
  let 'mkInode a b c d e f g _ j k l m n o p q r s := i in
  mkInode a b c d e f g v j k l m n o p q r s.
Definition set_buffers (v : list FileBuffer) (i : Inode) : Inode :=
  let 'mkInode a b c d e f g h _ k l m n o p q r s := i in
  mkInode a b c d e f g h v k l m n o p q r s.
Definition set_mpu (v : option MultipartBlobCommitInput) (i : Inode) : Inode :=
  let 'mkInode a b c d e f g h j k l _ n o p q r s := i in
  mkInode a b c d e f g h j k l v n o p q r s.
Definition set_userMetadataDirty (v : Z) (i : Inode) : Inode :=
  let 'mkInode a b c d e f g h j k l m _ o p q r s := i in
  mkInode a b c d e f g h j k l m v o p q r s.
Definition set_userMetadata (v : option (gmap string bytes)) (i : Inode) : Inode :=
  let 'mkInode a b c d e f g h j k l m n _ p q r s := i in
  mkInode a b c d e f g h j k l m n v p q r s.
Definition set_s3Metadata (v : gmap string bytes) (i : Inode) : Inode :=
  let 'mkInode a b c d e f g h j k l m n o _ q r s := i in
  mkInode a b c d e f g h j k l m n o v q r s.
Definition set_knownSize (v : Z) (i : Inode) : Inode :=
  let 'mkInode a b c d e f g h j k l m n o p _ r s := i in
  mkInode a b c d e f g h j k l m n o p v r s.
Definition set_knownETag (v : string) (i : Inode) : Inode :=
  let 'mkInode a b c d e f g h j k l m n o p q _ s := i in
  mkInode a b c d e f g h j k l m n o p q v s.
Definition set_refcnt (v : Z) (i : Inode) : Inode :=
  let 'mkInode a b c d e f g h j k l m n o p q r _ := i in
  mkInode a b c d e f g h j k l m n o p q r v.

Definition set_Size (v : Z) (a : InodeAttributes) : InodeAttributes :=
  mkInodeAttributes v (Mtime a) (Ctime a) (Uid a) (Gid a) (Rdev a) (Mode a).
Definition set_Mtime (v : Time) (a : InodeAttributes) : InodeAttributes :=
  mkInodeAttributes (Size a) v (Ctime a) (Uid a) (Gid a) (Rdev a) (Mode a).
Definition set_Ctime (v : Time) (a : InodeAttributes) : InodeAttributes :=
  mkInodeAttributes (Size a) (Mtime a) v (Uid a) (Gid a) (Rdev a) (Mode a).
Definition set_Uid (v : Z) (a : InodeAttributes) : InodeAttributes :=
  mkInodeAttributes (Size a) (Mtime a) (Ctime a) v (Gid a) (Rdev a) (Mode a).
Definition set_Gid (v : Z) (a : InodeAttributes) : InodeAttributes :=
  mkInodeAttributes (Size a) (Mtime a) (Ctime a) (Uid a) v (Rdev a) (Mode a).
Definition set_Rdev (v : Z) (a : InodeAttributes) : InodeAttributes :=
  mkInodeAttributes (Size a) (Mtime a) (Ctime a) (Uid a) (Gid a) v (Mode a).
Definition set_Mode (v : Z) (a : InodeAttributes) : InodeAttributes :=
  mkInodeAttributes (Size a) (Mtime a) (Ctime a) (Uid a) (Gid a) (Rdev a) v.

(** The mount flags that the file reads ([fs.flags]). *)
Record FlagStorage := mkFlagStorage {
  flag_Uid : Z;
  flag_Gid : Z;
  flag_FileMode : Z;
  flag_DirMode : Z;
  EnableMtime : bool;
  EnablePerms : bool;
  EnableSpecials : bool;
  MtimeAttr : string;
  UidAttr : string;
  GidAttr : string;
  FileModeAttr : string;
  RdevAttr : string;
  SymlinkAttr : string
}.

(** What the inode operations ask of their collaborators, in the order of
    the calls: the conflict warning of [SetFromBlobItem] (with the observed
    ETag and size and the known ones), [resetCache], [ResizeUnlocked],
    [fs.WakeupFlusher], [fs.lfru.Forget] and the backend's [HeadBlob]. *)
Inductive Event :=
  | EvWarnConflict (etag : option string) (size : Z) (known_etag : string) (known_size : Z)
  | EvResetCache (id : Z)
  | EvResizeUnlocked (id : Z) (newSize : Z) (zeroFill finalizeFlushed : bool)
  | EvWakeupFlusher
  | EvLfruForget (id : Z)
  | EvHeadBlob (key : string).

(** The address that the inode table keeps for an inode. *)
Abbreviation InodePtr := positive.

(** The filesystem object ([Goofys]), as far as the file uses it; [trace]
    records the calls to collaborators, the latest last. *)
Record Goofys := mkGoofys {
  flags : FlagStorage;
  rootAttrs : InodeAttributes;
  inodes : gmap Z InodePtr;
  forgotCnt : Z;
  trace : list Event
}.

Definition emit (e : Event) (fs : Goofys) : Goofys :=
  mkGoofys (flags fs) (rootAttrs fs) (inodes fs) (forgotCnt fs) (trace fs ++ [e]).
Definition set_inodes (v : gmap Z InodePtr) (fs : Goofys) : Goofys :=
  mkGoofys (flags fs) (rootAttrs fs) v (forgotCnt fs) (trace fs).
Definition set_forgotCnt (v : Z) (fs : Goofys) : Goofys :=
  mkGoofys (flags fs) (rootAttrs fs) (inodes fs) v (trace fs).


(** ** Concrete data on which the definitions are run *)

Definition sample_flags : FlagStorage :=
  mkFlagStorage 1000 1000 420 493 true true true
    "mtime" "uid" "gid" "mode" "rdev" "--symlink-target".

Definition sample_rootAttrs : InodeAttributes :=
  mkInodeAttributes 4096 (mkTime 63800000000 0) (mkTime 63800000500 0) 1000 1000 0
    (Z.lor 493 ModeDir).

Definition sample_fs : Goofys :=
  mkGoofys sample_flags sample_rootAttrs {[ 1 := 1%positive; 7 := 2%positive ]} 0 [].

(** The same filesystem mounted without special files. *)
Definition sample_fs_plain : Goofys :=
  mkGoofys
    (mkFlagStorage 1000 1000 420 493 true true false
       "mtime" "uid" "gid" "mode" "rdev" "--symlink-target")
    sample_rootAttrs {[ 1 := 1%positive; 7 := 2%positive ]} 0 [].

Definition sample_backend : StorageBackend :=
  mkStorageBackend PlainBackend "s3" (fun _ => inr "NotFound"%string).

Definition sample_root : Inode :=
  mkInode 1 "" sample_rootAttrs (mkTime 63800000000 0) None
    (Some (mkDirInodeData (Some sample_backend) "" (-1))) false ST_CACHED [] None "" None
    0 None ∅ 0 "" 1.

(** A regular file of ten bytes, last seen with ETag [A], with local
    modifications. *)
Definition sample_file : Inode :=
  mkInode 7 "f" (mkInodeAttributes 10 (mkTime 63800000100 0) (mkTime 63800000100 0) 1000 1000 0 420)
    (mkTime 63800000200 0) (Some sample_root) None false ST_MODIFIED
    [mkFileBuffer 0 10 BUF_DIRTY false false false 1 1
       (Some (list_byte_of_string "0123456789")) None]
    None "" None
    0 (Some {[ "foo"%string := list_byte_of_string "bar" ]})
    {[ "etag"%string := list_byte_of_string "A" ]} 10 "A" 1.

(** The same file with nothing to flush. *)
Definition sample_file_cached : Inode :=
  mkInode 7 "f" (mkInodeAttributes 10 (mkTime 63800000100 0) (mkTime 63800000100 0) 1000 1000 0 420)
    (mkTime 63800000200 0) (Some sample_root) None false ST_CACHED
    [mkFileBuffer 0 10 BUF_CLEAN false false false 1 0
       (Some (list_byte_of_string "0123456789")) None]
    None "" None
    0 (Some {[ "foo"%string := list_byte_of_string "bar" ]})
    {[ "etag"%string := list_byte_of_string "A" ]} 10 "A" 1.

(** The remote object after somebody else replaced it. *)
Definition sample_item_changed : BlobItemOutput :=
  mkBlobItemOutput (Some "f"%string) (Some "B"%string) (Some (mkTime 63800000300 0)) 20
    (Some "STANDARD"%string) None.

(** The remote object as the inode knows it, listed again later and
    without an ETag. *)
Definition sample_item_same : BlobItemOutput :=
  mkBlobItemOutput (Some "f"%string) (Some "A"%string) (Some (mkTime 63800000300 0)) 10
    (Some "STANDARD"%string) (Some {[ "k"%string := "v"%string ]}).

Definition sample_item_no_etag : BlobItemOutput :=
  mkBlobItemOutput (Some "f"%string) None (Some (mkTime 63800000300 0)) 10 None None.

Definition sample_now : Time := mkTime 63800000400 0.

(** Instances of the library functions: decimal [ParseUint], mode
    conversions between [os.FileMode] and the Unix [st_mode] layout, the
    listing of a map in key order, and a bytewise escape that keeps the
    printable ASCII characters other than [%]. *)
Definition sample_ParseUint (s : string) (base bitSize : Z) : Z * bool :=
  match NilZero.uint_of_string s with
  | Some d =>
      let v := Z.of_N (N.of_uint d) in
      if v <? 2 ^ bitSize then (v, true) else (2 ^ bitSize - 1, false)
  | None => (0, false)
  end.

Definition S_IFDIR : Z := 16384.
Definition S_IFREG : Z := 32768.
Definition S_IFLNK : Z := 40960.
Definition S_IFMT : Z := 61440.

Definition sample_ConvertFileMode (unixMode : Z) : Z :=
  let perm := Z.land unixMode 511 in
  let t := Z.land unixMode S_IFMT in
  if t =? S_IFDIR then Z.lor perm ModeDir
  else if t =? S_IFLNK then Z.lor perm ModeSymlink
  else if t =? S_IFREG then perm
  else Z.lor perm ModeDevice.

Definition sample_ConvertGolangMode (mode : Z) : Z :=
  let perm := Z.land mode 511 in
  if negb (Z.land mode ModeDevice =? 0) then Z.lor perm 24576
  else if negb (Z.land mode ModeDir =? 0) then Z.lor perm S_IFDIR
  else if negb (Z.land mode ModeSymlink =? 0) then Z.lor perm S_IFLNK
  else Z.lor perm S_IFREG.

Definition sample_rangeOrder (V : Type) (m : gmap string V) : list (string * V) :=
  map_to_list m.

Definition sample_mapAwsError (err : string) : option Error :=
  if String.eqb err "NotFound" then Some ENOENT else Some (OtherError err).

Definition sample_appendChildName (parent child : string) : string :=
  if String.eqb parent "" then child else (parent ++ "/" ++ child)%string.

Definition sample_forgotCnt_wrap (z : Z) : Z := to_uint32 z.

Definition sample_xattrLiteral (c : ascii) : bool :=
  let n := N_of_ascii c in ((32 <=? n) && (n <=? 126) && negb (n =? 37))%N.

(** A directory below the root that is no mount point, a file in it, a
    mount point with the prefix [data/] and a file in that, and a new file
    whose metadata was never fetched. *)
Definition sample_dir : Inode :=
  mkInode 2 "d" (mkInodeAttributes 4096 zeroTime zeroTime 1000 1000 0 (Z.lor 493 ModeDir))
    (mkTime 63800000000 0) (Some sample_root)
    (Some (mkDirInodeData None "" (-1))) false ST_CACHED [] None "" None
    0 None ∅ 0 "" 1.

Definition sample_nested_file : Inode :=
  mkInode 8 "g" (mkInodeAttributes 0 zeroTime zeroTime 1000 1000 0 420)
    (mkTime 63800000000 0) (Some sample_dir) None false ST_CACHED [] None "" None
    0 None ∅ 0 "" 1.

Definition sample_mount : Inode :=
  mkInode 3 "m" (mkInodeAttributes 4096 zeroTime zeroTime 1000 1000 0 (Z.lor 493 ModeDir))
    (mkTime 63800000000 0) (Some sample_root)
    (Some (mkDirInodeData (Some sample_backend) "data/" (-1))) false ST_CACHED [] None "" None
    0 None ∅ 0 "" 1.

Definition sample_mounted_file : Inode :=
  mkInode 9 "h" (mkInodeAttributes 0 zeroTime zeroTime 1000 1000 0 420)
    (mkTime 63800000000 0) (Some sample_mount) None false ST_CACHED [] None "" None
    0 None ∅ 0 "" 1.

Definition sample_file_new : Inode :=
  mkInode 10 "n" (mkInodeAttributes 0 zeroTime zeroTime 1000 1000 0 420)
    (mkTime 63800000000 0) (Some sample_root) None false ST_CREATED [] None "" None
    0 None ∅ 0 "" 1.

(** The iteration of a map in the opposite order. *)
Definition sample_rangeOrder_rev (V : Type) (m : gmap string V) : list (string * V) :=
  reverse (map_to_list m).

(** Two keys that differ in the case of a letter only. *)
Definition sample_meta_Aa : gmap string bytes :=
  {[ "A"%string := list_byte_of_string "one"; "a"%string := list_byte_of_string "two" ]}.

(** ** The operations of [handles.go] *)

Section Handles.

(** [strings.ToLower] *)
Variable ToLower : string -> string.
(** [strconv.ParseUint s base bitSize]: the value and whether [err] is [nil] *)
Variable ParseUint : string -> Z -> Z -> Z * bool.
(** [fuse.ConvertFileMode] and [fuse.ConvertGolangMode] *)
Variable ConvertFileMode : Z -> Z.
Variable ConvertGolangMode : Z -> Z.
(** The order in which a [range] loop visits the entries of a map. *)
Variable rangeOrder : forall V : Type, gmap string V -> list (string * V).
(** [mapAwsError] and [appendChildName], which other files of the package
    define. *)
Variable mapAwsError : string -> option Error.
Variable appendChildName : string -> string -> string.
(** The reduction into the integer type of [fs.forgotCnt], which is declared
    with [Goofys]. *)
Variable forgotCnt_wrap : Z -> Z.
(** The bytes that [xattrEscape] leaves as they are, and the case of the
    hexadecimal digits it writes. *)
Variable xattrLiteral : ascii -> bool.
Variable xattrUpperHex : bool.

(** *** The escape codec *)

Definition hexdigit (n : N) : ascii :=
  (if n <? 10 then ascii_of_N (48 + n)
   else if xattrUpperHex then ascii_of_N (55 + n) else ascii_of_N (87 + n))%N.

(** Modelled from the spec: [xattrEscape] is defined outside [handles.go];
    the spec calls it the URL-escape of the codec that carries arbitrary
    bytes through blob metadata.  A byte is either left as it is or written
    as [%] and its two hexadecimal digits. *)
Fixpoint xattrEscape (s : string) : string :=
  match s with
  | EmptyString => EmptyString
  | String c rest =>
      if xattrLiteral c then String c (xattrEscape rest)
      else String "%" (String (hexdigit (N_of_ascii c / 16))
                         (String (hexdigit (N_of_ascii c mod 16)) (xattrEscape rest)))
  end.

Definition escapeEntry (acc : gmap string string) (kv : string * bytes) : gmap string string :=
  let k := ToLower (xattrEscape (fst kv)) in
  <[k := xattrEscape (string_of_list_byte (snd kv))]> acc.

Definition escapeMetadata (meta : option (gmap string bytes)) : option (gmap string string) :=
  match meta with
  | None => None
  | Some m => Some (fold_left escapeEntry (rangeOrder _ m) ∅)
  end.

Definition unescapeEntry (acc : gmap string bytes) (kv : string * string) : gmap string bytes :=
  match PathUnescape (ToLower (fst kv)) with
  | Some uk =>
      match PathUnescape (snd kv) with
      | Some uv => <[uk := list_byte_of_string uv]> acc
      | None => acc
      end
  | None => acc
  end.

(** Ranging over a [nil] map visits nothing; the result is never [nil]. *)
Definition unescapeMetadata (meta : option (gmap string string)) : option (gmap string bytes) :=
  Some (fold_left unescapeEntry (match meta with Some m => rangeOrder _ m | None => [] end) ∅).

(** *** Collaborators that other files define *)

(** Modelled from the spec: [resetCache] releases all buffers, truncates the
    disk cache file, clears the multipart state and moves the inode to
    CACHED. *)
Definition resetCache (fs : Goofys) (inode : Inode) : Goofys * Inode :=
  (emit (EvResetCache (Id inode)) fs,
   set_CacheState ST_CACHED (set_mpu None (set_buffers [] inode))).

(** Modelled from the spec: [SetCacheState] is the setter through which the
    cache state is written. *)
Definition SetCacheState (state : Z) (inode : Inode) : Inode :=
  set_CacheState state inode.

(** Modelled from the spec: [Dup] duplicates the value bytes. *)
Definition Dup (value : bytes) : bytes := value.

Definition buffers_end (bufs : list FileBuffer) : Z :=
  match last bufs with
  | Some b => buf_offset b + buf_length b
  | None => 0
  end.

Definition zero_chunk (offset length : Z) : FileBuffer :=
  mkFileBuffer offset length BUF_CLEAN false false true 0 0 None None.

Definition cut_buffer (newSize : Z) (b : FileBuffer) : FileBuffer :=
  mkFileBuffer (buf_offset b) (newSize - buf_offset b) (buf_state b) (buf_loading b)
    (buf_onDisk b) (buf_zero b) (buf_recency b) (buf_dirtyID b)
    (take (Z.to_nat (newSize - buf_offset b)) <$> buf_data b) (buf_ptr b).

Fixpoint truncate_buffers (newSize : Z) (bufs : list FileBuffer) : list FileBuffer :=
  match bufs with
  | [] => []
  | b :: rest =>
      if newSize <=? buf_offset b then []
      else if newSize <? buf_offset b + buf_length b then [cut_buffer newSize b]
      else b :: truncate_buffers newSize rest
  end.

(** Modelled from the spec: [ResizeUnlocked newSize zeroFill reset] extends
    or truncates the buffer list to cover [0, newSize): on extend it adds a
    single zero chunk, on shrink it drops or truncates trailing chunks, and
    with [reset] the existing buffers are released first.  The size of the
    attributes follows. *)
Definition ResizeUnlocked (fs : Goofys) (inode : Inode) (newSize : Z) (zeroFill reset : bool)
  : Goofys * Inode :=
  let bufs := if reset then [] else buffers inode in
  let bufs' :=
    if buffers_end bufs <? newSize
    then bufs ++ [zero_chunk (buffers_end bufs) (newSize - buffers_end bufs)]
    else truncate_buffers newSize bufs in
  (emit (EvResizeUnlocked (Id inode) newSize zeroFill reset) fs,
   set_Attributes (set_Size newSize (Attributes inode)) (set_buffers bufs' inode)).

(** *** [NewInode], [touch], [ToDir], [isDir] *)

Definition NewInode (fs : Goofys) (now : Time) (parent : option Inode) (name : string) : Inode :=
  mkInode 0 name
    (mkInodeAttributes 0 zeroTime zeroTime (flag_Uid (flags fs)) (flag_Gid (flags fs)) 0
       (flag_FileMode (flags fs)))
    now parent None false ST_CACHED [] None EmptyString None 0 None ∅ 0 EmptyString 0.

Definition touch (now1 now2 : Time) (inode : Inode) : Inode :=
  set_Attributes (set_Ctime now2 (set_Mtime now1 (Attributes inode))) inode.

Definition ToDir (fs : Goofys) (inode : Inode) : Inode :=
  match dir inode with
  | None =>
      set_dir (Some (mkDirInodeData None EmptyString (-1)))
        (set_Attributes
           (mkInodeAttributes 4096 zeroTime zeroTime (Uid (Attributes inode))
              (Gid (Attributes inode)) 0 (Z.lor (flag_DirMode (flags fs)) ModeDir))
           inode)
  | Some _ => inode
  end.

Definition isDir (inode : Inode) : bool :=
  match dir inode with Some _ => true | None => false end.

(** *** [setUserMeta], [setMetadata], [fillXattrFromHead] *)

Definition setUserMeta (key : string) (value : option bytes) (inode : Inode) : Inode :=
  let m := match userMetadata inode with Some m => m | None => ∅ end in
  let m' := match value with None => delete key m | Some v => <[key := v]> m end in
  set_userMetadataDirty 2 (set_userMetadata (Some m') inode).

(** [string(m[key])]: a missing key reads as the [nil] slice. *)
Definition meta_string (m : gmap string bytes) (key : string) : string :=
  string_of_list_byte (default [] (m !! key)).

Definition setMetadata_mtime (fs : Goofys) (um : gmap string bytes) (inode : Inode) : Inode :=
  if EnableMtime (flags fs) then
    match um !! MtimeAttr (flags fs) with
    | Some mtimeStr =>
        let '(i, ok) := ParseUint (string_of_list_byte mtimeStr) 0 64 in
        if ok then set_Attributes (set_Mtime (time_Unix (wrap_int64 i)) (Attributes inode)) inode
        else inode
    | None => inode
    end
  else inode.

Definition setMetadata_owner (fs : Goofys) (um : gmap string bytes) (inode : Inode) : Inode :=
  if EnablePerms (flags fs) then
    let inode :=
      match um !! UidAttr (flags fs) with
      | Some uidStr =>
          let '(i, ok) := ParseUint (string_of_list_byte uidStr) 0 32 in
          if ok then set_Attributes (set_Uid (to_uint32 i) (Attributes inode)) inode else inode
      | None => inode
      end in
    match um !! GidAttr (flags fs) with
    | Some gidStr =>
        let '(i, ok) := ParseUint (string_of_list_byte gidStr) 0 32 in
        if ok then set_Attributes (set_Gid (to_uint32 i) (Attributes inode)) inode else inode
    | None => inode
    end
  else inode.

Definition setMetadata_mode (fs : Goofys) (um : gmap string bytes) (inode : Inode) : Inode :=
  if EnablePerms (flags fs) || EnableSpecials (flags fs) then
    match um !! FileModeAttr (flags fs) with
    | Some modeStr =>
        let '(i, ok) := ParseUint (string_of_list_byte modeStr) 0 32 in
        if ok then
          let fm := ConvertFileMode (to_uint32 i) in
          let mask := if EnablePerms (flags fs) then ModePerm else 0 in
          let mask :=
            if EnableSpecials (flags fs) && (Z.land (Mode (Attributes inode)) ModeType =? 0)
            then Z.lor mask ModeType else mask in
          let rmMask := Z.lxor (Z.lor ModePerm ModeType) mask in
          let inode :=
            set_Attributes
              (set_Mode (Z.lor (Z.land (Mode (Attributes inode)) rmMask) (Z.land fm mask))
                 (Attributes inode)) inode in
          if negb (Z.land (Mode (Attributes inode)) ModeDevice =? 0) then
            let rdev := fst (ParseUint (meta_string um (RdevAttr (flags fs))) 0 32) in
            set_Attributes (set_Rdev (to_uint32 rdev) (Attributes inode)) inode
          else inode
        else inode
    | None => inode
    end
  else inode.

Definition setMetadata (fs : Goofys) (metadata : option (gmap string string)) (inode : Inode)
  : Inode :=
  let inode := set_userMetadata (unescapeMetadata metadata) inode in
  match userMetadata inode with
  | Some um => setMetadata_mode fs um (setMetadata_owner fs um (setMetadata_mtime fs um inode))
  | None => inode
  end.

Definition fillXattrFromHead (fs : Goofys) (resp : HeadBlobOutput) (inode : Inode) : Inode :=
  let inode :=
    match item_ETag (head_item resp) with
    | Some etag => set_s3Metadata (<["etag"%string := list_byte_of_string etag]> (s3Metadata inode)) inode
    | None => inode
    end in
  let inode :=
    match item_StorageClass (head_item resp) with
    | Some sc =>
        set_s3Metadata (<["storage-class"%string := list_byte_of_string sc]> (s3Metadata inode)) inode
    | None =>
        set_s3Metadata
          (<["storage-class"%string := list_byte_of_string "STANDARD"]> (s3Metadata inode)) inode
    end in
  setMetadata fs (item_Metadata (head_item resp)) inode.

(** *** [SetFromBlobItem] *)

Definition etag_differs (item : BlobItemOutput) (inode : Inode) : bool :=
  match item_ETag item with
  | Some etag => negb (String.eqb (knownETag inode) etag)
  | None => false
  end.

(** [now] is the reading of [time.Now()]. *)
Definition SetFromBlobItem (fs : Goofys) (now : Time) (item : BlobItemOutput) (inode : Inode)
  : Goofys * Inode :=
  let '(fs, inode) :=
    if etag_differs item inode || negb (item_Size item =? knownSize inode) then
      let fs :=
        if negb (CacheState inode =? ST_CACHED)
           && (negb (String.eqb (knownETag inode) EmptyString) || (knownSize inode >? 0))
        then emit (EvWarnConflict (item_ETag item) (item_Size item)
                     (knownETag inode) (knownSize inode)) fs
        else fs in
      let '(fs, inode) := resetCache fs inode in
      let '(fs, inode) := ResizeUnlocked fs inode (item_Size item) false false in
      let inode := set_knownSize (item_Size item) inode in
      let inode :=
        match item_LastModified item with
        | Some t => set_Attributes (set_Ctime t (set_Mtime t (Attributes inode))) inode
        | None =>
            set_Attributes
              (set_Ctime (Ctime (rootAttrs fs)) (set_Mtime (Ctime (rootAttrs fs)) (Attributes inode)))
              inode
        end in
      let inode :=
        match item_Metadata item with
        | Some md => set_userMetadataDirty 0 (setMetadata fs (Some md) inode)
        | None => inode
        end in
      (fs, inode)
    else (fs, inode) in
  let inode :=
    match item_ETag item with
    | Some etag =>
        set_knownETag etag
          (set_s3Metadata (<["etag"%string := list_byte_of_string etag]> (s3Metadata inode)) inode)
    | None => set_s3Metadata (delete "etag"%string (s3Metadata inode)) inode
    end in
  let inode :=
    match item_StorageClass item with
    | Some sc =>
        set_s3Metadata (<["storage-class"%string := list_byte_of_string sc]> (s3Metadata inode)) inode
    | None => set_s3Metadata (delete "storage-class"%string (s3Metadata inode)) inode
    end in
  let inode := if Before (AttrTime inode) now then set_AttrTime now inode else inode in
  (fs, inode).

(** *** [cloud] *)

(** The loop of [cloud], from the directory [p] upwards; the result is the
    backend, the prefix and the path so far.  An ancestor that is not a
    directory is a [nil] dereference. *)
Fixpoint cloud_walk (p : Inode) (path : string)
  : Result (option StorageBackend * string * string) :=
  match dir p with
  | None => Panic
  | Some d =>
      match dir_cloud d with
      | Some c =>
          let isErr :=
            match bk_kind c with
            | InitErrorBackend => true
            | InitWrapperBackend initFails => initFails
            | PlainBackend => false
            end in
          Ok (Some c, if isErr then EmptyString else dir_mountPrefix d, path)
      | None =>
          let path :=
            if String.eqb path EmptyString then Name p
            else match Parent p with
                 | Some _ => (Name p ++ "/" ++ path)%string
                 | None => path
                 end in
          match Parent p with
          | Some q => cloud_walk q path
          | None => Ok (None, EmptyString, path)
          end
      end
  end.

Definition cloud (inode : Inode) : Result (option StorageBackend * string) :=
  let '(path, start) :=
    match dir inode with
    | None => (Name inode, Parent inode)
    | Some _ => (EmptyString, Some inode)
    end in
  let walked :=
    match start with
    | Some p => cloud_walk p path
    | None => Ok (None, EmptyString, path)
    end in
  match walked with
  | Ok (c, prefix, path) =>
      Ok (c, if String.eqb path EmptyString then TrimRightSlash prefix
             else (prefix ++ path)%string)
  | Panic => Panic
  end.

(** *** [InflateAttributes] *)

Definition is_symlink (fs : Goofys) (inode : Inode) : bool :=
  match userMetadata inode with
  | Some um => bool_decide (is_Some (um !! SymlinkAttr (flags fs)))
  | None => false
  end.

Definition InflateAttributes (fs : Goofys) (inode : Inode) : FuseAttributes :=
  let mtime := Mtime (Attributes inode) in
  let mtime := if IsZero mtime then Mtime (rootAttrs fs) else mtime in
  let a := Attributes inode in
  if isDir inode then
    mkFuseAttributes (Size a) 2 (Z.lor (Z.land (Mode a) ModePerm) ModeDir) (Rdev a)
      (Ctime a) mtime (Ctime a) mtime (Uid a) (Gid a)
  else if is_symlink fs inode then
    mkFuseAttributes (Size a) 1 (Z.lor (Z.land (Mode a) ModePerm) ModeSymlink) (Rdev a)
      (Ctime a) mtime (Ctime a) mtime (Uid a) (Gid a)
  else
    mkFuseAttributes (Size a) 1 (Mode a) (Rdev a)
      (Ctime a) mtime (Ctime a) mtime (Uid a) (Gid a).

(** *** [Ref] and [DeRef] *)

Definition Ref (inode : Inode) : Inode :=
  set_refcnt (wrap_int64 (refcnt inode + 1)) inode.

Definition DeRef (fs : Goofys) (inode : Inode) (n : Z) : Result (Goofys * Inode * bool) :=
  let res := wrap_int64 (refcnt inode - n) in
  let inode := set_refcnt res inode in
  if res <? 0 then Panic
  else if (res =? 0) && (CacheState inode =? ST_CACHED) then
    let '(fs, inode) := resetCache fs inode in
    let fs := set_inodes (delete (Id inode) (inodes fs)) fs in
    let fs := set_forgotCnt (forgotCnt_wrap (forgotCnt fs + 1)) fs in
    let fs := emit (EvLfruForget (Id inode)) fs in
    Ok (fs, inode, res =? 0)
  else Ok (fs, inode, res =? 0).

(** *** [setFileMode] *)

Definition setFileMode (fs : Goofys) (inode : Inode) (newMode : Z)
  : Inode * (bool * option Error) :=
  let prevMode := Mode (Attributes inode) in
  let checked : Inode + Error :=
    if EnableSpecials (flags fs) then
      if negb (Z.land newMode ModeDir =? Z.land (Mode (Attributes inode)) ModeDir) then
        if negb (Z.land newMode ModeDir =? 0) then inr ENOTDIR else inr EISDIR
      else
        inl (set_Attributes
               (set_Mode (Z.lor (Z.land (Mode (Attributes inode)) ModePerm)
                            (Z.land newMode ModeType)) (Attributes inode)) inode)
    else inl inode in
  match checked with
  | inr e => (inode, (false, Some e))
  | inl inode =>
      let inode :=
        if EnablePerms (flags fs) then
          set_Attributes
            (set_Mode (Z.lor (Z.land (Mode (Attributes inode)) ModeType)
                         (Z.land newMode ModePerm)) (Attributes inode)) inode
        else inode in
      let defaultMode :=
        if isDir inode then Z.lor (flag_DirMode (flags fs)) ModeDir
        else flag_FileMode (flags fs) in
      let inode :=
        if negb (Z.land (Mode (Attributes inode)) ModeDevice =? 0) then
          setUserMeta (RdevAttr (flags fs))
            (Some (list_byte_of_string (fmt_d (Rdev (Attributes inode))))) inode
        else inode in
      let inode :=
        if negb (Mode (Attributes inode) =? defaultMode) then
          setUserMeta (FileModeAttr (flags fs))
            (Some (list_byte_of_string (fmt_d (ConvertGolangMode (Mode (Attributes inode))))))
            inode
        else setUserMeta (FileModeAttr (flags fs)) None inode in
      (inode, (negb (prevMode =? Mode (Attributes inode)), None))
  end.

(** *** [fillXattr] and [getXattrMap] *)

(** [fillXattr] fetches the metadata with a [HeadBlob] request when the
    inode has none yet.  The lock is released around the request; in this
    one-call model nothing happens to the inode meanwhile.  Calling
    [HeadBlob] on a [nil] backend is a panic. *)
Definition fillXattr (fs : Goofys) (inode : Inode) : Result (Goofys * Inode * option Error) :=
  if negb (ImplicitDir inode) && bool_decide (userMetadata inode = None) then
    match cloud inode with
    | Panic => Panic
    | Ok (c, key) =>
        let key' :=
          match oldParent inode with
          | Some op =>
              match cloud op with
              | Ok (_, k) => Ok (appendChildName k (oldName inode))
              | Panic => Panic
              end
          | None => Ok key
          end in
        match key', c with
        | Panic, _ => Panic
        | Ok _, None => Panic
        | Ok key, Some c =>
            let key := if isDir inode then (key ++ "/")%string else key in
            let fs := emit (EvHeadBlob key) fs in
            match bk_HeadBlob c key with
            | inr err =>
                match mapAwsError err with
                | Some ENOENT =>
                    Ok (fs, if isDir inode then set_ImplicitDir true inode else inode, None)
                | e => Ok (fs, inode, e)
                end
            | inl resp => Ok (fs, fillXattrFromHead fs resp inode, None)
            end
        end
    end
  else Ok (fs, inode, None).

(** Which of the inode's two metadata maps a name addresses.  The Go
    function returns the map itself, which its callers then modify in
    place; the reference stands for that alias. *)
Inductive MetaRef := RefS3 | RefUser.

Definition meta_of (r : MetaRef) (inode : Inode) : option (gmap string bytes) :=
  match r with
  | RefS3 => Some (s3Metadata inode)
  | RefUser => userMetadata inode
  end.

Definition store_meta (r : MetaRef) (m : gmap string bytes) (inode : Inode) : Inode :=
  match r with
  | RefS3 => set_s3Metadata m inode
  | RefUser => set_userMetadata (Some m) inode
  end.

Definition resolved (fs : Goofys) (inode : Inode) (r : MetaRef) (newName : string)
  : Result (Goofys * Inode * (MetaRef * string + Error)) :=
  match meta_of r inode with
  | Some _ => Ok (fs, inode, inl (r, newName))
  | None => Ok (fs, inode, inr ENOSYS)
  end.

Definition getXattrMap (fs : Goofys) (inode : Inode) (name : string) (userOnly : bool)
  : Result (Goofys * Inode * (MetaRef * string + Error)) :=
  match cloud inode with
  | Panic => Panic
  | Ok (None, _) => Panic
  | Ok (Some c, _) =>
      let xattrPrefix := (bk_Name c ++ ".")%string in
      if HasPrefix name xattrPrefix then
        if userOnly then Ok (fs, inode, inr EPERM)
        else resolved fs inode RefS3 (string_drop (String.length xattrPrefix) name)
      else if HasPrefix name "user."
              && negb (String.eqb name ("user." ++ SymlinkAttr (flags fs))) then
        match fillXattr fs inode with
        | Panic => Panic
        | Ok (fs, inode, Some err) => Ok (fs, inode, inr err)
        | Ok (fs, inode, None) => resolved fs inode RefUser (string_drop 5 name)
        end
      else if userOnly then Ok (fs, inode, inr EPERM)
      else Ok (fs, inode, inr ENOSYS)
  end.

(** *** [SetXattr], [RemoveXattr], [GetXattr] *)

Definition XATTR_CREATE : Z := 1.
Definition XATTR_REPLACE : Z := 2.

Definition WakeupFlusher (fs : Goofys) : Goofys := emit EvWakeupFlusher fs.

(** The tail that [SetXattr] and [RemoveXattr] share: the metadata is
    marked as modified and a CACHED inode becomes MODIFIED. *)
Definition mark_metadata_dirty (fs : Goofys) (inode : Inode) : Goofys * Inode :=
  let inode := set_userMetadataDirty 2 inode in
  if CacheState inode =? ST_CACHED
  then (WakeupFlusher fs, SetCacheState ST_MODIFIED inode)
  else (fs, inode).

(** Reading a [nil] map finds nothing. *)
Definition meta_has (meta : option (gmap string bytes)) (name : string) : bool :=
  match meta with
  | Some m => bool_decide (is_Some (m !! name))
  | None => false
  end.

Definition SetXattr (fs : Goofys) (inode : Inode) (name : string) (value : bytes) (flags : Z)
  : Result (Goofys * Inode * option Error) :=
  match getXattrMap fs inode name true with
  | Panic => Panic
  | Ok (fs, inode, inr err) => Ok (fs, inode, Some err)
  | Ok (fs, inode, inl (r, name)) =>
      let refused :=
        if negb (flags =? 0) then
          let ok := meta_has (meta_of r inode) name in
          if flags =? XATTR_CREATE then
            if ok then Some EEXIST else None
          else if flags =? XATTR_REPLACE then
            if negb ok then Some ENODATA else None
          else None
        else None in
      match refused with
      | Some err => Ok (fs, inode, Some err)
      | None =>
          match meta_of r inode with
          | None => Panic
          | Some meta =>
              let inode := store_meta r (<[name := Dup value]> meta) inode in
              let '(fs, inode) := mark_metadata_dirty fs inode in
              Ok (fs, inode, None)
          end
      end
  end.

Definition RemoveXattr (fs : Goofys) (inode : Inode) (name : string)
  : Result (Goofys * Inode * option Error) :=
  match getXattrMap fs inode name true with
  | Panic => Panic
  | Ok (fs, inode, inr err) => Ok (fs, inode, Some err)
  | Ok (fs, inode, inl (r, name)) =>
      if meta_has (meta_of r inode) name then
        match meta_of r inode with
        | None => Ok (fs, inode, Some ENODATA)
        | Some meta =>
            let inode := store_meta r (delete name meta) inode in
            let '(fs, inode) := mark_metadata_dirty fs inode in
            Ok (fs, inode, None)
        end
      else Ok (fs, inode, Some ENODATA)
  end.

Definition GetXattr (fs : Goofys) (inode : Inode) (name : string)
  : Result (Goofys * Inode * (bytes + Error)) :=
  match getXattrMap fs inode name false with
  | Panic => Panic
  | Ok (fs, inode, inr err) => Ok (fs, inode, inr err)
  | Ok (fs, inode, inl (r, name)) =>
      match meta_of r inode with
      | Some meta =>
          match meta !! name with
          | Some value => Ok (fs, inode, inl value)
          | None => Ok (fs, inode, inr ENODATA)
          end
      | None => Ok (fs, inode, inr ENODATA)
      end
  end.

(** *** [GetAttributes] and [ListXattr] *)

Definition GetAttributes (fs : Goofys) (inode : Inode) : FuseAttributes * option Error :=
  (InflateAttributes fs inode, None).

(** [sort.Strings]: increasing order, strings compared byte by byte. *)
Definition sort_Strings (l : list string) : list string :=
  merge_sort (fun s t : string => Is_true (String.leb s t)) l.

Definition ListXattr (fs : Goofys) (inode : Inode)
  : Result (Goofys * Inode * (list string + Error)) :=
  match fillXattr fs inode with
  | Panic => Panic
  | Ok (fs, inode, Some err) => Ok (fs, inode, inr err)
  | Ok (fs, inode, None) =>
      match cloud inode with
      | Panic => Panic
      | Ok (None, _) => Panic
      | Ok (Some c, _) =>
          let cloudXattrPrefix := (bk_Name c ++ ".")%string in
          let xattrs :=
            List.map (fun kv => (cloudXattrPrefix ++ fst kv)%string)
              (rangeOrder _ (s3Metadata inode)) in
          let xattrs :=
            xattrs ++
            match userMetadata inode with
            | Some um => List.map (fun kv => ("user." ++ fst kv)%string) (rangeOrder _ um)
            | None => []
            end in
          Ok (fs, inode, inl (sort_Strings xattrs))
      end
  end.


(** ** Vocabulary of the properties *)

(** The remote object changed: the item carries an ETag that is not the
    known one, or its size is not the known one. *)
Definition remote_changed (item : BlobItemOutput) (inode : Inode) : Prop :=
  (exists etag, item_ETag item = Some etag /\ etag <> knownETag inode)
  \/ item_Size item <> knownSize inode.

(** The inode is not CACHED and has seen the remote object before. *)
Definition discards_local (inode : Inode) : Prop :=
  CacheState inode <> ST_CACHED
  /\ (knownETag inode <> EmptyString \/ 0 < knownSize inode).

(** The last-modified time that the inode takes over from an item. *)
Definition observed_time (fs : Goofys) (item : BlobItemOutput) : Time :=
  match item_LastModified item with
  | Some t => t
  | None => Ctime (rootAttrs fs)
  end.

(** The conflict branch of [SetFromBlobItem], as its own function. *)
Definition drop_cache (fs : Goofys) (item : BlobItemOutput) (inode : Inode) : Inode :=
  let inode := snd (ResizeUnlocked fs (snd (resetCache fs inode)) (item_Size item) false false) in
  let inode := set_knownSize (item_Size item) inode in
  let inode :=
    set_Attributes (set_Ctime (observed_time fs item)
                      (set_Mtime (observed_time fs item) (Attributes inode))) inode in
  match item_Metadata item with
  | Some md => set_userMetadataDirty 0 (setMetadata fs (Some md) inode)
  | None => inode
  end.

(** The part of [SetFromBlobItem] that runs for every item. *)
Definition refresh_known (now : Time) (item : BlobItemOutput) (inode : Inode) : Inode :=
  let inode :=
    match item_ETag item with
    | Some etag =>
        set_knownETag etag
          (set_s3Metadata (<["etag"%string := list_byte_of_string etag]> (s3Metadata inode)) inode)
    | None => set_s3Metadata (delete "etag"%string (s3Metadata inode)) inode
    end in
  let inode :=
    match item_StorageClass item with
    | Some sc =>
        set_s3Metadata (<["storage-class"%string := list_byte_of_string sc]> (s3Metadata inode)) inode
    | None => set_s3Metadata (delete "storage-class"%string (s3Metadata inode)) inode
    end in
  if Before (AttrTime inode) now then set_AttrTime now inode else inode.

(** The mode that [setFileMode] arrives at when it does not refuse. *)
Definition resulting_mode (fs : Goofys) (inode : Inode) (newMode : Z) : Z :=
  let m := Mode (Attributes inode) in
  let m :=
    if EnableSpecials (flags fs)
    then Z.lor (Z.land m ModePerm) (Z.land newMode ModeType) else m in
  if EnablePerms (flags fs)
  then Z.lor (Z.land m ModeType) (Z.land newMode ModePerm) else m.

Definition default_mode (fs : Goofys) (inode : Inode) : Z :=
  if isDir inode then Z.lor (flag_DirMode (flags fs)) ModeDir else flag_FileMode (flags fs).


(** The prefixes of a string, and a string without its final dot; both
    serve to decide which names a backend prefix covers. *)
Fixpoint prefixes (s : string) : list string :=
  EmptyString ::
    match s with
    | EmptyString => []
    | String c rest => List.map (String c) (prefixes rest)
    end.

Fixpoint strip_dot (s : string) : option string :=
  match s with
  | EmptyString => None
  | String c rest =>
      match rest with
      | EmptyString => if Ascii.eqb c "." then Some EmptyString else None
      | _ => option_map (String c) (strip_dot rest)
      end
  end.

(** What one step of [unescapeMetadata] and of [escapeMetadata] adds to the
    map under construction. *)
Definition unescaped_entry (kv : string * string) : option (string * bytes) :=
  match PathUnescape (ToLower (fst kv)) with
  | Some uk =>
      match PathUnescape (snd kv) with
      | Some uv => Some (uk, list_byte_of_string uv)
      | None => None
      end
  | None => None
  end.

Definition escaped_entry (kv : string * bytes) : option (string * string) :=
  Some (ToLower (xattrEscape (fst kv)), xattrEscape (string_of_list_byte (snd kv))).

(** A key without ASCII upper-case letters. *)
Definition no_upper (k : string) : Prop :=
  string_forallb (fun c => negb (is_upper c)) k = true.

(** The key under which an entry of the inode's map comes back from the
    backend: [escapeMetadata] lower-cases the escaped key, which lowers the
    upper-case letters that the escape leaves as they are and spares the
    bytes that it writes as hexadecimal digits. *)
Definition stored_key (k : string) : string :=
  string_map (fun c => if xattrLiteral c then lower_ascii c else c) k.

(** What the properties of the codec assume of the library and of the
    escape: [range] visits every entry of a map once; [strings.ToLower] on an
    ASCII string lowers the letters A to Z; [xattrEscape] escapes the percent
    sign and every byte outside ASCII. *)
Hypothesis rangeOrder_perm :
  forall (V : Type) (m : gmap string V), rangeOrder V m ≡ₚ map_to_list m.
Hypothesis ToLower_ascii :
  forall s, string_forallb is_ascii s = true -> ToLower s = ToLowerASCII s.
Hypothesis xattrLiteral_percent : xattrLiteral "%" = false.
Hypothesis xattrLiteral_ascii : forall c, xattrLiteral c = true -> is_ascii c = true.

(** ** Vocabulary of the further properties *)

(** Every inode from [p] up to the root is a directory. *)
Fixpoint dir_chain (p : Inode) : Prop :=
  is_Some (dir p)
  /\ match Parent p with
     | Some q => dir_chain q
     | None => True
     end.

(** The mount prefix that [cloud] applies for a backend: none for the error
    backend and for a wrapper whose initialisation fails. *)
Definition applied_prefix (c : StorageBackend) (d : DirInodeData) : string :=
  match bk_kind c with
  | PlainBackend => dir_mountPrefix d
  | InitErrorBackend => EmptyString
  | InitWrapperBackend initFails => if initFails then EmptyString else dir_mountPrefix d
  end.

(** The last character of a string, if any. *)
Fixpoint last_char (s : string) : option ascii :=
  match s with
  | EmptyString => None
  | String c rest =>
      match last_char rest with
      | Some l => Some l
      | None => Some c
      end
  end.

(** Two states of an inode at the same place of the tree. *)
Definition same_place (i j : Inode) : Prop :=
  Name i = Name j /\ Parent i = Parent j /\ dir i = dir j.

(** A name of the user namespace, for a backend [c]: it starts with
    [user.], is not under the backend's own prefix and is not the reserved
    symlink attribute. *)
Definition user_name (fs : Goofys) (c : StorageBackend) (name : string) : Prop :=
  HasPrefix name (bk_Name c ++ ".") = false
  /\ HasPrefix name "user." = true
  /\ name <> ("user." ++ SymlinkAttr (flags fs))%string.

(** The setuid, setgid and sticky bits of a mode. *)
Definition ModeSpecialBits : Z := Z.lor ModeSetuid (Z.lor ModeSetgid ModeSticky).

(** What identifies an inode and places it in the tree, and its lookup
    count. *)
Definition same_identity (i j : Inode) : Prop :=
  Id i = Id j /\ Name i = Name j /\ Parent i = Parent j /\ dir i = dir j
  /\ oldParent i = oldParent j /\ oldName i = oldName j
  /\ ImplicitDir i = ImplicitDir j /\ refcnt i = refcnt j.

(** An inode without a backend of its own: a file, or a directory that is
    not a mount point. *)
Definition unbound (i : Inode) : Prop :=
  match dir i with
  | Some d => dir_cloud d = None
  | None => True
  end.

(** The tail of [setFileMode]: the device number and the mode of the inode
    written to, or cleared from, the user metadata. *)
Definition store_mode (fs : Goofys) (inode : Inode) : Inode :=
  let inode :=
    if negb (Z.land (Mode (Attributes inode)) ModeDevice =? 0) then
      setUserMeta (RdevAttr (flags fs))
        (Some (list_byte_of_string (fmt_d (Rdev (Attributes inode))))) inode
    else inode in
  if negb (Mode (Attributes inode) =? default_mode fs inode) then
    setUserMeta (FileModeAttr (flags fs))
      (Some (list_byte_of_string (fmt_d (ConvertGolangMode (Mode (Attributes inode))))))
      inode
  else setUserMeta (FileModeAttr (flags fs)) None inode.

(** What [setFileMode] writes for an inode: whether the device number is
    written, the device number, and the value of the file mode key. *)
Definition has_device (i : Inode) : bool :=
  negb (Z.land (Mode (Attributes i)) ModeDevice =? 0).
Definition rdev_value (i : Inode) : option bytes :=
  Some (list_byte_of_string (fmt_d (Rdev (Attributes i)))).
Definition mode_value (fs : Goofys) (i : Inode) : option bytes :=
  if negb (Mode (Attributes i) =? default_mode fs i)
  then Some (list_byte_of_string (fmt_d (ConvertGolangMode (Mode (Attributes i)))))
  else None.

(** ** Properties *)

(** *** Field reads after field writes *)

Lemma setMetadata_mtime_shape fs um i :
  exists a, setMetadata_mtime fs um i = set_Attributes a i
    /\ Size a = Size (Attributes i) /\ Ctime a = Ctime (Attributes i)
    /\ Uid a = Uid (Attributes i) /\ Gid a = Gid (Attributes i)
    /\ Mode a = Mode (Attributes i) /\ Rdev a = Rdev (Attributes i)
    /\ Mtime a =
         (if EnableMtime (flags fs) then
            match um !! MtimeAttr (flags fs) with
            | Some s =>
                if snd (ParseUint (string_of_list_byte s) 0 64)
                then time_Unix (wrap_int64 (fst (ParseUint (string_of_list_byte s) 0 64)))
                else Mtime (Attributes i)
            | None => Mtime (Attributes i)
            end
          else Mtime (Attributes i)).
Proof.
  unfold setMetadata_mtime.
  destruct (EnableMtime (flags fs)); [|exists (Attributes i); by destruct i].
  destruct (um !! MtimeAttr (flags fs)) as [s|]; [|exists (Attributes i); by destruct i].
  destruct (ParseUint (string_of_list_byte s) 0 64) as [v [|]]; simpl.
  - eexists; split; [reflexivity|]. by destruct i.
  - exists (Attributes i); by destruct i.
Qed.

Lemma setMetadata_owner_shape fs um i :
  exists a, setMetadata_owner fs um i = set_Attributes a i
    /\ Size a = Size (Attributes i) /\ Ctime a = Ctime (Attributes i)
    /\ Mtime a = Mtime (Attributes i).
Proof.
  unfold setMetadata_owner.
  destruct (EnablePerms (flags fs)); [|exists (Attributes i); by destruct i].
  destruct (um !! UidAttr (flags fs)) as [s|], (um !! GidAttr (flags fs)) as [t|];
    repeat match goal with
           | |- context [ParseUint ?x ?y ?z] => destruct (ParseUint x y z) as [? [|]]
           end;
    destruct i; simpl; eexists; (split; [reflexivity|]); done.
Qed.

Lemma setMetadata_mode_shape fs um i :
  exists a, setMetadata_mode fs um i = set_Attributes a i
    /\ Size a = Size (Attributes i) /\ Ctime a = Ctime (Attributes i)
    /\ Mtime a = Mtime (Attributes i).
Proof.
  unfold setMetadata_mode.
  destruct (EnablePerms (flags fs) || EnableSpecials (flags fs));
    [|exists (Attributes i); by destruct i].
  destruct (um !! FileModeAttr (flags fs)) as [s|]; [|exists (Attributes i); by destruct i].
  destruct (ParseUint (string_of_list_byte s) 0 32) as [v [|]];
    [|exists (Attributes i); by destruct i].
  destruct i; cbn -[Z.land Z.lor Z.lxor ModeType ModePerm ModeDevice].
  match goal with |- context [if ?c then _ else _] => destruct c end;
    eexists; (split; [reflexivity|]); done.
Qed.

Lemma setMetadata_shape fs md i :
  exists a um,
    unescapeMetadata md = Some um
    /\ setMetadata fs md i = set_Attributes a (set_userMetadata (Some um) i)
    /\ Size a = Size (Attributes i) /\ Ctime a = Ctime (Attributes i)
    /\ Mtime a = Mtime (Attributes (setMetadata_mtime fs um i)).
Proof.
  unfold setMetadata.
  destruct (unescapeMetadata md) as [um|] eqn:Hum; [|discriminate].
  exists (Attributes (setMetadata_mode fs um (setMetadata_owner fs um
            (setMetadata_mtime fs um (set_userMetadata (Some um) i))))), um.
  split; [done|].
  replace (userMetadata (set_userMetadata (Some um) i)) with (Some um) by (by destruct i).
  destruct (setMetadata_mtime_shape fs um (set_userMetadata (Some um) i))
    as (a1 & E1 & S1 & C1 & _ & _ & _ & _ & M1).
  destruct (setMetadata_mtime_shape fs um i) as (a0 & E0 & _ & _ & _ & _ & _ & _ & M0).
  rewrite E1, E0.
  destruct (setMetadata_owner_shape fs um (set_Attributes a1 (set_userMetadata (Some um) i)))
    as (a2 & E2 & S2 & C2 & M2).
  rewrite E2.
  destruct (setMetadata_mode_shape fs um
              (set_Attributes a2 (set_Attributes a1 (set_userMetadata (Some um) i))))
    as (a3 & E3 & S3 & C3 & M3).
  rewrite E3.
  destruct i; simpl in *. repeat split; congruence.
Qed.

(** *** Remote reconciliation *)

Lemma remote_changed_spec item inode :
  etag_differs item inode || negb (item_Size item =? knownSize inode) = true
  <-> remote_changed item inode.
Proof.
  unfold remote_changed, etag_differs.
  rewrite orb_true_iff, negb_true_iff, Z.eqb_neq.
  destruct (item_ETag item) as [e|].
  - rewrite negb_true_iff, String.eqb_neq. split.
    + intros [H|H]; [left; exists e; split; congruence | by right].
    + intros [(e' & [= <-] & H)|H]; [left; congruence | by right].
  - split; [intros [?|?]; [done | by right] | intros [(? & ? & _)|?]; [done | by right]].
Qed.

Lemma discards_local_spec inode :
  negb (CacheState inode =? ST_CACHED)
  && (negb (String.eqb (knownETag inode) EmptyString) || (knownSize inode >? 0)) = true
  <-> discards_local inode.
Proof.
  unfold discards_local.
  rewrite andb_true_iff, orb_true_iff, !negb_true_iff, Z.eqb_neq, String.eqb_neq.
  rewrite Z.gtb_gt. intuition lia.
Qed.

Lemma SetFromBlobItem_unchanged fs now item inode :
  ~ remote_changed item inode ->
  SetFromBlobItem fs now item inode = (fs, refresh_known now item inode).
Proof.
  intros H. apply (not_iff_compat (remote_changed_spec item inode)) in H.
  apply not_true_is_false in H.
  unfold SetFromBlobItem. rewrite H. reflexivity.
Qed.

(** [setMetadata] reads the filesystem only through its flags, which the
    trace does not touch. *)
Lemma setMetadata_emit e fs md i : setMetadata (emit e fs) md i = setMetadata fs md i.
Proof. reflexivity. Qed.

Lemma Id_resetCache fs inode : Id (snd (resetCache fs inode)) = Id inode.
Proof. by destruct inode. Qed.

Lemma SetFromBlobItem_changed fs now item inode :
  remote_changed item inode ->
  SetFromBlobItem fs now item inode =
    (emit (EvResizeUnlocked (Id inode) (item_Size item) false false)
       (emit (EvResetCache (Id inode))
          (if decide (discards_local inode)
           then emit (EvWarnConflict (item_ETag item) (item_Size item)
                        (knownETag inode) (knownSize inode)) fs
           else fs)),
     refresh_known now item (drop_cache fs item inode)).
Proof.
  intros H. apply remote_changed_spec in H.
  unfold SetFromBlobItem. rewrite H.
  assert (Hw : (negb (CacheState inode =? ST_CACHED)
            && (negb (String.eqb (knownETag inode) EmptyString) || (knownSize inode >? 0)))
          = bool_decide (discards_local inode)).
  { apply eq_true_iff_eq. rewrite discards_local_spec, bool_decide_eq_true. done. }
  rewrite Hw.
  set (fs1 := if bool_decide (discards_local inode)
              then emit (EvWarnConflict (item_ETag item) (item_Size item)
                           (knownETag inode) (knownSize inode)) fs
              else fs).
  assert (Hfs1 : flags fs1 = flags fs /\ rootAttrs fs1 = rootAttrs fs
                 /\ fs1 = if decide (discards_local inode)
                          then emit (EvWarnConflict (item_ETag item) (item_Size item)
                                       (knownETag inode) (knownSize inode)) fs
                          else fs).
  { subst fs1. destruct (decide (discards_local inode));
      [rewrite bool_decide_eq_true_2 by done | rewrite bool_decide_eq_false_2 by done]; done. }
  destruct Hfs1 as (Hf1 & Hr1 & <-).
  cbv zeta.
  destruct (resetCache fs1 inode) as [fs2 i2] eqn:E1.
  destruct (ResizeUnlocked fs2 i2 (item_Size item) false false) as [fs3 i3] eqn:E2.
  cbv beta iota.
  assert (Hi2 : i2 = snd (resetCache fs inode)) by (by injection E1 as <- <-).
  assert (Hi3 : i3 = snd (ResizeUnlocked fs (snd (resetCache fs inode)) (item_Size item)
                            false false)).
  { rewrite <- Hi2. by injection E2 as <- <-. }
  assert (Hfs3 : fs3 = emit (EvResizeUnlocked (Id inode) (item_Size item) false false)
                         (emit (EvResetCache (Id inode)) fs1)).
  { injection E2 as <- _. injection E1 as <- _.
    rewrite Hi2, Id_resetCache. done. }
  clear E1 E2 Hi2.
  assert (Hm : forall md i, setMetadata fs3 md i = setMetadata fs md i).
  { intros md i. rewrite Hfs3, !setMetadata_emit. unfold setMetadata.
    destruct (userMetadata (set_userMetadata (unescapeMetadata md) i)); [|done].
    unfold setMetadata_mode, setMetadata_owner, setMetadata_mtime. by rewrite Hf1. }
  assert (Hr : rootAttrs fs3 = rootAttrs fs) by (by rewrite Hfs3).
  unfold refresh_known, drop_cache, observed_time. cbv zeta.
  rewrite <- Hi3, <- Hfs3. f_equal.
  destruct (item_LastModified item), (item_Metadata item); rewrite ?Hm, ?Hr; reflexivity.
Qed.


Lemma drop_cache_frame fs item inode :
  knownETag (drop_cache fs item inode) = knownETag inode
  /\ s3Metadata (drop_cache fs item inode) = s3Metadata inode
  /\ AttrTime (drop_cache fs item inode) = AttrTime inode
  /\ knownSize (drop_cache fs item inode) = item_Size item
  /\ CacheState (drop_cache fs item inode) = ST_CACHED
  /\ mpu (drop_cache fs item inode) = None
  /\ buffers (drop_cache fs item inode) =
       (if 0 <? item_Size item then [zero_chunk 0 (item_Size item)] else []).
Proof.
  unfold drop_cache. destruct (item_Metadata item) as [md|].
  - match goal with |- context [setMetadata fs (Some md) ?j] =>
      destruct (setMetadata_shape fs (Some md) j) as (a & um & _ & E & _) end.
    rewrite E. destruct inode; cbn. by replace (item_Size item - 0) with (item_Size item) by lia.
  - destruct inode; cbn. by replace (item_Size item - 0) with (item_Size item) by lia.
Qed.

Lemma drop_cache_attributes fs item inode :
  Size (Attributes (drop_cache fs item inode)) = item_Size item
  /\ Ctime (Attributes (drop_cache fs item inode)) = observed_time fs item
  /\ match item_Metadata item with
     | None =>
         Mtime (Attributes (drop_cache fs item inode)) = observed_time fs item
         /\ userMetadata (drop_cache fs item inode) = userMetadata inode
         /\ userMetadataDirty (drop_cache fs item inode) = userMetadataDirty inode
     | Some md =>
         userMetadata (drop_cache fs item inode) = unescapeMetadata (Some md)
         /\ userMetadataDirty (drop_cache fs item inode) = 0
         /\ exists um, unescapeMetadata (Some md) = Some um
              /\ Mtime (Attributes (drop_cache fs item inode)) =
                   (if EnableMtime (flags fs) then
                      match um !! MtimeAttr (flags fs) with
                      | Some s =>
                          if snd (ParseUint (string_of_list_byte s) 0 64)
                          then time_Unix (wrap_int64 (fst (ParseUint (string_of_list_byte s) 0 64)))
                          else observed_time fs item
                      | None => observed_time fs item
                      end
                    else observed_time fs item)
     end.
Proof.
  unfold drop_cache. destruct (item_Metadata item) as [md|].
  - match goal with |- context [setMetadata fs (Some md) ?j] =>
      destruct (setMetadata_shape fs (Some md) j) as (a & um & U & E & S & C & M);
      destruct (setMetadata_mtime_shape fs um j) as (a0 & E0 & _ & _ & _ & _ & _ & _ & M0)
    end.
    rewrite E. rewrite E0 in M. rewrite U.
    destruct inode; cbn in *. repeat split; try done.
    exists um. split; [done|]. rewrite M, M0. done.
  - by destruct inode.
Qed.

Lemma refresh_known_etag now item inode :
  match item_ETag item with
  | None =>
      s3Metadata (refresh_known now item inode) !! "etag"%string = None
      /\ knownETag (refresh_known now item inode) = knownETag inode
  | Some etag =>
      s3Metadata (refresh_known now item inode) !! "etag"%string = Some (list_byte_of_string etag)
      /\ knownETag (refresh_known now item inode) = etag
  end.
Proof.
  unfold refresh_known.
  destruct (item_ETag item) as [e|], (item_StorageClass item) as [sc|], inode as [];
    cbn; destruct (Before _ now); cbn;
    rewrite ?lookup_insert_ne, ?lookup_delete_ne, ?lookup_insert_eq, ?lookup_delete_eq by done;
    done.
Qed.

Lemma refresh_known_frame now item inode :
  Attributes (refresh_known now item inode) = Attributes inode
  /\ userMetadata (refresh_known now item inode) = userMetadata inode
  /\ userMetadataDirty (refresh_known now item inode) = userMetadataDirty inode
  /\ knownSize (refresh_known now item inode) = knownSize inode
  /\ buffers (refresh_known now item inode) = buffers inode
  /\ CacheState (refresh_known now item inode) = CacheState inode
  /\ mpu (refresh_known now item inode) = mpu inode
  /\ AttrTime (refresh_known now item inode) =
       (if Before (AttrTime inode) now then now else AttrTime inode).
Proof.
  unfold refresh_known.
  destruct (item_ETag item) as [e|], (item_StorageClass item) as [sc|], inode as [];
    cbn; destruct (Before _ now); done.
Qed.

(** C1.  [SetFromBlobItem] resets the inode's cache ([resetCache], then
    [ResizeUnlocked] to the observed size) exactly when the item carries an
    ETag that differs from [knownETag] or the observed size differs from
    [knownSize]; the warning comes before the reset, exactly when moreover
    the cache state was not CACHED and a prior known state existed
    ([knownETag] not empty or [knownSize > 0]).  [new] is what the call adds
    to the trace of collaborator calls. *)
Theorem C1_SetFromBlobItem_resets_on_conflict fs now item inode :
  let warn := EvWarnConflict (item_ETag item) (item_Size item)
                (knownETag inode) (knownSize inode) in
  let reset := [EvResetCache (Id inode);
                EvResizeUnlocked (Id inode) (item_Size item) false false] in
  let inode' := snd (SetFromBlobItem fs now item inode) in
  exists new,
    trace (fst (SetFromBlobItem fs now item inode)) = trace fs ++ new
    /\ ((remote_changed item inode /\ discards_local inode /\ new = warn :: reset
         /\ CacheState inode' = ST_CACHED /\ mpu inode' = None
         /\ buffers inode' = (if 0 <? item_Size item then [zero_chunk 0 (item_Size item)] else []))
        \/ (remote_changed item inode /\ ~ discards_local inode /\ new = reset
            /\ CacheState inode' = ST_CACHED /\ mpu inode' = None
            /\ buffers inode' = (if 0 <? item_Size item then [zero_chunk 0 (item_Size item)] else []))
        \/ (~ remote_changed item inode /\ new = []
            /\ CacheState inode' = CacheState inode /\ mpu inode' = mpu inode
            /\ buffers inode' = buffers inode)).
Proof.
  intros warn reset inode'. subst inode'.
  destruct (etag_differs item inode || negb (item_Size item =? knownSize inode)) eqn:Hc.
  - apply remote_changed_spec in Hc.
    rewrite (SetFromBlobItem_changed fs now item inode Hc). cbn [fst snd].
    destruct (refresh_known_frame now item (drop_cache fs item inode))
      as (_ & _ & _ & _ & Hb & Hs & Hm & _).
    destruct (drop_cache_frame fs item inode) as (_ & _ & _ & _ & Hs' & Hm' & Hb').
    rewrite Hb, Hs, Hm, Hb', Hs', Hm'.
    destruct (decide (discards_local inode)) as [Hd|Hd].
    + exists (warn :: reset). split; [|left; done].
      cbn. rewrite <- !app_assoc. done.
    + exists reset. split; [|right; left; done].
      cbn. rewrite <- !app_assoc. done.
  - assert (Hn : ~ remote_changed item inode).
    { intros H. apply remote_changed_spec in H. congruence. }
    rewrite (SetFromBlobItem_unchanged fs now item inode Hn). cbn [fst snd].
    destruct (refresh_known_frame now item inode) as (_ & _ & _ & _ & Hb & Hs & Hm & _).
    exists []. split; [by rewrite app_nil_r|]. right; right. done.
Qed.

(** C2, as the code has it.  After every call [knownSize] is the observed
    size and [AttrTime] is [now] unless it was not before [now].  When the
    remote object changed, the size of the attributes is the observed size,
    [Ctime] is the item's last-modified time (the root's ctime when the item
    has none), [Mtime] is the same time unless the mtime attribute of the
    parsed metadata replaces it, and present metadata is parsed into
    [userMetadata] with [userMetadataDirty] cleared.  When the remote object
    did not change, the attributes, [userMetadata] and [userMetadataDirty]
    stay as they were. *)
Theorem C2_SetFromBlobItem_stores_observed fs now item inode :
  let inode' := snd (SetFromBlobItem fs now item inode) in
  knownSize inode' = item_Size item
  /\ AttrTime inode' = (if Before (AttrTime inode) now then now else AttrTime inode)
  /\ (remote_changed item inode ->
      Size (Attributes inode') = item_Size item
      /\ Ctime (Attributes inode') = observed_time fs item
      /\ match item_Metadata item with
         | None =>
             Mtime (Attributes inode') = observed_time fs item
             /\ userMetadata inode' = userMetadata inode
             /\ userMetadataDirty inode' = userMetadataDirty inode
         | Some md =>
             userMetadata inode' = unescapeMetadata (Some md)
             /\ userMetadataDirty inode' = 0
             /\ exists um, unescapeMetadata (Some md) = Some um
                  /\ Mtime (Attributes inode') =
                       (if EnableMtime (flags fs) then
                          match um !! MtimeAttr (flags fs) with
                          | Some s =>
                              if snd (ParseUint (string_of_list_byte s) 0 64)
                              then time_Unix (wrap_int64 (fst (ParseUint (string_of_list_byte s) 0 64)))
                              else observed_time fs item
                          | None => observed_time fs item
                          end
                        else observed_time fs item)
         end)
  /\ (~ remote_changed item inode ->
      Attributes inode' = Attributes inode
      /\ userMetadata inode' = userMetadata inode
      /\ userMetadataDirty inode' = userMetadataDirty inode).
Proof.
  intros inode'. subst inode'.
  destruct (etag_differs item inode || negb (item_Size item =? knownSize inode)) eqn:Hc.
  - apply remote_changed_spec in Hc.
    rewrite (SetFromBlobItem_changed fs now item inode Hc). cbn [fst snd].
    destruct (refresh_known_frame now item (drop_cache fs item inode))
      as (Ha & Hu & Hd & Hk & _ & _ & _ & Ht).
    destruct (drop_cache_frame fs item inode) as (_ & _ & Ht' & Hk' & _).
    rewrite Ha, Hu, Hd, Hk, Ht, Ht', Hk'.
    split; [done|]. split; [done|]. split; [|done].
    intros _. apply drop_cache_attributes.
  - assert (Hn : ~ remote_changed item inode).
    { intros H. apply remote_changed_spec in H. congruence. }
    rewrite (SetFromBlobItem_unchanged fs now item inode Hn). cbn [fst snd].
    destruct (refresh_known_frame now item inode) as (Ha & Hu & Hd & Hk & _ & _ & _ & Ht).
    rewrite Ha, Hu, Hd, Hk, Ht.
    repeat split; try done.
    apply orb_false_iff in Hc as [_ Hs]. apply negb_false_iff, Z.eqb_eq in Hs. done.
Qed.

(** C10.  When the item carries no ETag, [SetFromBlobItem] deletes the
    [etag] entry of [s3Metadata] and leaves [knownETag] as it was, so the two
    can disagree afterwards (as they do for the sample file); when the item
    carries an ETag, both are set to it. *)
Theorem C10_SetFromBlobItem_etag_entry :
  (forall fs now item inode,
     let inode' := snd (SetFromBlobItem fs now item inode) in
     match item_ETag item with
     | None =>
         s3Metadata inode' !! "etag"%string = None
         /\ knownETag inode' = knownETag inode
     | Some etag =>
         s3Metadata inode' !! "etag"%string = Some (list_byte_of_string etag)
         /\ knownETag inode' = etag
     end)
  /\ (let inode' := snd (SetFromBlobItem sample_fs sample_now sample_item_no_etag sample_file) in
      item_ETag sample_item_no_etag = None
      /\ s3Metadata inode' !! "etag"%string = None
      /\ knownETag inode' = "A"%string).
Proof.
  split.
  - intros fs now item inode inode'. subst inode'.
    destruct (etag_differs item inode || negb (item_Size item =? knownSize inode)) eqn:Hc.
    + apply remote_changed_spec in Hc.
      rewrite (SetFromBlobItem_changed fs now item inode Hc). cbn [fst snd].
      pose proof (refresh_known_etag now item (drop_cache fs item inode)) as H.
      destruct (drop_cache_frame fs item inode) as (Hk & _).
      rewrite Hk in H. exact H.
    + assert (Hn : ~ remote_changed item inode).
      { intros H. apply remote_changed_spec in H. congruence. }
      rewrite (SetFromBlobItem_unchanged fs now item inode Hn). cbn [fst snd].
      apply refresh_known_etag.
  - vm_compute. done.
Qed.

(** *** Attribute inflation *)

(** C3, as the code has it.  In the record that [InflateAttributes] returns,
    [Atime] is the internal [Ctime], [Crtime] is the presented [Mtime],
    [Nlink] is 2 for a directory and 1 otherwise, and a zero internal [Mtime]
    is presented as the [Mtime] of the filesystem root. *)
Theorem C3_InflateAttributes_aliases fs inode :
  let attr := InflateAttributes fs inode in
  fa_Atime attr = Ctime (Attributes inode)
  /\ fa_Crtime attr = fa_Mtime attr
  /\ fa_Nlink attr = (if isDir inode then 2 else 1)
  /\ fa_Mtime attr =
       (if IsZero (Mtime (Attributes inode)) then Mtime (rootAttrs fs)
        else Mtime (Attributes inode)).
Proof.
  unfold InflateAttributes.
  destruct (isDir inode); [|destruct (is_symlink fs inode)]; cbn; done.
Qed.

(** *** Reference counting *)

Lemma wrap_int64_in_range z :
  (- 2 ^ 63) <= z < 2 ^ 63 -> wrap_int64 z = z.
Proof.
  intros H. unfold wrap_int64. rewrite Z.mod_small by lia. lia.
Qed.

(** C4.  [DeRef n] panics when the resulting count is negative.  When the
    result is zero and the cache state is CACHED it resets the cache, deletes
    the inode from the inode table, increments the forget counter and has the
    LFRU tracker forget the inode.  When the result is zero in any other
    state, the filesystem, and so the inode table, stays as it was.  The
    resulting count is [refcnt - n] in [int64] arithmetic, which is the
    difference itself whenever that is an [int64]. *)
Theorem C4_DeRef_releases_when_cached fs inode n :
  let res := wrap_int64 (refcnt inode - n) in
  ((- 2 ^ 63) <= refcnt inode - n < 2 ^ 63 -> res = refcnt inode - n)
  /\ (res < 0 -> DeRef fs inode n = Panic)
  /\ (res = 0 -> CacheState inode = ST_CACHED ->
      exists fs' inode',
        DeRef fs inode n = Ok (fs', inode', true)
        /\ inodes fs' = delete (Id inode) (inodes fs)
        /\ forgotCnt fs' = forgotCnt_wrap (forgotCnt fs + 1)
        /\ trace fs' = trace fs ++ [EvResetCache (Id inode); EvLfruForget (Id inode)]
        /\ buffers inode' = [] /\ mpu inode' = None
        /\ CacheState inode' = ST_CACHED /\ refcnt inode' = 0)
  /\ (res = 0 -> CacheState inode <> ST_CACHED ->
      DeRef fs inode n = Ok (fs, set_refcnt 0 inode, true))
  /\ (0 < res -> DeRef fs inode n = Ok (fs, set_refcnt res inode, false)).
Proof.
  intros res. split; [apply wrap_int64_in_range|].
  unfold DeRef. fold res.
  replace (CacheState (set_refcnt res inode)) with (CacheState inode) by (by destruct inode).
  split; [|split; [|split]].
  - intros H. apply Z.ltb_lt in H. by rewrite H.
  - intros H Hc. rewrite H, Hc. cbn [Z.ltb Z.eqb Z.compare andb].
    eexists _, _. split; [reflexivity|].
    destruct inode; cbn. rewrite <- app_assoc. done.
  - intros H Hc. rewrite H. apply Z.eqb_neq in Hc. rewrite Hc. done.
  - intros H.
    assert ((res <? 0) = false) as -> by lia.
    assert ((res =? 0) = false) as -> by lia. done.
Qed.

(** *** Mode changes *)

Lemma setUserMeta_lookup key value inode :
  exists um, userMetadata (setUserMeta key value inode) = Some um
    /\ um !! key = value
    /\ userMetadataDirty (setUserMeta key value inode) = 2
    /\ Attributes (setUserMeta key value inode) = Attributes inode
    /\ dir (setUserMeta key value inode) = dir inode.
Proof.
  unfold setUserMeta. destruct inode, value; cbn; eexists; (split; [reflexivity|]);
    rewrite ?lookup_insert_eq, ?lookup_delete_eq; done.
Qed.

(** C8, as the code has it.  With the special-files option ON, a [newMode]
    whose directory bit differs from the inode's is refused, with ENOTDIR
    when [newMode] is a directory and EISDIR when it is not, and nothing
    changes; otherwise the type bits are taken from [newMode].  With the
    option off the type bits of [newMode] are neither checked nor taken
    over.  With the permissions option on, the permission bits are replaced.
    When the resulting mode is the default of the inode's kind the file mode
    key of the user metadata is deleted, otherwise it holds the decimal
    digits of the mode in the backend's convention; the flag returned is
    true exactly when the mode changed. *)
Theorem C8_setFileMode_updates_mode fs inode newMode :
  let refused :=
    EnableSpecials (flags fs) = true
    /\ Z.land newMode ModeDir <> Z.land (Mode (Attributes inode)) ModeDir in
  let m := resulting_mode fs inode newMode in
  (refused ->
   setFileMode fs inode newMode =
     (inode, (false, Some (if Z.land newMode ModeDir =? 0 then EISDIR else ENOTDIR))))
  /\ (~ refused ->
      exists inode' changed,
        setFileMode fs inode newMode = (inode', (changed, None))
        /\ Mode (Attributes inode') = m
        /\ (changed = true <-> m <> Mode (Attributes inode))
        /\ userMetadataDirty inode' = 2
        /\ exists um, userMetadata inode' = Some um
             /\ um !! FileModeAttr (flags fs) =
                  (if m =? default_mode fs inode then None
                   else Some (list_byte_of_string (fmt_d (ConvertGolangMode m))))).
Proof.
  intros refused m. subst refused m. unfold setFileMode, resulting_mode, default_mode. split.
  - intros [Hs Hd]. rewrite Hs. apply Z.eqb_neq in Hd. rewrite Hd. cbn [negb].
    destruct (Z.land newMode ModeDir =? 0); done.
  - intros Hn.
    assert (Hok : EnableSpecials (flags fs) = true ->
                  (Z.land newMode ModeDir =? Z.land (Mode (Attributes inode)) ModeDir) = true).
    { intros Hs. apply Z.eqb_eq.
      destruct (decide (Z.land newMode ModeDir = Z.land (Mode (Attributes inode)) ModeDir));
        [done|]. exfalso. by apply Hn. }
    clear Hn. destruct inode as [id nm [sz mt ct ui gi rd mo] atm pa di im cs bu op onm mp ud um s3 ks ke rc].
    cbn [Attributes Mode] in *.
    destruct (EnableSpecials (flags fs)); [rewrite Hok by done|]; clear Hok;
      unfold set_Mode, isDir;
      cbn [negb Attributes Mode set_Attributes Size Mtime Ctime Uid Gid Rdev dir];
      destruct (EnablePerms (flags fs));
      cbn [negb Attributes Mode set_Attributes Size Mtime Ctime Uid Gid Rdev dir];
      match goal with
      | |- context [if negb (Z.land ?m2 ModeDevice =? 0) then _ else _] =>
          destruct (Z.land m2 ModeDevice =? 0);
          cbn [negb setUserMeta set_userMetadata set_userMetadataDirty userMetadata
                 Attributes Mode isDir dir];
          match goal with
          | |- context [negb (m2 =? ?d)] =>
              destruct (m2 =? d) eqn:Hdef;
              cbn [negb setUserMeta set_userMetadata set_userMetadataDirty userMetadata
                     userMetadataDirty Attributes Mode isDir dir];
              (eexists _, _; split; [reflexivity|]);
              cbn [negb setUserMeta set_userMetadata set_userMetadataDirty userMetadata
                     userMetadataDirty Attributes Mode isDir dir];
              (split; [reflexivity|]);
              (split; [rewrite negb_true_iff, Z.eqb_neq; split; congruence|]);
              (split; [reflexivity|]);
              (eexists; split; [reflexivity|]);
              rewrite ?lookup_insert_eq, ?lookup_delete_eq; reflexivity
          end
      end.
Qed.

(** *** Extended attributes *)

Lemma fillXattrFromHead_frame fs resp inode :
  CacheState (fillXattrFromHead fs resp inode) = CacheState inode
  /\ userMetadataDirty (fillXattrFromHead fs resp inode) = userMetadataDirty inode.
Proof.
  unfold fillXattrFromHead.
  match goal with |- context [setMetadata fs ?md ?j] =>
    destruct (setMetadata_shape fs md j) as (a & um & _ & E & _) end.
  rewrite E.
  destruct (item_ETag (head_item resp)), (item_StorageClass (head_item resp)), inode; done.
Qed.

Lemma fillXattr_frame fs inode fs1 inode1 e :
  fillXattr fs inode = Ok (fs1, inode1, e) ->
  CacheState inode1 = CacheState inode
  /\ userMetadataDirty inode1 = userMetadataDirty inode.
Proof.
  unfold fillXattr.
  destruct (negb (ImplicitDir inode) && bool_decide (userMetadata inode = None));
    [|by intros [= <- <- <-]].
  destruct (cloud inode) as [[c key]|]; [|done].
  destruct (oldParent inode) as [op|].
  - destruct (cloud op) as [[c' k]|]; [|done].
    destruct c as [c|]; [|done].
    destruct (bk_HeadBlob c _) as [resp|err].
    + intros [= <- <- <-]. apply fillXattrFromHead_frame.
    + destruct (mapAwsError err) as [[]|]; intros [= <- <- <-]; try done.
      destruct (isDir inode); [by destruct inode | done].
  - destruct c as [c|]; [|done].
    destruct (bk_HeadBlob c _) as [resp|err].
    + intros [= <- <- <-]. apply fillXattrFromHead_frame.
    + destruct (mapAwsError err) as [[]|]; intros [= <- <- <-]; try done.
      destruct (isDir inode); [by destruct inode | done].
Qed.

Lemma resolved_inv fs inode r0 k0 fs1 inode1 r key :
  resolved fs inode r0 k0 = Ok (fs1, inode1, inl (r, key)) ->
  fs1 = fs /\ inode1 = inode /\ r = r0 /\ key = k0
  /\ exists meta, meta_of r inode1 = Some meta.
Proof.
  unfold resolved. destruct (meta_of r0 inode) as [meta|] eqn:Hm; [|done].
  intros [= <- <- <- <-]. eauto 10.
Qed.

(** In user-only mode a name resolves only to the user metadata, under the
    name without its [user.] prefix, and only when that map exists. *)
Lemma getXattrMap_userOnly fs inode name fs1 inode1 r key :
  getXattrMap fs inode name true = Ok (fs1, inode1, inl (r, key)) ->
  r = RefUser /\ key = string_drop 5 name /\ HasPrefix name "user." = true
  /\ CacheState inode1 = CacheState inode
  /\ userMetadataDirty inode1 = userMetadataDirty inode
  /\ exists meta, userMetadata inode1 = Some meta.
Proof.
  unfold getXattrMap.
  destruct (cloud inode) as [[[c|] path]|]; [|done|done].
  destruct (HasPrefix name (bk_Name c ++ ".")); [done|].
  destruct (HasPrefix name "user.") eqn:Hu; [|done].
  destruct (negb (String.eqb name ("user." ++ SymlinkAttr (flags fs)))); [|done].
  cbn [andb].
  destruct (fillXattr fs inode) as [[[fs' inode'] [err|]]|] eqn:Hf; [done| |done].
  intros H. apply resolved_inv in H as (-> & -> & -> & -> & meta & Hm).
  apply fillXattr_frame in Hf as [? ?]. cbn in Hm. eauto 10.
Qed.

Lemma mark_metadata_dirty_spec fs inode :
  let '(fs', inode') := mark_metadata_dirty fs inode in
  userMetadataDirty inode' = 2
  /\ userMetadata inode' = userMetadata inode
  /\ (CacheState inode = ST_CACHED ->
      CacheState inode' = ST_MODIFIED /\ trace fs' = trace fs ++ [EvWakeupFlusher])
  /\ (CacheState inode <> ST_CACHED -> CacheState inode' = CacheState inode /\ fs' = fs).
Proof.
  unfold mark_metadata_dirty.
  replace (CacheState (set_userMetadataDirty 2 inode)) with (CacheState inode)
    by (by destruct inode).
  destruct (CacheState inode =? ST_CACHED) eqn:Hc.
  - apply Z.eqb_eq in Hc. destruct inode; cbn in *. done.
  - apply Z.eqb_neq in Hc. destruct inode; cbn in *. done.
Qed.


(** C6.  For a name that resolves in the user namespace: [RemoveXattr] on a
    key that the map does not hold returns ENODATA and leaves
    [userMetadataDirty] and the cache state as they were; on a key that is
    present it deletes the entry, sets [userMetadataDirty] to 2 and moves a
    CACHED inode to MODIFIED with a flusher wakeup. *)
Theorem C6_RemoveXattr_absent_and_present fs inode name fs1 inode1 r key :
  getXattrMap fs inode name true = Ok (fs1, inode1, inl (r, key)) ->
  exists meta,
    userMetadata inode1 = Some meta
    /\ (meta !! key = None ->
        RemoveXattr fs inode name = Ok (fs1, inode1, Some ENODATA)
        /\ userMetadataDirty inode1 = userMetadataDirty inode
        /\ CacheState inode1 = CacheState inode)
    /\ (is_Some (meta !! key) ->
        exists fs2 inode2,
          RemoveXattr fs inode name = Ok (fs2, inode2, None)
          /\ userMetadata inode2 = Some (delete key meta)
          /\ userMetadataDirty inode2 = 2
          /\ (CacheState inode = ST_CACHED ->
              CacheState inode2 = ST_MODIFIED /\ trace fs2 = trace fs1 ++ [EvWakeupFlusher])
          /\ (CacheState inode <> ST_CACHED ->
              CacheState inode2 = CacheState inode /\ fs2 = fs1)).
Proof.
  intros Hg.
  destruct (getXattrMap_userOnly _ _ _ _ _ _ _ Hg) as (-> & Hk & _ & Hc & Hd & meta & Hm).
  exists meta. split; [done|].
  unfold RemoveXattr. rewrite Hg. cbn [meta_of]. rewrite Hm. cbn [meta_has].
  split.
  - intros Hs. rewrite bool_decide_eq_false_2; [done|]. rewrite Hs. by intros [? ?].
  - intros Hs. rewrite bool_decide_eq_true_2 by done. cbn [store_meta].
    pose proof (mark_metadata_dirty_spec fs1
                  (set_userMetadata (Some (delete key meta)) inode1)) as Hx.
    destruct (mark_metadata_dirty fs1 _) as [fs2 inode2].
    destruct Hx as (Hd1 & Hd2 & Hd3 & Hd4).
    exists fs2, inode2. split; [done|].
    replace (CacheState (set_userMetadata (Some (delete key meta)) inode1))
      with (CacheState inode) in Hd3, Hd4 by (rewrite <- Hc; by destruct inode1).
    split; [rewrite Hd2; by destruct inode1|]. done.
Qed.

Lemma prefix_In p s : String.prefix p s = true -> In p (prefixes s).
Proof.
  revert p. induction s as [|b s IH]; intros [|a p] H; cbn in *; try (by left); try done.
  destruct (ascii_dec a b) as [->|]; [|done].
  right. apply in_map. by apply IH.
Qed.

Lemma strip_dot_app n : strip_dot (n ++ ".") = Some n.
Proof.
  induction n as [|c n IH]; [done|].
  change (String c n ++ ".")%string with (String c (n ++ ".")).
  remember (n ++ ".")%string as m eqn:E. destruct m as [|d m]; [by destruct n|].
  change (strip_dot (String c (String d m)))
    with (option_map (String c) (strip_dot (String d m))).
  by rewrite IH.
Qed.

(** The only backend whose prefix [security.capability] carries is the one
    named [security]. *)
Lemma security_prefix n :
  HasPrefix "security.capability" (n ++ ".") = true -> n = "security"%string.
Proof.
  unfold HasPrefix. intros H.
  apply prefix_In, (in_map strip_dot) in H. rewrite strip_dot_app in H.
  vm_compute in H. intuition congruence.
Qed.

(** C7.  With a backend bound: a name that starts with the backend name and
    a dot addresses [s3Metadata], and is refused with EPERM in user-only
    mode; a name that starts neither with that prefix nor with [user.] is
    refused with EPERM in user-only mode and with ENOSYS otherwise.  So
    [GetXattr] of [security.capability] returns ENOSYS (the backend not being
    called [security]) and [SetXattr] of it returns EPERM. *)
Theorem C7_xattr_namespace_routing fs inode c path name :
  cloud inode = Ok (Some c, path) ->
  (HasPrefix name (bk_Name c ++ ".") = true ->
   getXattrMap fs inode name true = Ok (fs, inode, inr EPERM)
   /\ getXattrMap fs inode name false =
        Ok (fs, inode, inl (RefS3, string_drop (String.length (bk_Name c ++ ".")) name)))
  /\ (HasPrefix name (bk_Name c ++ ".") = false -> HasPrefix name "user." = false ->
      getXattrMap fs inode name true = Ok (fs, inode, inr EPERM)
      /\ getXattrMap fs inode name false = Ok (fs, inode, inr ENOSYS))
  /\ (bk_Name c <> "security"%string ->
      GetXattr fs inode "security.capability" = Ok (fs, inode, inr ENOSYS))
  /\ (forall value,
      SetXattr fs inode "security.capability" value 0 = Ok (fs, inode, Some EPERM)).
Proof.
  intros Hc. split; [|split; [|split]].
  - intros Hp. unfold getXattrMap. rewrite Hc, Hp. done.
  - intros Hp Hu. unfold getXattrMap. rewrite Hc, Hp, Hu. done.
  - intros Hn. unfold GetXattr, getXattrMap. rewrite Hc.
    destruct (HasPrefix "security.capability" (bk_Name c ++ ".")) eqn:Hp.
    + apply security_prefix in Hp. done.
    + done.
  - intros value. unfold SetXattr, getXattrMap. rewrite Hc.
    destruct (HasPrefix "security.capability" (bk_Name c ++ ".")); done.
Qed.

(** *** The escape codec *)

Ltac ascii_cases c :=
  destruct c as [[] [] [] [] [] [] [] []].

Lemma nibble_cases (x : N) :
  (x < 16)%N ->
  (x = 0 \/ x = 1 \/ x = 2 \/ x = 3 \/ x = 4 \/ x = 5 \/ x = 6 \/ x = 7 \/ x = 8
   \/ x = 9 \/ x = 10 \/ x = 11 \/ x = 12 \/ x = 13 \/ x = 14 \/ x = 15)%N.
Proof. lia. Qed.

Lemma hexdigit_spec (x : N) :
  (x < 16)%N ->
  ishex (hexdigit x) = true /\ unhex (hexdigit x) = x
  /\ Ascii.eqb (hexdigit x) "%" = false
  /\ is_ascii (hexdigit x) = true
  /\ ishex (lower_ascii (hexdigit x)) = true /\ unhex (lower_ascii (hexdigit x)) = x.
Proof.
  intros H. apply nibble_cases in H. unfold hexdigit.
  destruct xattrUpperHex;
    repeat (destruct H as [H|H]; [subst x; vm_compute; done|]); subst x; vm_compute; done.
Qed.

Lemma byte_nibbles (c : ascii) :
  (N_of_ascii c / 16 < 16)%N /\ (N_of_ascii c mod 16 < 16)%N
  /\ ascii_of_N (N_of_ascii c / 16 * 16 + N_of_ascii c mod 16) = c.
Proof.
  pose proof (N_ascii_bounded c) as Hb.
  split; [apply N.Div0.div_lt_upper_bound; lia|].
  split; [apply N.mod_lt; lia|].
  replace (N_of_ascii c / 16 * 16 + N_of_ascii c mod 16)%N with (N_of_ascii c).
  - apply ascii_N_embedding.
  - rewrite (N.div_mod (N_of_ascii c) 16) at 1 by lia. lia.
Qed.

(** Unescaping undoes escaping. *)
Lemma PathUnescape_xattrEscape s : PathUnescape (xattrEscape s) = Some s.
Proof.
  induction s as [|c s IH]; [done|].
  cbn [xattrEscape]. destruct (xattrLiteral c) eqn:Hl.
  - cbn [PathUnescape].
    destruct (Ascii.eqb c "%") eqn:E.
    + apply Ascii.eqb_eq in E. subst c. congruence.
    + by rewrite IH.
  - destruct (byte_nibbles c) as (Hh & Hlo & Hc).
    destruct (hexdigit_spec _ Hh) as (H1 & H2 & _).
    destruct (hexdigit_spec _ Hlo) as (H3 & H4 & _).
    change (PathUnescape (String "%" (String (hexdigit (N_of_ascii c / 16))
              (String (hexdigit (N_of_ascii c mod 16)) (xattrEscape s)))))
      with (if ishex (hexdigit (N_of_ascii c / 16)) && ishex (hexdigit (N_of_ascii c mod 16))
            then match PathUnescape (xattrEscape s) with
                 | Some r => Some (String (ascii_of_N
                     (unhex (hexdigit (N_of_ascii c / 16)) * 16
                      + unhex (hexdigit (N_of_ascii c mod 16)))) r)
                 | None => None
                 end
            else None).
    by rewrite H1, H3, H2, H4, IH, Hc.
Qed.

Lemma xattrEscape_inj s t : xattrEscape s = xattrEscape t -> s = t.
Proof.
  intros H. apply (f_equal PathUnescape) in H.
  rewrite !PathUnescape_xattrEscape in H. congruence.
Qed.

Lemma xattrEscape_ascii s : string_forallb is_ascii (xattrEscape s) = true.
Proof.
  induction s as [|c s IH]; [done|].
  cbn [xattrEscape]. destruct (xattrLiteral c) eqn:Hl.
  - cbn [string_forallb]. by rewrite (xattrLiteral_ascii c Hl), IH.
  - destruct (byte_nibbles c) as (Hh & Hlo & _).
    destruct (hexdigit_spec _ Hh) as (_ & _ & _ & H1 & _).
    destruct (hexdigit_spec _ Hlo) as (_ & _ & _ & H2 & _).
    cbn [string_forallb]. by rewrite H1, H2, IH.
Qed.

Lemma lower_ascii_facts c :
  lower_ascii (lower_ascii c) = lower_ascii c
  /\ (is_ascii c = true -> is_ascii (lower_ascii c) = true)
  /\ (is_upper c = false -> lower_ascii c = c).
Proof. ascii_cases c; vm_compute; done. Qed.

Lemma ToLowerASCII_idemp s : ToLowerASCII (ToLowerASCII s) = ToLowerASCII s.
Proof.
  unfold ToLowerASCII. induction s as [|c s IH]; [done|].
  cbn [string_map]. rewrite IH. by rewrite (proj1 (lower_ascii_facts c)).
Qed.

Lemma ToLowerASCII_ascii s :
  string_forallb is_ascii s = true -> string_forallb is_ascii (ToLowerASCII s) = true.
Proof.
  unfold ToLowerASCII. induction s as [|c s IH]; [done|].
  cbn [string_map string_forallb]. rewrite !andb_true_iff. intros [H1 H2].
  split; [by apply lower_ascii_facts | by apply IH].
Qed.

(** Lower-casing an escaped key only touches its hexadecimal digits and its
    upper-case letters; without such letters the key comes back. *)
Lemma PathUnescape_lower_xattrEscape k :
  no_upper k -> PathUnescape (ToLowerASCII (xattrEscape k)) = Some k.
Proof.
  unfold no_upper, ToLowerASCII. induction k as [|c k IH]; [done|].
  cbn [string_forallb]. rewrite andb_true_iff, negb_true_iff. intros [Hu Hk].
  cbn [xattrEscape]. destruct (xattrLiteral c) eqn:Hl.
  - cbn [string_map PathUnescape].
    rewrite (proj2 (proj2 (lower_ascii_facts c)) Hu).
    destruct (Ascii.eqb c "%") eqn:E.
    + apply Ascii.eqb_eq in E. subst c. congruence.
    + by rewrite (IH Hk).
  - destruct (byte_nibbles c) as (Hh & Hlo & Hc).
    destruct (hexdigit_spec _ Hh) as (_ & _ & _ & _ & H1 & H2).
    destruct (hexdigit_spec _ Hlo) as (_ & _ & _ & _ & H3 & H4).
    cbn [string_map].
    change (lower_ascii "%") with "%"%char.
    change (PathUnescape (String "%" (String (lower_ascii (hexdigit (N_of_ascii c / 16)))
              (String (lower_ascii (hexdigit (N_of_ascii c mod 16)))
                 (string_map lower_ascii (xattrEscape k))))))
      with (if ishex (lower_ascii (hexdigit (N_of_ascii c / 16)))
               && ishex (lower_ascii (hexdigit (N_of_ascii c mod 16)))
            then match PathUnescape (string_map lower_ascii (xattrEscape k)) with
                 | Some r => Some (String (ascii_of_N
                     (unhex (lower_ascii (hexdigit (N_of_ascii c / 16))) * 16
                      + unhex (lower_ascii (hexdigit (N_of_ascii c mod 16))))) r)
                 | None => None
                 end
            else None).
    by rewrite H1, H3, H2, H4, (IH Hk), Hc.
Qed.

(** The key under which [escapeMetadata] stores an entry, unescaped as
    [unescapeMetadata] does it. *)
Lemma unescape_escaped_key k :
  no_upper k -> PathUnescape (ToLower (ToLower (xattrEscape k))) = Some k.
Proof.
  intros Hk.
  rewrite (ToLower_ascii (xattrEscape k)) by apply xattrEscape_ascii.
  rewrite ToLower_ascii by apply ToLowerASCII_ascii, xattrEscape_ascii.
  rewrite ToLowerASCII_idemp. by apply PathUnescape_lower_xattrEscape.
Qed.

Lemma lower_ascii_percent c : Ascii.eqb (lower_ascii c) "%" = Ascii.eqb c "%".
Proof. ascii_cases c; vm_compute; done. Qed.

(** The same for any key: the upper-case letters that the escape leaves as
    they are come back lowered. *)
Lemma PathUnescape_lower_xattrEscape_any k :
  PathUnescape (ToLowerASCII (xattrEscape k)) = Some (stored_key k).
Proof.
  unfold stored_key, ToLowerASCII. induction k as [|c k IH]; [done|].
  cbn [xattrEscape]. destruct (xattrLiteral c) eqn:Hl.
  - cbn [string_map PathUnescape]. rewrite Hl, lower_ascii_percent.
    destruct (Ascii.eqb c "%") eqn:E.
    + apply Ascii.eqb_eq in E. subst c. congruence.
    + by rewrite IH.
  - destruct (byte_nibbles c) as (Hh & Hlo & Hc).
    destruct (hexdigit_spec _ Hh) as (_ & _ & _ & _ & H1 & H2).
    destruct (hexdigit_spec _ Hlo) as (_ & _ & _ & _ & H3 & H4).
    cbn [string_map]. rewrite Hl.
    change (lower_ascii "%") with "%"%char.
    change (PathUnescape (String "%" (String (lower_ascii (hexdigit (N_of_ascii c / 16)))
              (String (lower_ascii (hexdigit (N_of_ascii c mod 16)))
                 (string_map lower_ascii (xattrEscape k))))))
      with (if ishex (lower_ascii (hexdigit (N_of_ascii c / 16)))
               && ishex (lower_ascii (hexdigit (N_of_ascii c mod 16)))
            then match PathUnescape (string_map lower_ascii (xattrEscape k)) with
                 | Some r => Some (String (ascii_of_N
                     (unhex (lower_ascii (hexdigit (N_of_ascii c / 16))) * 16
                      + unhex (lower_ascii (hexdigit (N_of_ascii c mod 16))))) r)
                 | None => None
                 end
            else None).
    by rewrite H1, H3, H2, H4, IH, Hc.
Qed.

Lemma unescape_escaped_key_any k :
  PathUnescape (ToLower (ToLower (xattrEscape k))) = Some (stored_key k).
Proof.
  rewrite (ToLower_ascii (xattrEscape k)) by apply xattrEscape_ascii.
  rewrite ToLower_ascii by apply ToLowerASCII_ascii, xattrEscape_ascii.
  rewrite ToLowerASCII_idemp. apply PathUnescape_lower_xattrEscape_any.
Qed.

Lemma stored_key_idemp k : stored_key (stored_key k) = stored_key k.
Proof.
  unfold stored_key. induction k as [|c k IH]; [done|].
  cbn [string_map]. rewrite IH. f_equal.
  destruct (xattrLiteral c) eqn:Hl; [|by rewrite Hl].
  destruct (xattrLiteral (lower_ascii c)); [|done].
  exact (proj1 (lower_ascii_facts c)).
Qed.

Lemma stored_key_no_upper k : no_upper k -> stored_key k = k.
Proof.
  unfold stored_key, no_upper. induction k as [|c k IH]; [done|].
  cbn [string_forallb string_map]. rewrite andb_true_iff, negb_true_iff. intros [Hu Hk].
  rewrite (IH Hk), (proj2 (proj2 (lower_ascii_facts c)) Hu). by destruct (xattrLiteral c).
Qed.

(** Keys with the same escape as the backend sees it come back under the
    same key. *)
Lemma stored_key_of_escape k1 k2 :
  ToLower (xattrEscape k1) = ToLower (xattrEscape k2) -> stored_key k1 = stored_key k2.
Proof.
  intros H. apply (f_equal (fun s => PathUnescape (ToLower s))) in H.
  rewrite !unescape_escaped_key_any in H. congruence.
Qed.

(** A loop that inserts into a map, read as the map of the entries it
    produced, the later ones first. *)
Lemma fold_left_insert {A V : Type} (g : A -> option (string * V))
    (step : gmap string V -> A -> gmap string V) (l : list A) :
  (forall acc x, step acc x =
     match g x with Some kv => <[fst kv := snd kv]> acc | None => acc end) ->
  fold_left step l ∅ = list_to_map (reverse (omap g l)).
Proof.
  intros Hstep. induction l as [|x l IH] using rev_ind; [done|].
  rewrite fold_left_app, omap_app, reverse_app. cbn [fold_left].
  rewrite Hstep, IH. cbn. destruct (g x) as [[k v]|]; done.
Qed.

Lemma fold_left_insert_lookup_1 {A V : Type} (g : A -> option (string * V))
    (step : gmap string V -> A -> gmap string V) (l : list A) k v :
  (forall acc x, step acc x =
     match g x with Some kv => <[fst kv := snd kv]> acc | None => acc end) ->
  fold_left step l ∅ !! k = Some v -> exists x, x ∈ l /\ g x = Some (k, v).
Proof.
  intros Hstep H. rewrite (fold_left_insert g step l Hstep) in H.
  apply elem_of_list_to_map_2, elem_of_reverse, list_elem_of_omap in H. done.
Qed.

Lemma fold_left_insert_lookup_2 {A V : Type} (g : A -> option (string * V))
    (step : gmap string V -> A -> gmap string V) (l : list A) k v x :
  (forall acc x, step acc x =
     match g x with Some kv => <[fst kv := snd kv]> acc | None => acc end) ->
  (forall y v', y ∈ l -> g y = Some (k, v') -> v' = v) ->
  x ∈ l -> g x = Some (k, v) ->
  fold_left step l ∅ !! k = Some v.
Proof.
  intros Hstep Hfun Hx Hg. rewrite (fold_left_insert g step l Hstep).
  apply elem_of_list_to_map_1'.
  - intros v' Hv'. apply elem_of_reverse, list_elem_of_omap in Hv' as (y & Hy & Hgy).
    symmetry. eauto.
  - apply elem_of_reverse, list_elem_of_omap. eauto.
Qed.

Lemma unescapeEntry_step acc kv :
  unescapeEntry acc kv =
    match unescaped_entry kv with Some e => <[fst e := snd e]> acc | None => acc end.
Proof.
  unfold unescapeEntry, unescaped_entry.
  destruct (PathUnescape (ToLower (fst kv))); [|done]. destruct (PathUnescape (snd kv)); done.
Qed.

Lemma escapeEntry_step acc kv :
  escapeEntry acc kv =
    match escaped_entry kv with Some e => <[fst e := snd e]> acc | None => acc end.
Proof. done. Qed.

Lemma elem_of_rangeOrder {V : Type} (m : gmap string V) k v :
  (k, v) ∈ rangeOrder V m <-> m !! k = Some v.
Proof. rewrite rangeOrder_perm. apply elem_of_map_to_list. Qed.

(** Every entry of the unescaped map comes from an entry whose key and
    value unescape. *)
Lemma unescapeMetadata_lookup_1 (m : gmap string string) um uk uv :
  unescapeMetadata (Some m) = Some um ->
  um !! uk = Some uv ->
  exists k v, m !! k = Some v
    /\ PathUnescape (ToLower k) = Some uk
    /\ exists s, PathUnescape v = Some s /\ uv = list_byte_of_string s.
Proof.
  intros [= <-] H.
  apply (fold_left_insert_lookup_1 unescaped_entry) in H as ([k v] & Hin & Hg);
    [|apply unescapeEntry_step].
  apply elem_of_rangeOrder in Hin. exists k, v. split; [done|].
  unfold unescaped_entry in Hg. cbn [fst snd] in Hg.
  destruct (PathUnescape (ToLower k)) as [uk'|]; [|done].
  destruct (PathUnescape v) as [s|]; [|done].
  injection Hg as -> <-. eauto.
Qed.

Lemma escapeMetadata_lookup_1 (um : gmap string bytes) m k v :
  escapeMetadata (Some um) = Some m ->
  m !! k = Some v ->
  exists uk uv, um !! uk = Some uv
    /\ k = ToLower (xattrEscape uk) /\ v = xattrEscape (string_of_list_byte uv).
Proof.
  intros [= <-] H.
  apply (fold_left_insert_lookup_1 escaped_entry) in H as ([uk uv] & Hin & Hg);
    [|apply escapeEntry_step].
  apply elem_of_rangeOrder in Hin.
  unfold escaped_entry in Hg. cbn [fst snd] in Hg. injection Hg as <- <-. eauto.
Qed.


(** ** Further properties of the code *)

(** *** Path resolution *)

(** Induction along the parent chain. *)
Lemma Inode_parent_ind (P : Inode -> Prop) :
  (forall i, (forall q, Parent i = Some q -> P q) -> P i) -> forall i, P i.
Proof.
  intros H. fix IH 1. intros i. apply H. intros q Hq.
  destruct i as [? ? ? ? pa ? ? ? ? ? ? ? ? ? ? ? ? ?]. cbn in Hq.
  destruct pa as [q'|]; [|discriminate]. injection Hq as <-. apply IH.
Qed.

Lemma cloud_walk_no_panic p path :
  dir_chain p -> exists c prefix path', cloud_walk p path = Ok (c, prefix, path').
Proof.
  revert path. induction p as [p IH] using Inode_parent_ind. intros path Hd.
  destruct p as [id nm attr atm pa di im cs bu op onm mp ud um s3 ks ke rc].
  cbn in Hd. destruct Hd as [[d Hdir] Hp]. subst di.
  cbn [cloud_walk dir Parent Name].
  destruct (dir_cloud d) as [c|]; [eauto|].
  destruct pa as [q|]; [|eauto].
  apply (IH q eq_refl). exact Hp.
Qed.

(** X1.  [cloud] does not panic on an inode all of whose ancestors are
    directories. *)
Theorem X1_cloud_no_panic inode :
  match dir inode with
  | Some _ => dir_chain inode
  | None => match Parent inode with Some p => dir_chain p | None => True end
  end ->
  exists c path, cloud inode = Ok (c, path).
Proof.
  unfold cloud. destruct (dir inode) as [d|] eqn:Hd.
  - intros H. destruct (cloud_walk_no_panic inode EmptyString H) as (c & pre & p & ->). eauto.
  - destruct (Parent inode) as [p|]; [|eauto].
    intros H. destruct (cloud_walk_no_panic p (Name inode) H) as (c & pre & p' & ->). eauto.
Qed.

Lemma TrimRightSlash_last s : last_char (TrimRightSlash s) <> Some "/"%char.
Proof.
  induction s as [|c s IH]; [done|].
  cbn [TrimRightSlash]. destruct (TrimRightSlash s) as [|c' s'] eqn:E.
  - destruct (Ascii.eqb c "/") eqn:Ec; [done|].
    cbn. apply Ascii.eqb_neq in Ec. congruence.
  - cbn [last_char] in *. destruct (last_char s'); done.
Qed.

(** For a named inode without a backend of its own, file or directory, the
    walk starts at the parent with the name as the path. *)
Lemma cloud_unbound f d :
  unbound f -> Parent f = Some d -> Name f <> EmptyString ->
  cloud f =
    match cloud_walk d (Name f) with
    | Ok (c, prefix, path) =>
        Ok (c, if String.eqb path EmptyString then TrimRightSlash prefix
               else (prefix ++ path)%string)
    | Panic => Panic
    end.
Proof.
  intros Hu Hp Hn. unfold cloud, unbound in *.
  destruct f as [id nm attr atm pa di im cs bu op onm mp ud um s3 ks ke rc].
  cbn [dir Parent Name] in *. subst pa.
  destruct di as [fd|]; [|done].
  cbn [cloud_walk dir Parent Name]. rewrite Hu.
  apply String.eqb_neq in Hn. cbn [String.eqb]. done.
Qed.

(** X2.  A child (a file, or a directory that is not a mount point)
    directly under a directory that carries a backend is addressed by the
    mount prefix followed by its name, and the directory itself by the
    prefix without trailing slashes; the prefix is dropped for the error
    backend and for a backend whose initialisation fails. *)
Theorem X2_cloud_under_mount f d dd c :
  unbound f -> Parent f = Some d -> Name f <> EmptyString ->
  dir d = Some dd -> dir_cloud dd = Some c ->
  cloud f = Ok (Some c, (applied_prefix c dd ++ Name f)%string)
  /\ cloud d = Ok (Some c, TrimRightSlash (applied_prefix c dd))
  /\ (forall path, cloud d = Ok (Some c, path) -> last_char path <> Some "/"%char).
Proof.
  intros Hf Hp Hn Hd Hc.
  assert (Hw : forall path, cloud_walk d path = Ok (Some c, applied_prefix c dd, path)).
  { intros path. destruct d; cbn in *. subst. rewrite Hc.
    unfold applied_prefix. destruct (bk_kind c) as [| |[]]; done. }
  assert (Hcd : cloud d = Ok (Some c, TrimRightSlash (applied_prefix c dd))).
  { unfold cloud. rewrite Hd, Hw. done. }
  split; [|split; [done|]].
  - rewrite (cloud_unbound f d Hf Hp Hn), Hw.
    destruct (String.eqb (Name f) EmptyString) eqn:E; [|done].
    apply String.eqb_eq in E. done.
  - intros path. rewrite Hcd. intros [= <-]. apply TrimRightSlash_last.
Qed.

Lemma string_app_assoc (a b c : string) : ((a ++ b) ++ c = a ++ (b ++ c))%string.
Proof.
  induction a as [|x a IH]; [done|].
  change (String x ((a ++ b) ++ c) = String x (a ++ (b ++ c)))%string. by f_equal.
Qed.

Lemma cloud_walk_app q y z c pre r :
  y <> EmptyString ->
  cloud_walk q y = Ok (Some c, pre, r) ->
  cloud_walk q (y ++ z) = Ok (Some c, pre, (r ++ z)%string) /\ r <> EmptyString.
Proof.
  revert y. induction q as [q IH] using Inode_parent_ind. intros y Hy.
  destruct q as [id nm attr atm pa di im cs bu op onm mp ud um s3 ks ke rc].
  cbn [cloud_walk dir Parent Name].
  destruct di as [d|]; [|done].
  destruct (dir_cloud d) as [c'|].
  - intros [= <- <- <-]. done.
  - assert (E1 : String.eqb y EmptyString = false) by (by apply String.eqb_neq).
    assert (E2 : String.eqb (y ++ z) EmptyString = false).
    { apply String.eqb_neq. by destruct y. }
    rewrite E1, E2. destruct pa as [q'|]; [|done].
    intros H.
    replace (nm ++ "/" ++ y ++ z)%string with ((nm ++ "/" ++ y) ++ z)%string
      by (by rewrite !string_app_assoc).
    apply (IH q' eq_refl); [|done]. by destruct nm.
Qed.

(** X3.  Below a directory without a backend of its own, the key of a
    child (a file, or a directory that is not a mount point) is the key of
    the directory, a slash and the name of the child. *)
Theorem X3_cloud_child_of_directory f d dd c dpath :
  unbound f -> Parent f = Some d -> Name f <> EmptyString ->
  dir d = Some dd -> dir_cloud dd = None -> Name d <> EmptyString ->
  cloud d = Ok (Some c, dpath) ->
  cloud f = Ok (Some c, (dpath ++ "/" ++ Name f)%string).
Proof.
  intros Hf Hp Hn Hd Hc Hnd. rewrite (cloud_unbound f d Hf Hp Hn).
  unfold cloud. rewrite Hd.
  destruct d as [id nm attr atm pa di im cs bu op onm mp ud um s3 ks ke rc].
  cbn in Hd, Hnd. subst di.
  cbn [cloud_walk dir Parent Name]. rewrite Hc.
  assert (E : String.eqb (Name f) EmptyString = false) by (by apply String.eqb_neq).
  rewrite E. cbn [String.eqb].
  destruct pa as [q|]; [|done].
  destruct (cloud_walk q nm) as [[[c' pre] r]|] eqn:Hw; [|done].
  destruct c' as [c'|].
  - destruct (cloud_walk_app q nm ("/" ++ Name f) c' pre r Hnd Hw) as [Hw' Hr].
    rewrite Hw'.
    assert (E1 : String.eqb r EmptyString = false) by (by apply String.eqb_neq).
    assert (E2 : String.eqb (r ++ "/" ++ Name f) EmptyString = false).
    { apply String.eqb_neq. by destruct r. }
    rewrite E1, E2. intros [= <- <-]. by rewrite string_app_assoc.
  - destruct (String.eqb r EmptyString); done.
Qed.

(** *** Extended attributes, continued *)

Lemma cloud_same_place i j : same_place i j -> cloud i = cloud j.
Proof.
  intros (Hn & Hp & Hd). destruct i, j. cbn in Hn, Hp, Hd. subst.
  unfold cloud. cbn [dir Name Parent].
  match goal with |- context [match ?d with Some _ => _ | None => _ end] =>
    destruct d; [|done] end.
  done.
Qed.

Lemma setMetadata_place fs md i : same_place (setMetadata fs md i) i.
Proof.
  destruct (setMetadata_shape fs md i) as (a & um & _ & E & _). rewrite E.
  by destruct i.
Qed.

Lemma fillXattr_place fs inode fs1 inode1 e :
  fillXattr fs inode = Ok (fs1, inode1, e) ->
  same_place inode1 inode /\ flags fs1 = flags fs.
Proof.
  assert (Hhead : forall resp, same_place (fillXattrFromHead fs resp inode) inode).
  { intros resp. unfold fillXattrFromHead.
    match goal with |- same_place (setMetadata fs ?md ?j) _ =>
      destruct (setMetadata_place fs md j) as (H1 & H2 & H3) end.
    unfold same_place. rewrite H1, H2, H3.
    destruct (item_ETag (head_item resp)), (item_StorageClass (head_item resp)), inode; done. }
  unfold fillXattr.
  destruct (negb (ImplicitDir inode) && bool_decide (userMetadata inode = None));
    [|by intros [= <- <- <-]].
  destruct (cloud inode) as [[c key]|]; [|done].
  destruct (match oldParent inode with
            | Some op => match cloud op with
                         | Ok (_, k) => Ok (appendChildName k (oldName inode))
                         | Panic => Panic
                         end
            | None => Ok key
            end) as [key'|]; [|done].
  destruct c as [c|]; [|done].
  destruct (bk_HeadBlob c _) as [resp|err].
  - intros [= <- <- <-]. split; [apply Hhead | done].
  - destruct (mapAwsError err) as [[]|]; intros [= <- <- <-]; try done.
    destruct (isDir inode); [by destruct inode | done].
Qed.

(** What a resolution in user-only mode tells about the call. *)
Lemma getXattrMap_userOnly_inv fs inode name fs1 inode1 r key :
  getXattrMap fs inode name true = Ok (fs1, inode1, inl (r, key)) ->
  exists c path meta,
    cloud inode = Ok (Some c, path)
    /\ user_name fs c name
    /\ fillXattr fs inode = Ok (fs1, inode1, None)
    /\ r = RefUser /\ key = string_drop 5 name
    /\ userMetadata inode1 = Some meta.
Proof.
  unfold getXattrMap, user_name.
  destruct (cloud inode) as [[[c|] path]|]; [|done|done].
  destruct (HasPrefix name (bk_Name c ++ ".")) eqn:Hp; [done|].
  destruct (HasPrefix name "user.") eqn:Hu; [|done].
  destruct (String.eqb name ("user." ++ SymlinkAttr (flags fs))) eqn:Hs; [done|].
  cbn [andb negb].
  destruct (fillXattr fs inode) as [[[fs' inode'] [err|]]|] eqn:Hf; [done| |done].
  intros H. apply resolved_inv in H as (-> & -> & -> & -> & meta & Hm).
  apply String.eqb_neq in Hs. cbn in Hm. exists c, path, meta. done.
Qed.

(** A name of the user namespace resolves to the user metadata once that
    map exists, in either mode and without a request to the backend. *)
Lemma getXattrMap_user_present fs inode c path name meta userOnly :
  cloud inode = Ok (Some c, path) ->
  user_name fs c name ->
  userMetadata inode = Some meta ->
  getXattrMap fs inode name userOnly = Ok (fs, inode, inl (RefUser, string_drop 5 name)).
Proof.
  intros Hc (Hp & Hu & Hs) Hm. unfold getXattrMap. rewrite Hc, Hp, Hu.
  apply String.eqb_neq in Hs. rewrite Hs. cbn [andb negb].
  unfold fillXattr. rewrite Hm.
  rewrite bool_decide_eq_false_2 by done. rewrite andb_false_r.
  unfold resolved. cbn [meta_of]. by rewrite Hm.
Qed.

Lemma mark_metadata_dirty_place fs inode :
  same_place (snd (mark_metadata_dirty fs inode)) inode
  /\ flags (fst (mark_metadata_dirty fs inode)) = flags fs.
Proof.
  unfold mark_metadata_dirty.
  destruct (CacheState (set_userMetadataDirty 2 inode) =? ST_CACHED); by destruct inode.
Qed.

(** The state that a successful [SetXattr] or [RemoveXattr] leaves: the
    user metadata [meta'] in place of the resolved one. *)
Lemma stored_user_meta fs inode name fs1 inode1 r key meta' fs2 inode2 :
  getXattrMap fs inode name true = Ok (fs1, inode1, inl (r, key)) ->
  mark_metadata_dirty fs1 (set_userMetadata (Some meta') inode1) = (fs2, inode2) ->
  exists c path,
    cloud inode2 = Ok (Some c, path) /\ user_name fs2 c name
    /\ userMetadata inode2 = Some meta' /\ key = string_drop 5 name.
Proof.
  intros Hg Hd.
  destruct (getXattrMap_userOnly_inv _ _ _ _ _ _ _ Hg)
    as (c & path & meta & Hc & Hu & Hf & -> & -> & Hm).
  destruct (fillXattr_place _ _ _ _ _ Hf) as [Hp Hfl].
  pose proof (mark_metadata_dirty_place fs1 (set_userMetadata (Some meta') inode1)) as [Hp2 Hfl2].
  pose proof (mark_metadata_dirty_spec fs1 (set_userMetadata (Some meta') inode1)) as Hs.
  rewrite Hd in Hp2, Hfl2, Hs. cbn [fst snd] in Hp2, Hfl2. destruct Hs as (_ & Hum & _).
  exists c, path. split; [|split; [|split; [|done]]].
  - rewrite <- Hc. apply cloud_same_place.
    destruct Hp2 as (A1 & A2 & A3), Hp as (B1 & B2 & B3).
    unfold same_place. rewrite A1, A2, A3. by destruct inode1.
  - unfold user_name in *. by rewrite Hfl2, Hfl.
  - rewrite Hum. by destruct inode1.
Qed.

(** X4.  What [SetXattr] stored, [GetXattr] returns: after a successful
    [SetXattr] of a name, [GetXattr] of the same name on the resulting state
    gives the value back and changes nothing. *)
Theorem X4_GetXattr_after_SetXattr fs inode name value flags fs2 inode2 :
  SetXattr fs inode name value flags = Ok (fs2, inode2, None) ->
  GetXattr fs2 inode2 name = Ok (fs2, inode2, inl value).
Proof.
  unfold SetXattr.
  destruct (getXattrMap fs inode name true) as [[[fs1 inode1] [[r key]|err]]|] eqn:Hg;
    [|done|done].
  match goal with |- context [match ?x with Some err => _ | None => _ end] =>
    destruct x; [done|] end.
  destruct (meta_of r inode1) as [meta|] eqn:Hm; [|done].
  assert (r = RefUser) as -> by (by destruct (getXattrMap_userOnly _ _ _ _ _ _ _ Hg)).
  cbn [store_meta Dup].
  destruct (mark_metadata_dirty fs1 _) as [fs2' inode2'] eqn:Hd.
  intros [= <- <-].
  destruct (stored_user_meta _ _ _ _ _ _ _ _ _ _ Hg Hd) as (c & path & Hc & Hu & Hum & ->).
  unfold GetXattr. rewrite (getXattrMap_user_present _ _ _ _ _ _ false Hc Hu Hum).
  cbn [meta_of]. by rewrite Hum, lookup_insert_eq.
Qed.

(** X5.  What [RemoveXattr] removed, [GetXattr] no longer finds: after a
    successful [RemoveXattr] of a name, [GetXattr] of the same name returns
    ENODATA. *)
Theorem X5_GetXattr_after_RemoveXattr fs inode name fs2 inode2 :
  RemoveXattr fs inode name = Ok (fs2, inode2, None) ->
  GetXattr fs2 inode2 name = Ok (fs2, inode2, inr ENODATA).
Proof.
  unfold RemoveXattr.
  destruct (getXattrMap fs inode name true) as [[[fs1 inode1] [[r key]|err]]|] eqn:Hg;
    [|done|done].
  destruct (meta_has (meta_of r inode1) key); [|done].
  destruct (meta_of r inode1) as [meta|] eqn:Hm; [|done].
  assert (r = RefUser) as -> by (by destruct (getXattrMap_userOnly _ _ _ _ _ _ _ Hg)).
  cbn [store_meta].
  destruct (mark_metadata_dirty fs1 _) as [fs2' inode2'] eqn:Hd.
  intros [= <- <-].
  destruct (stored_user_meta _ _ _ _ _ _ _ _ _ _ Hg Hd) as (c & path & Hc & Hu & Hum & ->).
  unfold GetXattr. rewrite (getXattrMap_user_present _ _ _ _ _ _ false Hc Hu Hum).
  cbn [meta_of]. by rewrite Hum, lookup_delete_eq.
Qed.

(** X6.  A regular file whose object the backend does not find has no user
    metadata: reading a user attribute of it asks the backend and returns
    ENOSYS, and the inode stays as it was, so every later read asks again. *)
Theorem X6_GetXattr_missing_object fs inode c key name err :
  dir inode = None -> userMetadata inode = None -> ImplicitDir inode = false ->
  oldParent inode = None ->
  cloud inode = Ok (Some c, key) ->
  user_name fs c name ->
  bk_HeadBlob c key = inr err -> mapAwsError err = Some ENOENT ->
  GetXattr fs inode name = Ok (emit (EvHeadBlob key) fs, inode, inr ENOSYS).
Proof.
  intros Hd Hm Hi Ho Hc (Hp & Hu & Hs) Hh He.
  apply String.eqb_neq in Hs.
  unfold GetXattr, getXattrMap. rewrite Hc, Hp, Hu.
  rewrite Hs. cbn [andb negb].
  unfold fillXattr. rewrite Hi, Hm, Hc, Ho.
  rewrite bool_decide_eq_true_2 by done. cbn [andb negb].
  unfold isDir. rewrite Hd, Hh, He.
  unfold resolved. cbn [meta_of]. by rewrite Hm.
Qed.

(** X7.  For a directory, the metadata is fetched at most once: after a
    [fillXattr] that returned no error, a second one returns at once and
    sends no request (the first one either filled the user metadata or
    marked the directory as implicit).  The backend's errors are assumed to
    map to errors. *)
Theorem X7_fillXattr_directory_once fs inode fs1 inode1 :
  (forall err, mapAwsError err <> None) ->
  isDir inode = true ->
  fillXattr fs inode = Ok (fs1, inode1, None) ->
  fillXattr fs1 inode1 = Ok (fs1, inode1, None).
Proof.
  intros Hmap Hdir. unfold fillXattr at 1.
  destruct (negb (ImplicitDir inode) && bool_decide (userMetadata inode = None)) eqn:E.
  - destruct (cloud inode) as [[c key]|]; [|done].
    destruct (match oldParent inode with
              | Some op => match cloud op with
                           | Ok (_, k) => Ok (appendChildName k (oldName inode))
                           | Panic => Panic
                           end
              | None => Ok key
              end) as [key'|]; [|done].
    destruct c as [c|]; [|done].
    rewrite Hdir.
    destruct (bk_HeadBlob c _) as [resp|err].
    + intros [= <- <-]. unfold fillXattr.
      assert (Hu : forall fs', exists um,
                 userMetadata (fillXattrFromHead fs' resp inode) = Some um).
      { intros fs'. unfold fillXattrFromHead.
        match goal with |- context [setMetadata fs' ?md ?j] =>
          destruct (setMetadata_shape fs' md j) as (a & um & _ & Es & _) end.
        rewrite Es. exists um.
        by destruct (item_ETag (head_item resp)), (item_StorageClass (head_item resp)), inode. }
      match goal with |- context [fillXattrFromHead ?fs' resp inode] =>
        destruct (Hu fs') as [um ->] end.
      rewrite bool_decide_eq_false_2 by done.
      by rewrite andb_false_r.
    + destruct (mapAwsError err) as [e|] eqn:He; [|by destruct (Hmap err)].
      destruct e; try done. intros [= <- <-].
      unfold fillXattr. by destruct inode.
  - intros [= <- <-]. unfold fillXattr. by rewrite E.
Qed.

(** *** Reference counting, continued *)

(** X8.  [DeRef 1] undoes [Ref]: on an inode that is referenced, or that is
    not CACHED, the pair leaves the inode and the filesystem as they were;
    the flag returned tells whether the count is back at zero. *)
Theorem X8_DeRef_after_Ref fs inode :
  0 <= refcnt inode < 2 ^ 63 - 1 ->
  0 < refcnt inode \/ CacheState inode <> ST_CACHED ->
  DeRef fs (Ref inode) 1 = Ok (fs, inode, refcnt inode =? 0).
Proof.
  intros Hr Hc. unfold DeRef, Ref.
  replace (refcnt (set_refcnt (wrap_int64 (refcnt inode + 1)) inode))
    with (wrap_int64 (refcnt inode + 1)) by (by destruct inode).
  rewrite (wrap_int64_in_range (refcnt inode + 1)) by lia.
  replace (refcnt inode + 1 - 1) with (refcnt inode) by lia.
  rewrite (wrap_int64_in_range (refcnt inode)) by lia.
  replace (set_refcnt (refcnt inode) (set_refcnt (refcnt inode + 1) inode)) with inode
    by (by destruct inode).
  assert ((refcnt inode <? 0) = false) as -> by lia.
  destruct Hc as [Hc|Hc].
  - assert ((refcnt inode =? 0) = false) as -> by lia. done.
  - apply Z.eqb_neq in Hc. rewrite Hc, andb_false_r. done.
Qed.

(** *** Mode bits *)

Lemma disjoint_bits a b n : Z.land a b = 0 -> Z.testbit a n && Z.testbit b n = false.
Proof. intros H. by rewrite <- Z.land_spec, H, Z.bits_0. Qed.

Lemma subset_bits a b n : Z.land a b = a -> Z.testbit a n = true -> Z.testbit b n = true.
Proof.
  intros H Ha. rewrite <- H, Z.land_spec in Ha. by apply andb_true_iff in Ha as [_ ?].
Qed.

Lemma perm_type_disjoint n : Z.testbit ModePerm n && Z.testbit ModeType n = false.
Proof. by apply disjoint_bits. Qed.

Lemma dir_in_type n : Z.testbit ModeDir n = true -> Z.testbit ModeType n = true.
Proof. by apply subset_bits. Qed.

Lemma symlink_in_type n : Z.testbit ModeSymlink n = true -> Z.testbit ModeType n = true.
Proof. by apply subset_bits. Qed.

Lemma special_perm_disjoint n : Z.testbit ModeSpecialBits n && Z.testbit ModePerm n = false.
Proof. by apply disjoint_bits. Qed.

Lemma special_type_disjoint n : Z.testbit ModeSpecialBits n && Z.testbit ModeType n = false.
Proof. by apply disjoint_bits. Qed.

(** A mode cut down to its permission bits and given one type. *)
Lemma presented_mode m t :
  (forall n, Z.testbit t n = true -> Z.testbit ModeType n = true) ->
  Z.land (Z.lor (Z.land m ModePerm) t) ModePerm = Z.land m ModePerm
  /\ Z.land (Z.lor (Z.land m ModePerm) t) ModeType = t.
Proof.
  intros Ht. split; apply Z.bits_inj'; intros n _;
    rewrite ?Z.land_spec, ?Z.lor_spec, ?Z.land_spec;
    pose proof (perm_type_disjoint n) as Hd; specialize (Ht n);
    destruct (Z.testbit m n), (Z.testbit ModePerm n), (Z.testbit ModeType n),
      (Z.testbit t n); cbn in *; try done; by (discriminate Ht || discriminate (Ht eq_refl)).
Qed.

(** The mode FUSE is shown for a directory. *)
Lemma InflateAttributes_dir_mode fs inode :
  isDir inode = true ->
  Z.land (fa_Mode (InflateAttributes fs inode)) ModePerm
  = Z.land (Mode (Attributes inode)) ModePerm
  /\ Z.land (fa_Mode (InflateAttributes fs inode)) ModeType = ModeDir.
Proof.
  intros Hd. unfold InflateAttributes. rewrite Hd. cbn [fa_Mode].
  apply presented_mode, dir_in_type.
Qed.

(** X9.  In the attributes given to FUSE the permission bits are always
    those of the inode; a directory has the directory type and nothing
    else, a file that carries the symlink attribute the symlink type, and
    any other inode its mode as it is. *)
Theorem X9_InflateAttributes_mode fs inode :
  let a := InflateAttributes fs inode in
  Z.land (fa_Mode a) ModePerm = Z.land (Mode (Attributes inode)) ModePerm
  /\ (isDir inode = true -> Z.land (fa_Mode a) ModeType = ModeDir)
  /\ (isDir inode = false -> is_symlink fs inode = true ->
      Z.land (fa_Mode a) ModeType = ModeSymlink)
  /\ (isDir inode = false -> is_symlink fs inode = false ->
      fa_Mode a = Mode (Attributes inode)).
Proof.
  unfold InflateAttributes.
  destruct (presented_mode (Mode (Attributes inode)) ModeDir dir_in_type) as [D1 D2].
  destruct (presented_mode (Mode (Attributes inode)) ModeSymlink symlink_in_type) as [S1 S2].
  destruct (isDir inode); [|destruct (is_symlink fs inode)]; cbn [fa_Mode]; done.
Qed.

(** X10.  [ToDir] makes a directory of a file inode and leaves a directory
    as it is, so it is idempotent; the new directory keeps the owner, has
    size 4096 and no times of its own, and FUSE is shown two links and the
    root's modification time. *)
Theorem X10_ToDir_makes_directory fs inode :
  ToDir fs (ToDir fs inode) = ToDir fs inode
  /\ isDir (ToDir fs inode) = true
  /\ (isDir inode = true -> ToDir fs inode = inode)
  /\ (isDir inode = false ->
      let a := InflateAttributes fs (ToDir fs inode) in
      fa_Nlink a = 2 /\ fa_Size a = 4096
      /\ fa_Uid a = Uid (Attributes inode) /\ fa_Gid a = Gid (Attributes inode)
      /\ fa_Mtime a = Mtime (rootAttrs fs)
      /\ Z.land (fa_Mode a) ModeType = ModeDir
      /\ Z.land (fa_Mode a) ModePerm = Z.land (flag_DirMode (flags fs)) ModePerm).
Proof.
  unfold ToDir, isDir. destruct inode as [id nm attr atm pa [d|] im cs bu op onm mp ud um s3 ks ke rc];
    cbn [dir set_dir set_Attributes].
  - done.
  - split; [done|]. split; [done|]. split; [done|]. intros _.
    destruct (InflateAttributes_dir_mode fs
      (mkInode id nm (mkInodeAttributes 4096 zeroTime zeroTime (Uid attr) (Gid attr) 0
                        (Z.lor (flag_DirMode (flags fs)) ModeDir))
         atm pa (Some (mkDirInodeData None EmptyString (-1))) im cs bu op onm mp ud um s3 ks ke rc))
      as (P1 & P2); [done|].
    cbv zeta in *. split; [done|]. split; [done|]. split; [done|]. split; [done|].
    split; [done|]. split; [by apply P2|].
    refine (eq_trans P1 _). cbn [Attributes Mode].
    apply Z.bits_inj'; intros n _. rewrite !Z.land_spec, Z.lor_spec.
    pose proof (perm_type_disjoint n) as Hd.
    assert (Ht := dir_in_type n).
    destruct (Z.testbit (flag_DirMode (flags fs)) n), (Z.testbit ModePerm n),
      (Z.testbit ModeType n), (Z.testbit ModeDir n); cbn in *; try done.
    discriminate (Ht eq_refl).
Qed.

(** *** Attributes taken from the metadata *)

Lemma setMetadata_owner_keeps fs um i :
  exists a, setMetadata_owner fs um i = set_Attributes a i
    /\ Mode a = Mode (Attributes i) /\ Rdev a = Rdev (Attributes i)
    /\ Mtime a = Mtime (Attributes i)
    /\ (EnablePerms (flags fs) = false -> a = Attributes i).
Proof.
  unfold setMetadata_owner.
  destruct (EnablePerms (flags fs)); [|exists (Attributes i); by destruct i].
  destruct (um !! UidAttr (flags fs)) as [s|], (um !! GidAttr (flags fs)) as [t|];
    repeat match goal with
           | |- context [ParseUint ?x ?y ?z] => destruct (ParseUint x y z) as [? [|]]
           end;
    destruct i; simpl; eexists; (split; [reflexivity|]); done.
Qed.

(** The mode after the file mode attribute was applied to a mode [m]. *)
Lemma applied_mode_bits m fm mask :
  mask = ModePerm \/ mask = 0 \/ mask = Z.lor ModePerm ModeType \/ mask = Z.lor 0 ModeType ->
  let m' := Z.lor (Z.land m (Z.lxor (Z.lor ModePerm ModeType) mask)) (Z.land fm mask) in
  Z.land m' ModeSpecialBits = 0
  /\ (mask = ModePerm \/ mask = 0 -> Z.land m' ModeType = Z.land m ModeType)
  /\ (mask = 0 \/ mask = Z.lor 0 ModeType -> Z.land m' ModePerm = Z.land m ModePerm).
Proof.
  intros Hmask m'. subst m'.
  split; [|split]; [|intros Hm; clear Hmask..];
    apply Z.bits_inj'; intros n _;
    rewrite ?Z.land_spec, ?Z.lor_spec, ?Z.land_spec, ?Z.lxor_spec, ?Z.lor_spec, ?Z.bits_0;
    pose proof (perm_type_disjoint n) as H1;
    pose proof (special_perm_disjoint n) as H2;
    pose proof (special_type_disjoint n) as H3.
  - destruct Hmask as [-> | [-> | [-> | ->]]];
      rewrite ?Z.lor_spec, ?Z.bits_0;
      destruct (Z.testbit m n), (Z.testbit fm n), (Z.testbit ModePerm n),
        (Z.testbit ModeType n), (Z.testbit ModeSpecialBits n); cbn in *; done.
  - destruct Hm as [-> | ->];
      rewrite ?Z.bits_0;
      destruct (Z.testbit m n), (Z.testbit fm n), (Z.testbit ModePerm n),
        (Z.testbit ModeType n); cbn in *; done.
  - destruct Hm as [-> | ->];
      rewrite ?Z.lor_spec, ?Z.bits_0;
      destruct (Z.testbit m n), (Z.testbit fm n), (Z.testbit ModePerm n),
        (Z.testbit ModeType n); cbn in *; done.
Qed.

(** What [setMetadata_mode] does to the mode: nothing, or the file mode
    attribute applied under one of the four masks. *)
Lemma setMetadata_mode_cases fs um i :
  exists a, setMetadata_mode fs um i = set_Attributes a i
    /\ Uid a = Uid (Attributes i) /\ Gid a = Gid (Attributes i)
    /\ Mtime a = Mtime (Attributes i)
    /\ ((a = Attributes i
         /\ (EnablePerms (flags fs) || EnableSpecials (flags fs) = false
             \/ um !! FileModeAttr (flags fs) = None
             \/ exists s, um !! FileModeAttr (flags fs) = Some s
                  /\ snd (ParseUint (string_of_list_byte s) 0 32) = false))
        \/ exists s fm mask,
             um !! FileModeAttr (flags fs) = Some s
             /\ snd (ParseUint (string_of_list_byte s) 0 32) = true
             /\ EnablePerms (flags fs) || EnableSpecials (flags fs) = true
             /\ mask = (let mask := if EnablePerms (flags fs) then ModePerm else 0 in
                        if EnableSpecials (flags fs)
                           && (Z.land (Mode (Attributes i)) ModeType =? 0)
                        then Z.lor mask ModeType else mask)
             /\ Mode a = Z.lor (Z.land (Mode (Attributes i))
                                  (Z.lxor (Z.lor ModePerm ModeType) mask))
                               (Z.land fm mask)).
Proof.
  unfold setMetadata_mode.
  destruct (EnablePerms (flags fs) || EnableSpecials (flags fs)) eqn:Hen;
    [|exists (Attributes i); split; [by destruct i|]; split; [done|]; split; [done|];
      split; [done|]; left; split; [done|]; by left].
  destruct (um !! FileModeAttr (flags fs)) as [s|] eqn:Hs;
    [|exists (Attributes i); split; [by destruct i|]; split; [done|]; split; [done|];
      split; [done|]; left; split; [done|]; right; by left].
  destruct (ParseUint (string_of_list_byte s) 0 32) as [v ok] eqn:Hp.
  destruct ok;
    [|exists (Attributes i); split; [by destruct i|]; split; [done|]; split; [done|];
      split; [done|]; left; split; [done|]; right; right; exists s; by rewrite Hp].
  cbv zeta.
  set (mask := if EnableSpecials (flags fs) && (Z.land (Mode (Attributes i)) ModeType =? 0)
               then Z.lor (if EnablePerms (flags fs) then ModePerm else 0) ModeType
               else if EnablePerms (flags fs) then ModePerm else 0).
  set (m' := Z.lor (Z.land (Mode (Attributes i)) (Z.lxor (Z.lor ModePerm ModeType) mask))
               (Z.land (ConvertFileMode (to_uint32 v)) mask)).
  replace (Mode (Attributes (set_Attributes (set_Mode m' (Attributes i)) i))) with m'
    by (by destruct i).
  destruct (negb (Z.land m' ModeDevice =? 0));
    eexists; (split; [by destruct i|]); (split; [by destruct i|]);
    (split; [by destruct i|]); (split; [by destruct i|]);
    right; exists s, (ConvertFileMode (to_uint32 v)), mask; rewrite Hp;
    (split; [done|]); (split; [done|]); (split; [done|]); (split; [done|]);
    by destruct i.
Qed.

(** The mode with which [setMetadata_mode] starts is the inode's. *)
Lemma setMetadata_mode_of fs md i :
  exists um j,
    unescapeMetadata md = Some um
    /\ Mode (Attributes j) = Mode (Attributes i)
    /\ Uid (Attributes j) = Uid (Attributes (setMetadata_owner fs um
                               (setMetadata_mtime fs um (set_userMetadata (Some um) i))))
    /\ Attributes (setMetadata fs md i) = Attributes (setMetadata_mode fs um j)
    /\ (EnablePerms (flags fs) = false -> EnableMtime (flags fs) = false ->
        Attributes j = Attributes i)
    /\ (EnablePerms (flags fs) = false ->
        Uid (Attributes j) = Uid (Attributes i) /\ Gid (Attributes j) = Gid (Attributes i))
    /\ (EnableMtime (flags fs) = false -> Mtime (Attributes j) = Mtime (Attributes i)).
Proof.
  unfold setMetadata.
  destruct (unescapeMetadata md) as [um|] eqn:Hum; [|discriminate].
  replace (userMetadata (set_userMetadata (Some um) i)) with (Some um) by (by destruct i).
  exists um, (setMetadata_owner fs um (setMetadata_mtime fs um (set_userMetadata (Some um) i))).
  destruct (setMetadata_mtime_shape fs um (set_userMetadata (Some um) i))
    as (a0 & E0 & S0 & C0 & U0 & G0 & M0 & R0 & T0).
  rewrite E0.
  destruct (setMetadata_owner_keeps fs um (set_Attributes a0 (set_userMetadata (Some um) i)))
    as (a1 & E1 & M1 & R1 & T1 & P1).
  rewrite E1.
  split; [done|]. split; [destruct i; cbn in *; congruence|]. split; [done|]. split; [done|].
  split; [|split].
  - intros Hp Hm. specialize (P1 Hp). rewrite Hm in T0.
    destruct i as [? ? [] ? ? ? ? ? ? ? ? ? ? ? ? ? ? ?], a0, a1; cbn in *. congruence.
  - intros Hp. specialize (P1 Hp). destruct i, a0, a1; cbn in *. split; congruence.
  - intros Hm. rewrite Hm in T0. destruct i; cbn in *. congruence.
Qed.

(** X11.  Metadata of the remote object cannot change the type of an inode
    that has one: on a directory, a symlink or a device, [setMetadata]
    leaves the type bits as they are, whatever the file mode attribute
    says. *)
Theorem X11_setMetadata_keeps_type fs md inode :
  Z.land (Mode (Attributes inode)) ModeType <> 0 ->
  Z.land (Mode (Attributes (setMetadata fs md inode))) ModeType
  = Z.land (Mode (Attributes inode)) ModeType.
Proof.
  intros Ht.
  destruct (setMetadata_mode_of fs md inode) as (um & j & _ & Hm & _ & -> & _).
  destruct (setMetadata_mode_cases fs um j) as (a & E & _ & _ & _ & [[-> _]|H]).
  - rewrite E. replace (Attributes (set_Attributes (Attributes j) j)) with (Attributes j)
      by (by destruct j). by rewrite Hm.
  - destruct H as (s & fm & mask & _ & _ & _ & Hmask & Ha).
    rewrite E. replace (Attributes (set_Attributes a j)) with a by (by destruct j).
    rewrite Ha, Hm. rewrite Hm in Hmask.
    apply Z.eqb_neq in Ht. rewrite Ht, andb_false_r in Hmask. cbv zeta in Hmask.
    apply applied_mode_bits; destruct (EnablePerms (flags fs)); auto.
Qed.

(** X12.  Whenever [setMetadata] applies the file mode attribute, the
    resulting mode has none of the setuid, setgid and sticky bits, whatever
    the attribute and the previous mode say. *)
Theorem X12_setMetadata_clears_special_bits fs md inode um s :
  unescapeMetadata md = Some um ->
  EnablePerms (flags fs) || EnableSpecials (flags fs) = true ->
  um !! FileModeAttr (flags fs) = Some s ->
  snd (ParseUint (string_of_list_byte s) 0 32) = true ->
  Z.land (Mode (Attributes (setMetadata fs md inode))) ModeSpecialBits = 0.
Proof.
  intros Hum Hen Hs Hp.
  destruct (setMetadata_mode_of fs md inode) as (um' & j & Hum' & Hm & _ & -> & _).
  rewrite Hum in Hum'. injection Hum' as <-.
  destruct (setMetadata_mode_cases fs um j) as (a & E & _ & _ & _ & [[_ H]|H]).
  - destruct H as [H|[H|(s' & H1 & H2)]]; [congruence|congruence|].
    rewrite Hs in H1. injection H1 as <-. congruence.
  - destruct H as (s' & fm & mask & _ & _ & _ & Hmask & Ha).
    rewrite E. replace (Attributes (set_Attributes a j)) with a by (by destruct j).
    rewrite Ha. apply applied_mode_bits. rewrite Hmask. cbv zeta.
    destruct (EnablePerms (flags fs)),
      (EnableSpecials (flags fs) && (Z.land (Mode (Attributes j)) ModeType =? 0)); auto.
Qed.

(** X13.  The options gate what [setMetadata] takes from the metadata: with
    the permissions option off the owner, the group and the permission bits
    stay; with the mtime option off the modification time stays; with the
    permissions, special files and mtime options all off the attributes stay
    as they are. *)
Theorem X13_setMetadata_options_off fs md inode :
  let a := Attributes (setMetadata fs md inode) in
  (EnablePerms (flags fs) = false ->
   Uid a = Uid (Attributes inode) /\ Gid a = Gid (Attributes inode)
   /\ Z.land (Mode a) ModePerm = Z.land (Mode (Attributes inode)) ModePerm)
  /\ (EnableMtime (flags fs) = false -> Mtime a = Mtime (Attributes inode))
  /\ (EnablePerms (flags fs) = false -> EnableSpecials (flags fs) = false ->
      EnableMtime (flags fs) = false -> a = Attributes inode)
  /\ Size a = Size (Attributes inode) /\ Ctime a = Ctime (Attributes inode).
Proof.
  intros a. subst a.
  destruct (setMetadata_shape fs md inode) as (a' & um0 & _ & E0 & HS & HC & _).
  destruct (setMetadata_mode_of fs md inode) as (um & j & _ & Hm & _ & Ha & Hall & Hown & Hmt).
  destruct (setMetadata_mode_cases fs um j) as (a & E & HU & HG & HT & Hcases).
  assert (Ea : Attributes (setMetadata fs md inode) = a).
  { rewrite Ha, E. by destruct j. }
  split; [|split; [|split; [|split]]].
  - intros Hp. destruct (Hown Hp) as [HU' HG']. rewrite Ea.
    split; [congruence|]. split; [congruence|].
    destruct Hcases as [[-> _]|(s & fm & mask & _ & _ & _ & Hmask & Hmode)].
    + by rewrite Hm.
    + rewrite Hmode, Hm. rewrite Hp in Hmask. cbv zeta in Hmask.
      apply applied_mode_bits;
        destruct (EnableSpecials (flags fs) && (Z.land (Mode (Attributes j)) ModeType =? 0));
        auto.
  - intros Hmtime. rewrite Ea, HT. by apply Hmt.
  - intros Hp Hsp Hmtime. rewrite Ea.
    destruct Hcases as [[-> _]|(s & fm & mask & _ & _ & Hen & _)].
    + by apply Hall.
    + rewrite Hp, Hsp in Hen. done.
  - rewrite E0 in *. by destruct inode.
  - rewrite E0 in *. by destruct inode.
Qed.

(** *** Remote reconciliation, continued *)

Lemma refresh_known_storage_class now item inode :
  s3Metadata (refresh_known now item inode) !! "storage-class"%string
  = list_byte_of_string <$> item_StorageClass item.
Proof.
  unfold refresh_known.
  destruct (item_ETag item) as [e|], (item_StorageClass item) as [sc|], inode as [];
    cbn; destruct (Before _ now); cbn;
    rewrite ?lookup_insert_ne, ?lookup_delete_ne, ?lookup_insert_eq, ?lookup_delete_eq by done;
    done.
Qed.

(** On an inode that already holds what the item says, the common part of
    [SetFromBlobItem] only moves [AttrTime]. *)
Lemma refresh_known_fixed now item inode :
  match item_ETag item with
  | Some etag =>
      s3Metadata inode !! "etag"%string = Some (list_byte_of_string etag)
      /\ knownETag inode = etag
  | None => s3Metadata inode !! "etag"%string = None
  end ->
  s3Metadata inode !! "storage-class"%string = list_byte_of_string <$> item_StorageClass item ->
  refresh_known now item inode
  = if Before (AttrTime inode) now then set_AttrTime now inode else inode.
Proof.
  intros He Hs. unfold refresh_known.
  assert (E1 : match item_ETag item with
               | Some etag =>
                   set_knownETag etag
                     (set_s3Metadata (<["etag"%string := list_byte_of_string etag]>
                                        (s3Metadata inode)) inode)
               | None => set_s3Metadata (delete "etag"%string (s3Metadata inode)) inode
               end = inode).
  { destruct (item_ETag item) as [e|].
    - destruct He as [He1 He2]. rewrite (insert_id _ _ _ He1). destruct inode; cbn in *.
      by subst.
    - rewrite (delete_id _ _ He). by destruct inode. }
  rewrite E1.
  assert (E2 : match item_StorageClass item with
               | Some sc =>
                   set_s3Metadata (<["storage-class"%string := list_byte_of_string sc]>
                                     (s3Metadata inode)) inode
               | None => set_s3Metadata (delete "storage-class"%string (s3Metadata inode)) inode
               end = inode).
  { destruct (item_StorageClass item) as [sc|]; cbn in Hs.
    - rewrite (insert_id _ _ _ Hs). by destruct inode.
    - rewrite (delete_id _ _ Hs). by destruct inode. }
  by rewrite E2.
Qed.

(** X14.  Observing the same item again resets nothing: after
    [SetFromBlobItem], a second call with the same item finds no conflict,
    calls no collaborator and changes at most [AttrTime]. *)
Theorem X14_SetFromBlobItem_same_item_again fs now now' item inode :
  let fs1 := fst (SetFromBlobItem fs now item inode) in
  let inode1 := snd (SetFromBlobItem fs now item inode) in
  ~ remote_changed item inode1
  /\ SetFromBlobItem fs1 now' item inode1
     = (fs1, if Before (AttrTime inode1) now' then set_AttrTime now' inode1 else inode1).
Proof.
  intros fs1 inode1.
  assert (H : exists j, inode1 = refresh_known now item j /\ knownSize j = item_Size item).
  { subst inode1.
    destruct (etag_differs item inode || negb (item_Size item =? knownSize inode)) eqn:Hc.
    - apply remote_changed_spec in Hc.
      rewrite (SetFromBlobItem_changed fs now item inode Hc). cbn [snd].
      exists (drop_cache fs item inode). split; [done|].
      by destruct (drop_cache_frame fs item inode) as (_ & _ & _ & ? & _).
    - assert (Hn : ~ remote_changed item inode).
      { intros H. apply remote_changed_spec in H. congruence. }
      rewrite (SetFromBlobItem_unchanged fs now item inode Hn). cbn [snd].
      exists inode. split; [done|].
      apply orb_false_iff in Hc as [_ Hs]. by apply negb_false_iff, Z.eqb_eq in Hs. }
  destruct H as (j & Hj & Hsize).
  assert (Hn : ~ remote_changed item inode1).
  { rewrite Hj. destruct (refresh_known_frame now item j) as (_ & _ & _ & Hk & _).
    pose proof (refresh_known_etag now item j) as He.
    intros [(e & He1 & He2)|Hs].
    - rewrite He1 in He. destruct He as [_ He]. congruence.
    - congruence. }
  split; [done|].
  rewrite (SetFromBlobItem_unchanged fs1 now' item inode1 Hn). f_equal.
  apply refresh_known_fixed.
  - rewrite Hj. pose proof (refresh_known_etag now item j) as He.
    destruct (item_ETag item); [done|]. by destruct He.
  - rewrite Hj. apply refresh_known_storage_class.
Qed.

Lemma refresh_known_identity now item inode : same_identity (refresh_known now item inode) inode.
Proof.
  unfold refresh_known.
  destruct (item_ETag item) as [e|], (item_StorageClass item) as [sc|], inode as [];
    cbn; destruct (Before _ now); done.
Qed.

Lemma drop_cache_identity fs item inode : same_identity (drop_cache fs item inode) inode.
Proof.
  unfold drop_cache. destruct (item_Metadata item) as [md|].
  - match goal with |- context [setMetadata fs (Some md) ?j] =>
      destruct (setMetadata_shape fs (Some md) j) as (a & um & _ & E & _) end.
    rewrite E. by destruct inode.
  - by destruct inode.
Qed.

(** X15.  Reconciliation is about the cached data and the attributes only:
    [SetFromBlobItem] leaves the identity of the inode, its place in the
    tree and its lookup count as they are, and in the filesystem it touches
    nothing but the trace (not the inode table, the forget counter, the flags
    or the root's attributes). *)
Theorem X15_SetFromBlobItem_keeps_identity fs now item inode :
  let fs1 := fst (SetFromBlobItem fs now item inode) in
  let inode1 := snd (SetFromBlobItem fs now item inode) in
  same_identity inode1 inode
  /\ inodes fs1 = inodes fs /\ forgotCnt fs1 = forgotCnt fs
  /\ flags fs1 = flags fs /\ rootAttrs fs1 = rootAttrs fs.
Proof.
  intros fs1 inode1. subst fs1 inode1.
  destruct (etag_differs item inode || negb (item_Size item =? knownSize inode)) eqn:Hc.
  - apply remote_changed_spec in Hc.
    rewrite (SetFromBlobItem_changed fs now item inode Hc). cbn [fst snd].
    split.
    + pose proof (refresh_known_identity now item (drop_cache fs item inode)) as H1.
      pose proof (drop_cache_identity fs item inode) as H2.
      unfold same_identity in *. intuition congruence.
    + destruct (decide (discards_local inode)); done.
  - assert (Hn : ~ remote_changed item inode).
    { intros H. apply remote_changed_spec in H. congruence. }
    rewrite (SetFromBlobItem_unchanged fs now item inode Hn). cbn [fst snd].
    split; [apply refresh_known_identity | done].
Qed.

(** *** Sizes of the converted metadata *)

Lemma size_list_to_map_le {V : Type} (l : list (string * V)) :
  (size (list_to_map l : gmap string V) <= length l)%nat.
Proof.
  induction l as [|[k v] l IH]; [done|].
  rewrite list_to_map_cons, map_size_insert. cbn [length].
  destruct ((list_to_map l : gmap string V) !! k); cbn; lia.
Qed.

Lemma length_omap_le {A B : Type} (g : A -> option B) (l : list A) :
  (length (omap g l) <= length l)%nat.
Proof. induction l as [|x l IH]; [done|]. cbn. destruct (g x); cbn; lia. Qed.

(** X16.  Neither conversion invents entries: the unescaped map has at most
    as many entries as the backend's map (fewer when an entry does not
    unescape or two keys fall together), and the escaped map at most as many
    as the inode's. *)
Theorem X16_metadata_conversions_do_not_grow :
  (forall (m : gmap string string) um,
     unescapeMetadata (Some m) = Some um -> (size um <= size m)%nat)
  /\ (forall (um : gmap string bytes) m,
        escapeMetadata (Some um) = Some m -> (size m <= size um)%nat).
Proof.
  split.
  - intros m um [= <-].
    rewrite (fold_left_insert unescaped_entry unescapeEntry _ unescapeEntry_step).
    etransitivity; [apply size_list_to_map_le|].
    rewrite length_reverse. etransitivity; [apply length_omap_le|].
    by rewrite (Permutation_length (rangeOrder_perm _ m)), length_map_to_list.
  - intros um m [= <-].
    rewrite (fold_left_insert escaped_entry escapeEntry _ escapeEntry_step).
    etransitivity; [apply size_list_to_map_le|].
    rewrite length_reverse. etransitivity; [apply length_omap_le|].
    by rewrite (Permutation_length (rangeOrder_perm _ um)), length_map_to_list.
Qed.

(** *** Listing the attributes *)

Lemma prefix_app p k : String.prefix p (p ++ k) = true.
Proof.
  induction p as [|c p IH]; [by destruct k|].
  change (String c p ++ k)%string with (String c (p ++ k)).
  cbn [String.prefix]. by destruct (ascii_dec c c).
Qed.

Lemma string_drop_app p k : string_drop (String.length p) (p ++ k) = k.
Proof. induction p as [|c p IH]; [done|]. exact IH. Qed.

(** Two prefixes of one string: one is a prefix of the other. *)
Lemma prefix_comparable p q s :
  String.prefix p s = true -> String.prefix q s = true ->
  String.prefix p q = true \/ String.prefix q p = true.
Proof.
  revert p q. induction s as [|c s IH]; intros [|a p] [|b q]; cbn; auto; try done.
  destruct (ascii_dec a c) as [->|]; [|done]. destruct (ascii_dec b c) as [->|]; [|done].
  destruct (ascii_dec c c); [|done]. apply IH.
Qed.

(** A backend prefix that [user.] carries is [user.] itself. *)
Lemma user_prefix_of n : String.prefix (n ++ ".") "user." = true -> n = "user"%string.
Proof.
  intros H. apply prefix_In, (in_map strip_dot) in H. rewrite strip_dot_app in H.
  vm_compute in H. intuition congruence.
Qed.

(** With a backend whose prefix does not start with [user.], no name of the
    user namespace is under the backend's prefix. *)
Lemma user_names_apart c k :
  HasPrefix (bk_Name c ++ ".") "user." = false ->
  HasPrefix ("user." ++ k) (bk_Name c ++ ".") = false.
Proof.
  unfold HasPrefix. intros Hc.
  destruct (String.prefix (bk_Name c ++ ".") ("user." ++ k)) eqn:E; [|done].
  destruct (prefix_comparable _ _ _ E (prefix_app "user." k)) as [H|H].
  - apply user_prefix_of in H. rewrite H in Hc. done.
  - congruence.
Qed.

Lemma Total_leb : Total (fun s t : string => Is_true (String.leb s t)).
Proof.
  intros s t. destruct (String.leb_total s t) as [H|H]; [left | right]; by rewrite H.
Qed.

(** What [ListXattr] returns, given the state after the metadata fetch. *)
Lemma ListXattr_inv fs inode fs1 inode1 names :
  ListXattr fs inode = Ok (fs1, inode1, inl names) ->
  exists c path,
    fillXattr fs inode = Ok (fs1, inode1, None)
    /\ cloud inode1 = Ok (Some c, path)
    /\ names = sort_Strings
         (List.map (fun kv => (bk_Name c ++ "." ++ fst kv)%string)
            (rangeOrder _ (s3Metadata inode1))
          ++ match userMetadata inode1 with
             | Some um => List.map (fun kv => ("user." ++ fst kv)%string) (rangeOrder _ um)
             | None => []
             end).
Proof.
  unfold ListXattr.
  destruct (fillXattr fs inode) as [[[fs' inode'] [err|]]|] eqn:Hf; [done| |done].
  destruct (cloud inode') as [[[c|] path]|] eqn:Hc; [|done|done].
  intros [= <- <- <-]. exists c, path. split; [done|]. split; [done|].
  f_equal. f_equal. apply map_ext. intros [k v]. cbn. by rewrite string_app_assoc.
Qed.

(** X17.  [ListXattr] returns the attribute names in increasing order: the
    keys of [s3Metadata] under the backend's prefix and the keys of the user
    metadata under [user.], each as often as it arises, whatever the order
    in which the maps are visited. *)
Theorem X17_ListXattr_sorted_names fs inode fs1 inode1 names :
  ListXattr fs inode = Ok (fs1, inode1, inl names) ->
  exists c path,
    cloud inode1 = Ok (Some c, path)
    /\ Sorted (fun s t : string => Is_true (String.leb s t)) names
    /\ (forall x, x ∈ names <->
          (exists k, is_Some (s3Metadata inode1 !! k) /\ x = (bk_Name c ++ "." ++ k)%string)
          \/ (exists um k, userMetadata inode1 = Some um /\ is_Some (um !! k)
                /\ x = ("user." ++ k)%string))
    /\ length names
       = (size (s3Metadata inode1)
          + match userMetadata inode1 with Some um => size um | None => 0 end)%nat.
Proof.
  intros H. destruct (ListXattr_inv _ _ _ _ _ H) as (c & path & _ & Hc & ->).
  exists c, path. split; [done|]. unfold sort_Strings.
  split; [apply @Sorted_merge_sort, Total_leb|]. split.
  - intros x. rewrite merge_sort_Permutation, elem_of_app, !list_elem_of_In. split.
    + intros [Hx|Hx].
      * apply in_map_iff in Hx as ([k v] & <- & Hin). left. exists k.
        apply list_elem_of_In, elem_of_rangeOrder in Hin. cbn. eauto.
      * destruct (userMetadata inode1) as [um|]; [|done].
        apply in_map_iff in Hx as ([k v] & <- & Hin). right. exists um, k.
        apply list_elem_of_In, elem_of_rangeOrder in Hin. cbn. eauto.
    + intros [(k & [v Hk] & ->)|(um & k & Hum & [v Hk] & ->)].
      * left. apply in_map_iff. exists (k, v). split; [done|].
        by apply list_elem_of_In, elem_of_rangeOrder.
      * right. rewrite Hum. apply in_map_iff. exists (k, v). split; [done|].
        by apply list_elem_of_In, elem_of_rangeOrder.
  - rewrite (Permutation_length (merge_sort_Permutation _ _)), length_app, length_map.
    rewrite (Permutation_length (rangeOrder_perm _ _)), length_map_to_list.
    destruct (userMetadata inode1) as [um|]; [|done].
    by rewrite length_map, (Permutation_length (rangeOrder_perm _ _)), length_map_to_list.
Qed.

(** X18.  What [ListXattr] lists, [GetXattr] reads, with one exception: for
    a backend whose prefix does not start with [user.], every listed name
    other than the reserved symlink attribute has a value, and the symlink
    attribute, listed when the inode carries it, reads as ENOSYS. *)
Theorem X18_listed_names_are_readable fs inode fs1 inode1 names c path :
  ListXattr fs inode = Ok (fs1, inode1, inl names) ->
  cloud inode1 = Ok (Some c, path) ->
  HasPrefix (bk_Name c ++ ".") "user." = false ->
  forall x, x ∈ names ->
    (x <> ("user." ++ SymlinkAttr (flags fs1))%string ->
     exists v, GetXattr fs1 inode1 x = Ok (fs1, inode1, inl v))
    /\ (x = ("user." ++ SymlinkAttr (flags fs1))%string ->
        GetXattr fs1 inode1 x = Ok (fs1, inode1, inr ENOSYS)).
Proof.
  intros H Hc Hclash x Hx.
  destruct (ListXattr_inv _ _ _ _ _ H) as (c' & path' & _ & Hc' & ->).
  rewrite Hc in Hc'. injection Hc' as <- <-.
  unfold sort_Strings in Hx.
  rewrite merge_sort_Permutation, elem_of_app, !list_elem_of_In in Hx.
  destruct Hx as [Hx|Hx].
  - apply in_map_iff in Hx as ([k v] & <- & Hin).
    apply list_elem_of_In, elem_of_rangeOrder in Hin. cbn [fst].
    assert (Hp : HasPrefix (bk_Name c ++ "." ++ k) (bk_Name c ++ ".") = true).
    { unfold HasPrefix. rewrite <- string_app_assoc. apply prefix_app. }
    assert (Hget : GetXattr fs1 inode1 (bk_Name c ++ "." ++ k) = Ok (fs1, inode1, inl v)).
    { unfold GetXattr, getXattrMap. rewrite Hc, Hp. unfold resolved. cbn [meta_of].
      rewrite <- (string_app_assoc (bk_Name c) "." k), string_drop_app.
      by rewrite Hin. }
    split; [eauto|].
    intros Hs. exfalso.
    pose proof (user_names_apart c (SymlinkAttr (flags fs1)) Hclash) as Hu.
    rewrite <- Hs in Hu. congruence.
  - destruct (userMetadata inode1) as [um|] eqn:Hum; [|done].
    apply in_map_iff in Hx as ([k v] & <- & Hin).
    apply list_elem_of_In, elem_of_rangeOrder in Hin. cbn [fst].
    pose proof (user_names_apart c k Hclash) as Hu.
    split.
    + intros Hs. exists v.
      assert (Hname : user_name fs1 c ("user." ++ k)).
      { split; [done|]. split; [apply (prefix_app "user." k)|done]. }
      unfold GetXattr.
      rewrite (getXattrMap_user_present fs1 inode1 c path ("user." ++ k) um false Hc Hname Hum).
      cbn [meta_of]. rewrite Hum. change (string_drop 5 ("user." ++ k)) with k. by rewrite Hin.
    + intros Hs. unfold GetXattr, getXattrMap. rewrite Hc, Hu.
      assert (E : String.eqb ("user." ++ k) ("user." ++ SymlinkAttr (flags fs1)) = true)
        by (by apply String.eqb_eq).
      rewrite E. by rewrite andb_false_r.
Qed.

(** *** Mode changes, continued *)

Lemma setFileMode_accepted fs inode newMode :
  (EnableSpecials (flags fs) = true ->
   Z.land newMode ModeDir = Z.land (Mode (Attributes inode)) ModeDir) ->
  setFileMode fs inode newMode
  = (store_mode fs (set_Attributes (set_Mode (resulting_mode fs inode newMode)
                                      (Attributes inode)) inode),
     (negb (Mode (Attributes inode) =? resulting_mode fs inode newMode), None)).
Proof.
  intros Hok. unfold setFileMode, resulting_mode, store_mode, default_mode.
  destruct inode as [id nm [sz mt ct ui gi rd mo] atm pa di im cs bu op onm mp ud um s3 ks ke rc].
  cbn [Attributes Mode] in *.
  destruct (EnableSpecials (flags fs));
    [rewrite (proj2 (Z.eqb_eq _ _) (Hok eq_refl))|]; clear Hok;
    unfold set_Mode, isDir;
    cbn [negb Attributes Mode set_Attributes Size Mtime Ctime Uid Gid Rdev dir];
    destruct (EnablePerms (flags fs));
    cbn [negb Attributes Mode set_Attributes Size Mtime Ctime Uid Gid Rdev dir];
    match goal with
    | |- context [if negb (Z.land ?m2 ModeDevice =? 0) then _ else _] =>
        destruct (Z.land m2 ModeDevice =? 0);
        cbn [negb setUserMeta set_userMetadata set_userMetadataDirty userMetadata
               Attributes Mode Rdev dir];
        repeat match goal with
               | |- context [if negb (?a =? ?b) then _ else _] => destruct (a =? b)
               end;
        cbn [negb setUserMeta set_userMetadata set_userMetadataDirty userMetadata
               Attributes Mode Rdev dir];
        reflexivity
    end.
Qed.

Lemma setFileMode_inv fs inode newMode inode1 changed :
  setFileMode fs inode newMode = (inode1, (changed, None)) ->
  EnableSpecials (flags fs) = true ->
  Z.land newMode ModeDir = Z.land (Mode (Attributes inode)) ModeDir.
Proof.
  unfold setFileMode. intros H Hs. rewrite Hs in H.
  destruct (Z.land newMode ModeDir =? Z.land (Mode (Attributes inode)) ModeDir) eqn:E.
  - by apply Z.eqb_eq.
  - cbn [negb] in H. destruct (negb (Z.land newMode ModeDir =? 0)); done.
Qed.

Lemma resulting_mode_bits (specials perms : bool) mo newMode :
  let f := fun m =>
    let m := if specials then Z.lor (Z.land m ModePerm) (Z.land newMode ModeType) else m in
    if perms then Z.lor (Z.land m ModeType) (Z.land newMode ModePerm) else m in
  f (f mo) = f mo
  /\ (specials = true -> Z.land newMode ModeDir = Z.land (f mo) ModeDir).
Proof.
  intros f. subst f. cbv beta zeta.
  split; [|intros Hs];
    apply Z.bits_inj'; intros n _;
    pose proof (perm_type_disjoint n) as Hd; pose proof (dir_in_type n) as Ht;
    destruct specials, perms; try discriminate Hs;
    repeat first [rewrite Z.land_spec | rewrite Z.lor_spec];
    destruct (Z.testbit mo n), (Z.testbit newMode n), (Z.testbit ModePerm n),
      (Z.testbit ModeType n), (Z.testbit ModeDir n); cbn in *; try done;
    discriminate (Ht eq_refl).
Qed.

Lemma written_values_congr fs i j :
  Attributes j = Attributes i -> dir j = dir i ->
  mode_value fs j = mode_value fs i /\ has_device j = has_device i
  /\ rdev_value j = rdev_value i.
Proof.
  intros HA HD. unfold mode_value, has_device, rdev_value, default_mode, isDir.
  by rewrite HA, HD.
Qed.

Lemma store_mode_eq fs i :
  store_mode fs i
  = setUserMeta (FileModeAttr (flags fs)) (mode_value fs i)
      (if has_device i then setUserMeta (RdevAttr (flags fs)) (rdev_value i) i else i).
Proof.
  unfold store_mode. fold (has_device i). fold (rdev_value i).
  set (j := if has_device i then setUserMeta (RdevAttr (flags fs)) (rdev_value i) i else i).
  assert (Hj : Attributes j = Attributes i /\ dir j = dir i).
  { subst j. destruct (has_device i); [|done].
    by destruct (setUserMeta_lookup (RdevAttr (flags fs)) (rdev_value i) i)
      as (? & _ & _ & _ & ? & ?). }
  destruct Hj as [HA HD].
  destruct (written_values_congr fs i j HA HD) as (Hv & _).
  rewrite <- Hv. unfold mode_value.
  by destruct (negb (Mode (Attributes j) =? default_mode fs j)).
Qed.

Lemma store_mode_frame fs inode :
  Attributes (store_mode fs inode) = Attributes inode
  /\ dir (store_mode fs inode) = dir inode.
Proof.
  rewrite store_mode_eq.
  destruct (setUserMeta_lookup (FileModeAttr (flags fs)) (mode_value fs inode)
              (if has_device inode
               then setUserMeta (RdevAttr (flags fs)) (rdev_value inode) inode else inode))
    as (? & _ & _ & _ & -> & ->).
  destruct (has_device inode); [|done].
  by destruct (setUserMeta_lookup (RdevAttr (flags fs)) (rdev_value inode) inode)
    as (? & _ & _ & _ & ? & ?).
Qed.

Lemma setUserMeta_twice k v k' v' inode :
  setUserMeta k' v' (setUserMeta k v (setUserMeta k' v' (setUserMeta k v inode)))
  = setUserMeta k' v' (setUserMeta k v inode).
Proof.
  unfold setUserMeta. destruct inode as [id nm attr atm pa di im cs bu op onm mp ud um s3 ks ke rc].
  cbn [userMetadata set_userMetadata set_userMetadataDirty]. do 2 f_equal.
  apply map_eq. intros j.
  destruct v, v', (decide (k' = j)), (decide (k = j)); simplify_map_eq; done.
Qed.

Lemma setUserMeta_same k v inode :
  setUserMeta k v (setUserMeta k v inode) = setUserMeta k v inode.
Proof.
  unfold setUserMeta. destruct inode as [id nm attr atm pa di im cs bu op onm mp ud um s3 ks ke rc].
  cbn [userMetadata set_userMetadata set_userMetadataDirty]. do 2 f_equal.
  destruct v; [apply insert_insert_eq | apply delete_delete_eq].
Qed.

Lemma store_mode_idemp fs inode : store_mode fs (store_mode fs inode) = store_mode fs inode.
Proof.
  destruct (store_mode_frame fs inode) as [HA HD].
  destruct (written_values_congr fs inode (store_mode fs inode) HA HD) as (Hv & Hd & Hr).
  rewrite (store_mode_eq fs (store_mode fs inode)), Hv, Hd, Hr.
  rewrite (store_mode_eq fs inode).
  destruct (has_device inode); [apply setUserMeta_twice | apply setUserMeta_same].
Qed.

(** X19.  Setting the same mode again changes nothing: after a
    [setFileMode] that was not refused, a second one with the same mode is
    not refused either, reports no change and leaves the inode exactly as the
    first one left it. *)
Theorem X19_setFileMode_same_mode_again fs inode newMode inode1 changed :
  setFileMode fs inode newMode = (inode1, (changed, None)) ->
  setFileMode fs inode1 newMode = (inode1, (false, None)).
Proof.
  intros H.
  pose proof (setFileMode_inv _ _ _ _ _ H) as Hok.
  rewrite (setFileMode_accepted fs inode newMode Hok) in H.
  injection H as <- _.
  set (m := resulting_mode fs inode newMode).
  set (j := set_Attributes (set_Mode m (Attributes inode)) inode).
  destruct (store_mode_frame fs j) as [HA HD].
  assert (Hj : Mode (Attributes j) = m) by (by destruct inode).
  destruct (resulting_mode_bits (EnableSpecials (flags fs)) (EnablePerms (flags fs))
              (Mode (Attributes inode)) newMode) as [Hidem Hdir].
  assert (Hm : resulting_mode fs (store_mode fs j) newMode = m).
  { unfold resulting_mode at 1. rewrite HA, Hj. exact Hidem. }
  rewrite setFileMode_accepted.
  - rewrite Hm, HA, Hj, Z.eqb_refl. cbn [negb]. f_equal.
    replace (set_Attributes (set_Mode m (Attributes j)) (store_mode fs j)) with (store_mode fs j).
    + apply store_mode_idemp.
    + rewrite <- HA. rewrite <- Hj at 1. rewrite <- HA.
      generalize (store_mode fs j). by intros [? ? [] ? ? ? ? ? ? ? ? ? ? ? ? ? ? ?].
  - intros Hs. rewrite HA, Hj. by apply Hdir.
Qed.

(** X20.  An inode with extended attributes that are not flushed yet is not
    released when its lookup count drops to zero: after a successful
    [SetXattr] or [RemoveXattr] the inode is not CACHED, and a [DeRef] that
    brings the count to zero leaves the filesystem, and so the inode table,
    as it is. *)
Theorem X20_unflushed_xattr_survives_forget fs inode name fs2 inode2 n :
  (exists value flags, SetXattr fs inode name value flags = Ok (fs2, inode2, None))
  \/ RemoveXattr fs inode name = Ok (fs2, inode2, None) ->
  CacheState inode2 <> ST_CACHED
  /\ (wrap_int64 (refcnt inode2 - n) = 0 ->
      DeRef fs2 inode2 n = Ok (fs2, set_refcnt 0 inode2, true)).
Proof.
  intros H.
  assert (Hd : exists fs1 j, mark_metadata_dirty fs1 j = (fs2, inode2)).
  { destruct H as [(value & flags & H)|H].
    - unfold SetXattr in H.
      destruct (getXattrMap fs inode name true) as [[[fs1 inode1] [[r key]|err]]|]; [|done|done].
      match type of H with context [match ?x with Some err => _ | None => _ end] =>
        destruct x; [done|] end.
      destruct (meta_of r inode1) as [meta|]; [|done].
      destruct (mark_metadata_dirty fs1 _) as [fs2' inode2'] eqn:Hd.
      injection H as <- <-. eauto.
    - unfold RemoveXattr in H.
      destruct (getXattrMap fs inode name true) as [[[fs1 inode1] [[r key]|err]]|]; [|done|done].
      destruct (meta_has (meta_of r inode1) key); [|done].
      destruct (meta_of r inode1) as [meta|]; [|done].
      destruct (mark_metadata_dirty fs1 _) as [fs2' inode2'] eqn:Hd.
      injection H as <- <-. eauto. }
  destruct Hd as (fs1 & j & Hd).
  assert (Hc : CacheState inode2 <> ST_CACHED).
  { pose proof (mark_metadata_dirty_spec fs1 j) as Hs. rewrite Hd in Hs.
    destruct Hs as (_ & _ & H1 & H2).
    destruct (decide (CacheState j = ST_CACHED)) as [E|E].
    - destruct (H1 E) as [-> _]. done.
    - destruct (H2 E) as [-> _]. done. }
  split; [done|].
  intros Hz. unfold DeRef. rewrite Hz.
  replace (CacheState (set_refcnt 0 inode2)) with (CacheState inode2) by (by destruct inode2).
  apply Z.eqb_neq in Hc. by rewrite Hc.
Qed.

(** ** New inodes and [touch] *)

(** X21.  A new inode is a plain file that was never observed: it is no
    directory and no mount point, [GetAttributes] shows one link, size 0, the
    file mode and the owner of the flags and, having no times of its own, the
    root's modification time; and the first item observed for it cannot
    discard local state. *)
Theorem X21_NewInode_first_attributes fs now parent name :
  let inode := NewInode fs now parent name in
  let a := fst (GetAttributes fs inode) in
  snd (GetAttributes fs inode) = None
  /\ isDir inode = false /\ unbound inode
  /\ fa_Nlink a = 1 /\ fa_Size a = 0
  /\ fa_Mode a = flag_FileMode (flags fs)
  /\ fa_Uid a = flag_Uid (flags fs) /\ fa_Gid a = flag_Gid (flags fs)
  /\ fa_Mtime a = Mtime (rootAttrs fs) /\ fa_Crtime a = Mtime (rootAttrs fs)
  /\ ~ discards_local inode
  /\ (forall item, remote_changed item inode <->
        (exists etag, item_ETag item = Some etag /\ etag <> EmptyString)
        \/ item_Size item <> 0).
Proof.
  cbv zeta. unfold GetAttributes, InflateAttributes, NewInode, isDir, is_symlink, unbound,
    discards_local, remote_changed.
  cbn [fst snd dir userMetadata Attributes Mtime Size Mode Uid Gid Ctime Rdev CacheState
       knownETag knownSize].
  change (IsZero zeroTime) with true. cbv iota.
  cbn [fa_Nlink fa_Size fa_Mode fa_Uid fa_Gid fa_Mtime fa_Crtime].
  repeat (split; [done|]). split; [by intros [H _]|]. done.
Qed.

(** X22.  After [touch] the inode has times of its own: FUSE is shown the
    first reading of the clock as modification and creation time (when it is
    not the zero time) and the second as change and access time, and
    everything else as before; what reconciliation compares is untouched. *)
Theorem X22_touch_shows_the_clock fs now1 now2 inode :
  IsZero now1 = false ->
  let a := InflateAttributes fs (touch now1 now2 inode) in
  let b := InflateAttributes fs inode in
  fa_Mtime a = now1 /\ fa_Crtime a = now1 /\ fa_Ctime a = now2 /\ fa_Atime a = now2
  /\ fa_Mode a = fa_Mode b /\ fa_Nlink a = fa_Nlink b /\ fa_Size a = fa_Size b
  /\ fa_Uid a = fa_Uid b /\ fa_Gid a = fa_Gid b /\ fa_Rdev a = fa_Rdev b
  /\ (forall item, remote_changed item (touch now1 now2 inode) <-> remote_changed item inode).
Proof.
  intros Hz. cbv zeta.
  unfold InflateAttributes, touch, isDir, is_symlink, remote_changed.
  destruct inode as [id nm [sz mt ct ui gi rd mo] atm pa d im cs bu op onm mp ud um s3 ks ke rc].
  unfold set_Attributes, set_Ctime, set_Mtime.
  cbn [dir userMetadata Attributes Mtime Size Mode Uid Gid Ctime Rdev knownETag knownSize].
  rewrite Hz.
  destruct d; [|destruct um as [m|]; [destruct (bool_decide _)|]]; destruct (IsZero mt);
    cbn [fa_Nlink fa_Size fa_Mode fa_Uid fa_Gid fa_Mtime fa_Crtime fa_Ctime fa_Atime fa_Rdev];
    done.
Qed.

End Handles.

(** ** The properties on the concrete data *)

(** C2, counterexample to the claim as the spec words it: the sample file is
    listed again with the ETag and the size that the inode knows, with a
    later last-modified time and with metadata; as nothing changed remotely,
    the inode keeps its [Mtime], its [Ctime] and its [userMetadata]. *)
Lemma C2_counterexample_unchanged_item_keeps_times :
  let inode' :=
    snd (SetFromBlobItem ToLowerASCII sample_ParseUint sample_ConvertFileMode sample_rangeOrder
           sample_fs sample_now sample_item_same sample_file_cached) in
  item_LastModified sample_item_same = Some (mkTime 63800000300 0)
  /\ Mtime (Attributes inode') = mkTime 63800000100 0
  /\ Ctime (Attributes inode') = mkTime 63800000100 0
  /\ Mtime (Attributes inode') <> mkTime 63800000300 0
  /\ (unescapeMetadata ToLowerASCII sample_rangeOrder (item_Metadata sample_item_same)
        ≫= lookup "k"%string) = Some (list_byte_of_string "v")
  /\ (userMetadata inode' ≫= lookup "k"%string) = None.
Proof. vm_compute. repeat split; congruence. Qed.

Lemma C2_witness_changed_item :
  remote_changed sample_item_changed sample_file
  /\ let inode' :=
       snd (SetFromBlobItem ToLowerASCII sample_ParseUint sample_ConvertFileMode
              sample_rangeOrder sample_fs sample_now sample_item_changed sample_file) in
     knownSize inode' = 20
     /\ Size (Attributes inode') = 20
     /\ Ctime (Attributes inode') = mkTime 63800000300 0.
Proof.
  assert (H : remote_changed sample_item_changed sample_file).
  { right. vm_compute. congruence. }
  split; [exact H|].
  destruct (C2_SetFromBlobItem_stores_observed ToLowerASCII sample_ParseUint
              sample_ConvertFileMode sample_rangeOrder sample_fs sample_now
              sample_item_changed sample_file) as (H1 & _ & H2 & _).
  destruct (H2 H) as (H3 & H4 & _).
  cbv zeta. split; [exact H1|]. split; [exact H3|exact H4].
Defined.

(** C3, counterexample to the claim as the spec words it: an implicit
    directory has the zero [Mtime]; it is presented with the root's [Mtime],
    which here is not the root's [Ctime]. *)
Lemma C3_counterexample_zero_mtime_is_root_mtime :
  let inode := ToDir sample_fs (NewInode sample_fs sample_now (Some sample_root) "d") in
  IsZero (Mtime (Attributes inode)) = true
  /\ fa_Mtime (InflateAttributes sample_fs inode) = Mtime (rootAttrs sample_fs)
  /\ fa_Mtime (InflateAttributes sample_fs inode) <> Ctime (rootAttrs sample_fs).
Proof. vm_compute. repeat split; congruence. Qed.

Lemma C4_witness_deref :
  (wrap_int64 (refcnt sample_file_cached - 1) = 0 /\ CacheState sample_file_cached = ST_CACHED)
  /\ (exists fs' inode',
        DeRef sample_forgotCnt_wrap sample_fs sample_file_cached 1 = Ok (fs', inode', true)
        /\ inodes fs' = delete 7 (inodes sample_fs)
        /\ forgotCnt fs' = 1)
  /\ DeRef sample_forgotCnt_wrap sample_fs sample_file 1
     = Ok (sample_fs, set_refcnt 0 sample_file, true)
  /\ DeRef sample_forgotCnt_wrap sample_fs sample_file 2 = Panic.
Proof.
  assert (H0 : wrap_int64 (refcnt sample_file_cached - 1) = 0) by reflexivity.
  assert (Hc : CacheState sample_file_cached = ST_CACHED) by reflexivity.
  split; [split; [exact H0|exact Hc]|].
  destruct (C4_DeRef_releases_when_cached sample_forgotCnt_wrap sample_fs sample_file_cached 1)
    as (_ & _ & H & _).
  destruct (C4_DeRef_releases_when_cached sample_forgotCnt_wrap sample_fs sample_file 1)
    as (_ & _ & _ & Hm & _).
  destruct (C4_DeRef_releases_when_cached sample_forgotCnt_wrap sample_fs sample_file 2)
    as (_ & Hp & _).
  split; [|split].
  - destruct (H H0 Hc) as (fs' & inode' & E & Hi & Hf & _).
    exists fs', inode'. split; [exact E|]. split; [exact Hi|exact Hf].
  - apply Hm; [reflexivity | vm_compute; congruence].
  - apply Hp. reflexivity.
Defined.


Lemma C6_witness_remove_absent :
  getXattrMap ToLowerASCII sample_ParseUint sample_ConvertFileMode sample_rangeOrder
    sample_mapAwsError sample_appendChildName sample_fs sample_file "user.nope" true
  = Ok (sample_fs, sample_file, inl (RefUser, "nope"%string))
  /\ RemoveXattr ToLowerASCII sample_ParseUint sample_ConvertFileMode sample_rangeOrder
       sample_mapAwsError sample_appendChildName sample_fs sample_file "user.nope"
     = Ok (sample_fs, sample_file, Some ENODATA).
Proof.
  assert (Hg : getXattrMap ToLowerASCII sample_ParseUint sample_ConvertFileMode
                 sample_rangeOrder sample_mapAwsError sample_appendChildName sample_fs
                 sample_file "user.nope" true
               = Ok (sample_fs, sample_file, inl (RefUser, "nope"%string)))
    by reflexivity.
  split; [exact Hg|].
  destruct (C6_RemoveXattr_absent_and_present _ _ _ _ _ _ _ _ _ _ _ _ _ Hg)
    as (meta & Hm & Habsent & _).
  apply Habsent. injection Hm as <-. reflexivity.
Defined.

Lemma C7_witness_security_capability :
  cloud sample_file = Ok (Some sample_backend, "f"%string)
  /\ GetXattr ToLowerASCII sample_ParseUint sample_ConvertFileMode sample_rangeOrder
       sample_mapAwsError sample_appendChildName sample_fs sample_file "security.capability"
     = Ok (sample_fs, sample_file, inr ENOSYS)
  /\ SetXattr ToLowerASCII sample_ParseUint sample_ConvertFileMode sample_rangeOrder
       sample_mapAwsError sample_appendChildName sample_fs sample_file "security.capability"
       (list_byte_of_string "x") 0
     = Ok (sample_fs, sample_file, Some EPERM)
  /\ getXattrMap ToLowerASCII sample_ParseUint sample_ConvertFileMode sample_rangeOrder
       sample_mapAwsError sample_appendChildName sample_fs sample_file "s3.etag" true
     = Ok (sample_fs, sample_file, inr EPERM).
Proof.
  assert (Hc : cloud sample_file = Ok (Some sample_backend, "f"%string)) by reflexivity.
  split; [exact Hc|].
  destruct (C7_xattr_namespace_routing ToLowerASCII sample_ParseUint sample_ConvertFileMode
              sample_rangeOrder sample_mapAwsError sample_appendChildName sample_fs
              sample_file sample_backend "f" "s3.etag" Hc) as (Hs3 & _ & Hget & Hset).
  split; [|split].
  - apply Hget. vm_compute. congruence.
  - apply Hset.
  - apply Hs3. reflexivity.
Defined.

(** C8, counterexample to the claim as the spec words it: with the
    special-files option off, a directory mode is given to a regular file
    and nothing is refused. *)
Lemma C8_counterexample_specials_off_no_refusal :
  let newMode := Z.lor ModeDir 493 in
  EnableSpecials (flags sample_fs_plain) = false
  /\ Z.land newMode ModeType <> Z.land (Mode (Attributes sample_file_cached)) ModeType
  /\ snd (snd (setFileMode sample_ConvertGolangMode sample_fs_plain sample_file_cached newMode))
     = None
  /\ Mode (Attributes (fst (setFileMode sample_ConvertGolangMode sample_fs_plain
                              sample_file_cached newMode))) = 493.
Proof. vm_compute. repeat split; congruence. Qed.

Lemma C8_witness_specials_on :
  (EnableSpecials (flags sample_fs) = true
   /\ Z.land (Z.lor ModeDir 493) ModeDir <> Z.land (Mode (Attributes sample_file)) ModeDir)
  /\ setFileMode sample_ConvertGolangMode sample_fs sample_file (Z.lor ModeDir 493)
     = (sample_file, (false, Some ENOTDIR))
  /\ exists inode',
       setFileMode sample_ConvertGolangMode sample_fs sample_file 493 = (inode', (true, None))
       /\ Mode (Attributes inode') = 493.
Proof.
  assert (Hr : EnableSpecials (flags sample_fs) = true
               /\ Z.land (Z.lor ModeDir 493) ModeDir
                  <> Z.land (Mode (Attributes sample_file)) ModeDir).
  { split; [reflexivity | vm_compute; congruence]. }
  split; [exact Hr|].
  destruct (C8_setFileMode_updates_mode sample_ConvertGolangMode sample_fs sample_file
              (Z.lor ModeDir 493)) as [Hrefused _].
  destruct (C8_setFileMode_updates_mode sample_ConvertGolangMode sample_fs sample_file 493)
    as [_ Hok].
  split; [exact (Hrefused Hr)|].
  destruct Hok as (inode' & changed & E & Hm & Hch & _).
  { intros [_ H]. apply H. reflexivity. }
  exists inode'. split; [|exact Hm].
  rewrite E. f_equal. f_equal.
  apply Hch. vm_compute. congruence.
Defined.

Lemma sample_xattrLiteral_ascii c : sample_xattrLiteral c = true -> is_ascii c = true.
Proof. destruct c as [[] [] [] [] [] [] [] []]; vm_compute; congruence. Qed.



(** ** The further properties on the concrete data *)

Lemma X1_witness_nested_file :
  exists c path, cloud sample_nested_file = Ok (c, path).
Proof.
  apply X1_cloud_no_panic. cbn. repeat split; eauto.
Defined.

Lemma X2_witness_mounted_file :
  cloud sample_mounted_file = Ok (Some sample_backend, "data/h"%string)
  /\ cloud sample_mount = Ok (Some sample_backend, "data"%string).
Proof.
  destruct (X2_cloud_under_mount sample_mounted_file sample_mount
              (mkDirInodeData (Some sample_backend) "data/" (-1)) sample_backend)
    as (H1 & H2 & _); try first [reflexivity | exact I | discriminate].
  split; [exact H1 | exact H2].
Defined.

Lemma X3_witness_nested_file :
  cloud sample_dir = Ok (Some sample_backend, "d"%string)
  /\ cloud sample_nested_file = Ok (Some sample_backend, "d/g"%string).
Proof.
  assert (H : cloud sample_dir = Ok (Some sample_backend, "d"%string)) by reflexivity.
  split; [exact H|].
  apply (X3_cloud_child_of_directory sample_nested_file sample_dir
           (mkDirInodeData None "" (-1)) sample_backend "d");
    first [reflexivity | exact I | discriminate].
Defined.

Lemma X4_witness_set_then_get :
  exists fs2 inode2,
    SetXattr ToLowerASCII sample_ParseUint sample_ConvertFileMode sample_rangeOrder
      sample_mapAwsError sample_appendChildName sample_fs sample_file_cached "user.k"
      (list_byte_of_string "v") 0 = Ok (fs2, inode2, None)
    /\ GetXattr ToLowerASCII sample_ParseUint sample_ConvertFileMode sample_rangeOrder
         sample_mapAwsError sample_appendChildName fs2 inode2 "user.k"
       = Ok (fs2, inode2, inl (list_byte_of_string "v")).
Proof.
  assert (H : exists fs2 inode2,
             SetXattr ToLowerASCII sample_ParseUint sample_ConvertFileMode sample_rangeOrder
               sample_mapAwsError sample_appendChildName sample_fs sample_file_cached "user.k"
               (list_byte_of_string "v") 0 = Ok (fs2, inode2, None))
    by (vm_compute; eauto).
  destruct H as (fs2 & inode2 & H). exists fs2, inode2. split; [exact H|].
  eapply X4_GetXattr_after_SetXattr. exact H.
Defined.

Lemma X5_witness_remove_then_get :
  exists fs2 inode2,
    RemoveXattr ToLowerASCII sample_ParseUint sample_ConvertFileMode sample_rangeOrder
      sample_mapAwsError sample_appendChildName sample_fs sample_file_cached "user.foo"
    = Ok (fs2, inode2, None)
    /\ GetXattr ToLowerASCII sample_ParseUint sample_ConvertFileMode sample_rangeOrder
         sample_mapAwsError sample_appendChildName fs2 inode2 "user.foo"
       = Ok (fs2, inode2, inr ENODATA).
Proof.
  assert (H : exists fs2 inode2,
             RemoveXattr ToLowerASCII sample_ParseUint sample_ConvertFileMode sample_rangeOrder
               sample_mapAwsError sample_appendChildName sample_fs sample_file_cached "user.foo"
             = Ok (fs2, inode2, None))
    by (vm_compute; eauto).
  destruct H as (fs2 & inode2 & H). exists fs2, inode2. split; [exact H|].
  eapply X5_GetXattr_after_RemoveXattr. exact H.
Defined.

Lemma X6_witness_new_file :
  GetXattr ToLowerASCII sample_ParseUint sample_ConvertFileMode sample_rangeOrder
    sample_mapAwsError sample_appendChildName sample_fs sample_file_new "user.k"
  = Ok (emit (EvHeadBlob "n") sample_fs, sample_file_new, inr ENOSYS).
Proof.
  apply (X6_GetXattr_missing_object ToLowerASCII sample_ParseUint sample_ConvertFileMode
           sample_rangeOrder sample_mapAwsError sample_appendChildName sample_fs
           sample_file_new sample_backend "n" "user.k" "NotFound");
    try reflexivity.
  split; [reflexivity|]. split; [reflexivity|]. vm_compute. discriminate.
Defined.

Lemma sample_mapAwsError_total err : sample_mapAwsError err <> None.
Proof. unfold sample_mapAwsError. destruct (String.eqb err "NotFound"); discriminate. Qed.

Lemma X7_witness_implicit_directory :
  exists fs1 inode1,
    fillXattr ToLowerASCII sample_ParseUint sample_ConvertFileMode sample_rangeOrder
      sample_mapAwsError sample_appendChildName sample_fs sample_dir = Ok (fs1, inode1, None)
    /\ ImplicitDir inode1 = true
    /\ fillXattr ToLowerASCII sample_ParseUint sample_ConvertFileMode sample_rangeOrder
         sample_mapAwsError sample_appendChildName fs1 inode1 = Ok (fs1, inode1, None).
Proof.
  assert (H : exists fs1 inode1,
             fillXattr ToLowerASCII sample_ParseUint sample_ConvertFileMode sample_rangeOrder
               sample_mapAwsError sample_appendChildName sample_fs sample_dir
             = Ok (fs1, inode1, None) /\ ImplicitDir inode1 = true)
    by (vm_compute; eauto).
  destruct H as (fs1 & inode1 & H & Hi). exists fs1, inode1.
  split; [exact H|]. split; [exact Hi|].
  eapply X7_fillXattr_directory_once; [exact sample_mapAwsError_total | | exact H].
  reflexivity.
Defined.

Lemma X8_witness_ref_deref :
  DeRef sample_forgotCnt_wrap sample_fs (Ref sample_file_cached) 1
  = Ok (sample_fs, sample_file_cached, false).
Proof.
  apply (X8_DeRef_after_Ref sample_forgotCnt_wrap sample_fs sample_file_cached).
  - vm_compute. split; congruence.
  - left. reflexivity.
Defined.

Lemma X11_witness_directory_stays :
  Z.land (Mode (Attributes (setMetadata ToLowerASCII sample_ParseUint sample_ConvertFileMode
                              sample_rangeOrder sample_fs
                              (Some {[ "mode"%string := "33188"%string ]}) sample_dir)))
    ModeType
  = Z.land (Mode (Attributes sample_dir)) ModeType.
Proof.
  apply X11_setMetadata_keeps_type. vm_compute. discriminate.
Defined.

Lemma X12_witness_setuid_dropped :
  Z.land (Mode (Attributes (setMetadata ToLowerASCII sample_ParseUint sample_ConvertFileMode
                              sample_rangeOrder sample_fs
                              (Some {[ "mode"%string := "35309"%string ]}) sample_file_new)))
    ModeSpecialBits = 0.
Proof.
  apply (X12_setMetadata_clears_special_bits ToLowerASCII sample_ParseUint
           sample_ConvertFileMode sample_rangeOrder sample_fs
           (Some {[ "mode"%string := "35309"%string ]}) sample_file_new
           {[ "mode"%string := list_byte_of_string "35309" ]} (list_byte_of_string "35309"));
    reflexivity.
Defined.

Lemma sample_rangeOrder_perm (V : Type) (m : gmap string V) :
  sample_rangeOrder V m ≡ₚ map_to_list m.
Proof. reflexivity. Qed.

Lemma X16_witness_colliding_keys :
  (size (default (∅ : gmap string bytes)
           (unescapeMetadata ToLowerASCII sample_rangeOrder
              (Some {[ "A"%string := "1"%string; "a"%string := "2"%string ]})))
   <= size ({[ "A"%string := "1"%string; "a"%string := "2"%string ]} : gmap string string))%nat.
Proof.
  destruct (X16_metadata_conversions_do_not_grow ToLowerASCII sample_rangeOrder
              sample_xattrLiteral false sample_rangeOrder_perm) as [H1 _].
  apply H1. reflexivity.
Defined.

Lemma X17_witness_sample_file :
  exists names,
    ListXattr ToLowerASCII sample_ParseUint sample_ConvertFileMode sample_rangeOrder
      sample_mapAwsError sample_appendChildName sample_fs sample_file
    = Ok (sample_fs, sample_file, inl names)
    /\ names = ["s3.etag"%string; "user.foo"%string]
    /\ Sorted (fun s t : string => Is_true (String.leb s t)) names.
Proof.
  assert (H : ListXattr ToLowerASCII sample_ParseUint sample_ConvertFileMode sample_rangeOrder
                sample_mapAwsError sample_appendChildName sample_fs sample_file
              = Ok (sample_fs, sample_file, inl ["s3.etag"%string; "user.foo"%string]))
    by (vm_compute; reflexivity).
  eexists. split; [exact H|]. split; [reflexivity|].
  destruct (X17_ListXattr_sorted_names ToLowerASCII sample_ParseUint sample_ConvertFileMode
              sample_rangeOrder sample_mapAwsError sample_appendChildName
              sample_rangeOrder_perm _ _ _ _ _ H) as (c & path & _ & Hs & _).
  exact Hs.
Defined.

Lemma X18_witness_sample_file :
  exists v,
    GetXattr ToLowerASCII sample_ParseUint sample_ConvertFileMode sample_rangeOrder
      sample_mapAwsError sample_appendChildName sample_fs sample_file "s3.etag"
    = Ok (sample_fs, sample_file, inl v).
Proof.
  assert (H : ListXattr ToLowerASCII sample_ParseUint sample_ConvertFileMode sample_rangeOrder
                sample_mapAwsError sample_appendChildName sample_fs sample_file
              = Ok (sample_fs, sample_file, inl ["s3.etag"%string; "user.foo"%string]))
    by (vm_compute; reflexivity).
  assert (Hc : cloud sample_file = Ok (Some sample_backend, "f"%string)) by reflexivity.
  destruct (X18_listed_names_are_readable ToLowerASCII sample_ParseUint sample_ConvertFileMode
              sample_rangeOrder sample_mapAwsError sample_appendChildName
              sample_rangeOrder_perm _ _ _ _ _ _ _ H Hc eq_refl "s3.etag"%string) as [Hv _].
  - apply list_elem_of_In. left. reflexivity.
  - apply Hv. vm_compute. discriminate.
Defined.

Lemma X19_witness_chmod_twice :
  exists inode1,
    setFileMode sample_ConvertGolangMode sample_fs sample_file 493 = (inode1, (true, None))
    /\ setFileMode sample_ConvertGolangMode sample_fs inode1 493 = (inode1, (false, None)).
Proof.
  assert (H : exists inode1,
             setFileMode sample_ConvertGolangMode sample_fs sample_file 493
             = (inode1, (true, None))) by (vm_compute; eauto).
  destruct H as (inode1 & H). exists inode1. split; [exact H|].
  eapply X19_setFileMode_same_mode_again. exact H.
Defined.

Lemma X20_witness_forget_after_setxattr :
  exists fs2 inode2,
    SetXattr ToLowerASCII sample_ParseUint sample_ConvertFileMode sample_rangeOrder
      sample_mapAwsError sample_appendChildName sample_fs sample_file_cached "user.k"
      (list_byte_of_string "v") 0 = Ok (fs2, inode2, None)
    /\ CacheState inode2 <> ST_CACHED
    /\ DeRef sample_forgotCnt_wrap fs2 inode2 1 = Ok (fs2, set_refcnt 0 inode2, true).
Proof.
  assert (H : exists fs2 inode2,
             SetXattr ToLowerASCII sample_ParseUint sample_ConvertFileMode sample_rangeOrder
               sample_mapAwsError sample_appendChildName sample_fs sample_file_cached "user.k"
               (list_byte_of_string "v") 0 = Ok (fs2, inode2, None)
             /\ refcnt inode2 = 1)
    by (vm_compute; eauto).
  destruct H as (fs2 & inode2 & H & Hr). exists fs2, inode2. split; [exact H|].
  assert (Hz : wrap_int64 (refcnt inode2 - 1) = 0) by (rewrite Hr; reflexivity).
  destruct (X20_unflushed_xattr_survives_forget ToLowerASCII sample_ParseUint
              sample_ConvertFileMode sample_rangeOrder sample_mapAwsError sample_appendChildName
              sample_forgotCnt_wrap sample_fs sample_file_cached "user.k" fs2 inode2 1)
    as [Hc Hd].
  - left. eauto.
  - split; [exact Hc | exact (Hd Hz)].
Defined.

Lemma X22_witness_touched_file :
  fa_Mtime (InflateAttributes sample_fs (touch sample_now sample_now sample_file)) = sample_now.
Proof.
  destruct (X22_touch_shows_the_clock sample_fs sample_now sample_now sample_file) as [H _].
  - reflexivity.
  - exact H.
Defined.
